(** * AsyncTCPSock: the sockets of [src/AsyncTCP.cpp]

    A shallow embedding of [class AsyncClient] (declared in
    [src/AsyncTCP.h], implemented in [src/AsyncTCP.cpp]) and proofs about
    its write queue, its timeouts and its teardown paths, followed by
    [class AsyncServer] and two pieces of the service task.

    Conventions of the embedding.
    - C integers are [Z]; every arithmetic operation on a [uint32_t] that
      can leave the range is wrapped with [u32], the narrowing of [int] to
      [int8_t] in [_error] with [to_int8].  [size_t] is 32 bits wide on the
      target of the library (ESP32).
    - Pointers are addresses in [Z], [0] being [NULL].
    - A [std::function] slot is a [bool]: [true] when a handler is stored.
      Invoking the handler is an event of the output; so are the system
      calls whose effect is outside the object ([lwip_close], [free],
      [lwip_write], [lwip_read], [lwip_connect], [setsockopt] of
      SO_LINGER).  The calls that only ask ([select], [getsockopt],
      [socket], [fcntl], [malloc]) are not events: their answers are
      arguments.  What the handler itself does to the object ([add],
      [close], ...) is a later call of the history.
    - What the operating system answers (the value of [millis()], the
      result and [errno] of [lwip_write], [lwip_read], [select], ...) is an
      argument of the method that asks for it.  Every method asks each
      question at most once on any path.
    - [_writeQueue.front()] on an empty [std::deque] has undefined
      behaviour: the embedding stops with [Undef], and a history that
      contains such a call has no outcome.
    - The FreeRTOS mutexes are not modelled: methods run one at a time.
    - The calls the service task makes into a client are the hooks, with
      the answers of the system as arguments; of the task itself only the
      loop that fills the descriptor sets and the pause of a tick are
      embedded.  The address getters and [errorToString] are not. *)

From Stdlib Require Import ZArith List Bool Lia.
Import ListNotations.
Local Open Scope Z_scope.

(** ** Machine integers *)

Definition u32 (z : Z) : Z := z mod 2 ^ 32.

Definition to_int8 (z : Z) : Z := (z + 128) mod 256 - 128.

(** The value returned by a system call together with the [errno] it left. *)
Record sysret : Type := mkret { rv : Z; errno : Z }.

(** ** Constants of the platform headers

    [TCP_SND_BUF], [EAGAIN], [EWOULDBLOCK] and [ERR_ABRT] come from the lwIP
    headers, which are not part of the repository: they are parameters of
    the development.  [EINPROGRESS] is pinned to 119 by the preprocessor
    check in [AsyncClient::connect]. *)
Class Platform : Type := {
  TCP_SND_BUF : Z;
  EAGAIN : Z;
  EWOULDBLOCK : Z;
  ERR_ABRT : Z
}.

Definition EINPROGRESS : Z := 119.
Definition ASYNC_MAX_ACK_TIME : Z := 5000.
Definition ASYNC_WRITE_FLAG_COPY : Z := 1.
Definition ASYNC_WRITE_FLAG_MORE : Z := 2.
Definition MAX_PAYLOAD_SIZE : Z := 1360.

(** ** Data model *)

(** [queued_writebuf] of AsyncTCP.h. *)
Record queued_writebuf : Type := mkbuf {
  data : Z;
  length : Z;
  written : Z;
  queued_at : Z;
  written_at : Z;
  write_errno : Z;
  owned : bool
}.

Definition set_written (v : Z) (b : queued_writebuf) : queued_writebuf :=
  mkbuf (data b) (length b) v (queued_at b) (written_at b) (write_errno b) (owned b).

Definition set_written_at (v : Z) (b : queued_writebuf) : queued_writebuf :=
  mkbuf (data b) (length b) (written b) (queued_at b) v (write_errno b) (owned b).

Definition set_write_errno (v : Z) (b : queued_writebuf) : queued_writebuf :=
  mkbuf (data b) (length b) (written b) (queued_at b) (written_at b) v (owned b).

(** The fields of [AsyncSocketBase] and [AsyncClient] that the methods
    below read or write. *)
Record AsyncClient : Type := mkclient {
  _socket : Z;
  _isdnsfinished : bool;
  _connect_cb : bool;
  _discard_cb : bool;
  _sent_cb : bool;
  _error_cb : bool;
  _recv_cb : bool;
  _timeout_cb : bool;
  _poll_cb : bool;
  _rx_last_packet : Z;
  _rx_since_timeout : Z;
  _ack_timeout : Z;
  _connect_addr : Z;
  _connect_port : Z;
  _writeQueue : list queued_writebuf;
  _ack_timeout_signaled : bool;
  _writeSpaceRemaining : Z;
  _conn_state : Z
}.

Definition set_socket (v : Z) (c : AsyncClient) : AsyncClient :=
  mkclient v (_isdnsfinished c) (_connect_cb c) (_discard_cb c) (_sent_cb c)
    (_error_cb c) (_recv_cb c) (_timeout_cb c) (_poll_cb c) (_rx_last_packet c)
    (_rx_since_timeout c) (_ack_timeout c) (_connect_addr c) (_connect_port c)
    (_writeQueue c) (_ack_timeout_signaled c) (_writeSpaceRemaining c) (_conn_state c).

Definition set_isdnsfinished (v : bool) (c : AsyncClient) : AsyncClient :=
  mkclient (_socket c) v (_connect_cb c) (_discard_cb c) (_sent_cb c)
    (_error_cb c) (_recv_cb c) (_timeout_cb c) (_poll_cb c) (_rx_last_packet c)
    (_rx_since_timeout c) (_ack_timeout c) (_connect_addr c) (_connect_port c)
    (_writeQueue c) (_ack_timeout_signaled c) (_writeSpaceRemaining c) (_conn_state c).

Definition set_connect_cb (v : bool) (c : AsyncClient) : AsyncClient :=
  mkclient (_socket c) (_isdnsfinished c) v (_discard_cb c) (_sent_cb c)
    (_error_cb c) (_recv_cb c) (_timeout_cb c) (_poll_cb c) (_rx_last_packet c)
    (_rx_since_timeout c) (_ack_timeout c) (_connect_addr c) (_connect_port c)
    (_writeQueue c) (_ack_timeout_signaled c) (_writeSpaceRemaining c) (_conn_state c).

Definition set_discard_cb (v : bool) (c : AsyncClient) : AsyncClient :=
  mkclient (_socket c) (_isdnsfinished c) (_connect_cb c) v (_sent_cb c)
    (_error_cb c) (_recv_cb c) (_timeout_cb c) (_poll_cb c) (_rx_last_packet c)
    (_rx_since_timeout c) (_ack_timeout c) (_connect_addr c) (_connect_port c)
    (_writeQueue c) (_ack_timeout_signaled c) (_writeSpaceRemaining c) (_conn_state c).

Definition set_sent_cb (v : bool) (c : AsyncClient) : AsyncClient :=
  mkclient (_socket c) (_isdnsfinished c) (_connect_cb c) (_discard_cb c) v
    (_error_cb c) (_recv_cb c) (_timeout_cb c) (_poll_cb c) (_rx_last_packet c)
    (_rx_since_timeout c) (_ack_timeout c) (_connect_addr c) (_connect_port c)
    (_writeQueue c) (_ack_timeout_signaled c) (_writeSpaceRemaining c) (_conn_state c).

Definition set_error_cb (v : bool) (c : AsyncClient) : AsyncClient :=
  mkclient (_socket c) (_isdnsfinished c) (_connect_cb c) (_discard_cb c) (_sent_cb c)
    v (_recv_cb c) (_timeout_cb c) (_poll_cb c) (_rx_last_packet c)
    (_rx_since_timeout c) (_ack_timeout c) (_connect_addr c) (_connect_port c)
    (_writeQueue c) (_ack_timeout_signaled c) (_writeSpaceRemaining c) (_conn_state c).

Definition set_recv_cb (v : bool) (c : AsyncClient) : AsyncClient :=
  mkclient (_socket c) (_isdnsfinished c) (_connect_cb c) (_discard_cb c) (_sent_cb c)
    (_error_cb c) v (_timeout_cb c) (_poll_cb c) (_rx_last_packet c)
    (_rx_since_timeout c) (_ack_timeout c) (_connect_addr c) (_connect_port c)
    (_writeQueue c) (_ack_timeout_signaled c) (_writeSpaceRemaining c) (_conn_state c).

Definition set_timeout_cb (v : bool) (c : AsyncClient) : AsyncClient :=
  mkclient (_socket c) (_isdnsfinished c) (_connect_cb c) (_discard_cb c) (_sent_cb c)
    (_error_cb c) (_recv_cb c) v (_poll_cb c) (_rx_last_packet c)
    (_rx_since_timeout c) (_ack_timeout c) (_connect_addr c) (_connect_port c)
    (_writeQueue c) (_ack_timeout_signaled c) (_writeSpaceRemaining c) (_conn_state c).

Definition set_poll_cb (v : bool) (c : AsyncClient) : AsyncClient :=
  mkclient (_socket c) (_isdnsfinished c) (_connect_cb c) (_discard_cb c) (_sent_cb c)
    (_error_cb c) (_recv_cb c) (_timeout_cb c) v (_rx_last_packet c)
    (_rx_since_timeout c) (_ack_timeout c) (_connect_addr c) (_connect_port c)
    (_writeQueue c) (_ack_timeout_signaled c) (_writeSpaceRemaining c) (_conn_state c).

Definition set_rx_last_packet (v : Z) (c : AsyncClient) : AsyncClient :=
  mkclient (_socket c) (_isdnsfinished c) (_connect_cb c) (_discard_cb c) (_sent_cb c)
    (_error_cb c) (_recv_cb c) (_timeout_cb c) (_poll_cb c) v
    (_rx_since_timeout c) (_ack_timeout c) (_connect_addr c) (_connect_port c)
    (_writeQueue c) (_ack_timeout_signaled c) (_writeSpaceRemaining c) (_conn_state c).

Definition set_rx_since_timeout (v : Z) (c : AsyncClient) : AsyncClient :=
  mkclient (_socket c) (_isdnsfinished c) (_connect_cb c) (_discard_cb c) (_sent_cb c)
    (_error_cb c) (_recv_cb c) (_timeout_cb c) (_poll_cb c) (_rx_last_packet c)
    v (_ack_timeout c) (_connect_addr c) (_connect_port c)
    (_writeQueue c) (_ack_timeout_signaled c) (_writeSpaceRemaining c) (_conn_state c).

Definition set_ack_timeout (v : Z) (c : AsyncClient) : AsyncClient :=
  mkclient (_socket c) (_isdnsfinished c) (_connect_cb c) (_discard_cb c) (_sent_cb c)
    (_error_cb c) (_recv_cb c) (_timeout_cb c) (_poll_cb c) (_rx_last_packet c)
    (_rx_since_timeout c) v (_connect_addr c) (_connect_port c)
    (_writeQueue c) (_ack_timeout_signaled c) (_writeSpaceRemaining c) (_conn_state c).

Definition set_connect_addr (v : Z) (c : AsyncClient) : AsyncClient :=
  mkclient (_socket c) (_isdnsfinished c) (_connect_cb c) (_discard_cb c) (_sent_cb c)
    (_error_cb c) (_recv_cb c) (_timeout_cb c) (_poll_cb c) (_rx_last_packet c)
    (_rx_since_timeout c) (_ack_timeout c) v (_connect_port c)
    (_writeQueue c) (_ack_timeout_signaled c) (_writeSpaceRemaining c) (_conn_state c).

Definition set_connect_port (v : Z) (c : AsyncClient) : AsyncClient :=
  mkclient (_socket c) (_isdnsfinished c) (_connect_cb c) (_discard_cb c) (_sent_cb c)
    (_error_cb c) (_recv_cb c) (_timeout_cb c) (_poll_cb c) (_rx_last_packet c)
    (_rx_since_timeout c) (_ack_timeout c) (_connect_addr c) v
    (_writeQueue c) (_ack_timeout_signaled c) (_writeSpaceRemaining c) (_conn_state c).

Definition set_writeQueue (v : list queued_writebuf) (c : AsyncClient) : AsyncClient :=
  mkclient (_socket c) (_isdnsfinished c) (_connect_cb c) (_discard_cb c) (_sent_cb c)
    (_error_cb c) (_recv_cb c) (_timeout_cb c) (_poll_cb c) (_rx_last_packet c)
    (_rx_since_timeout c) (_ack_timeout c) (_connect_addr c) (_connect_port c)
    v (_ack_timeout_signaled c) (_writeSpaceRemaining c) (_conn_state c).

Definition set_ack_timeout_signaled (v : bool) (c : AsyncClient) : AsyncClient :=
  mkclient (_socket c) (_isdnsfinished c) (_connect_cb c) (_discard_cb c) (_sent_cb c)
    (_error_cb c) (_recv_cb c) (_timeout_cb c) (_poll_cb c) (_rx_last_packet c)
    (_rx_since_timeout c) (_ack_timeout c) (_connect_addr c) (_connect_port c)
    (_writeQueue c) v (_writeSpaceRemaining c) (_conn_state c).

Definition set_writeSpaceRemaining (v : Z) (c : AsyncClient) : AsyncClient :=
  mkclient (_socket c) (_isdnsfinished c) (_connect_cb c) (_discard_cb c) (_sent_cb c)
    (_error_cb c) (_recv_cb c) (_timeout_cb c) (_poll_cb c) (_rx_last_packet c)
    (_rx_since_timeout c) (_ack_timeout c) (_connect_addr c) (_connect_port c)
    (_writeQueue c) (_ack_timeout_signaled c) v (_conn_state c).

Definition set_conn_state (v : Z) (c : AsyncClient) : AsyncClient :=
  mkclient (_socket c) (_isdnsfinished c) (_connect_cb c) (_discard_cb c) (_sent_cb c)
    (_error_cb c) (_recv_cb c) (_timeout_cb c) (_poll_cb c) (_rx_last_packet c)
    (_rx_since_timeout c) (_ack_timeout c) (_connect_addr c) (_connect_port c)
    (_writeQueue c) (_ack_timeout_signaled c) (_writeSpaceRemaining c) v.

(** ** Observable output *)

Inductive event : Type :=
| CbConnect                          (* _connect_cb(arg, this) *)
| CbDiscard                          (* _discard_cb(arg, this) *)
| CbSent (len delay : Z)             (* _sent_cb(arg, this, len, delay) *)
| CbError (err : Z)                  (* _error_cb(arg, this, err) *)
| CbRecv (len : Z)                   (* _recv_cb(arg, this, _readBuffer, len) *)
| CbTimeout (delay : Z)              (* _timeout_cb(arg, this, delay) *)
| CbPoll                             (* _poll_cb(arg, this) *)
| SysClose (fd : Z)                  (* lwip_close(fd) *)
| SysFree (p : Z)                    (* ::free(p) *)
| SysWrite (fd p n : Z)              (* lwip_write(fd, p, n) *)
| SysRead (fd : Z)                   (* lwip_read(fd, _readBuffer, MAX_PAYLOAD_SIZE) *)
| SysConnect (fd ip port : Z)        (* lwip_connect(fd, {ip, port}) *)
| SysLinger (fd : Z).                (* setsockopt(fd, SOL_SOCKET, SO_LINGER, {1, 0}) *)

(** ** The monad of the methods: a state (the object), an output (the
    events) and undefined behaviour. *)

Inductive result (A : Type) : Type :=
| Done (a : A) (c : AsyncClient) (out : list event)
| Undef.
Arguments Done {A} a c out.
Arguments Undef {A}.

Definition M (A : Type) : Type := AsyncClient -> result A.

Definition ret {A} (a : A) : M A := fun c => Done a c [].

Definition bind {A B} (m : M A) (f : A -> M B) : M B :=
  fun c =>
    match m c with
    | Undef => Undef
    | Done a c1 o1 =>
        match f a c1 with
        | Undef => Undef
        | Done b c2 o2 => Done b c2 (o1 ++ o2)
        end
    end.

Definition get : M AsyncClient := fun c => Done c c [].
Definition modify (f : AsyncClient -> AsyncClient) : M unit := fun c => Done tt (f c) [].
Definition emit (e : event) : M unit := fun c => Done tt c [e].
Definition undefined {A} : M A := fun _ => Undef.

Notation "x <- m ;; k" := (bind m (fun x => k))
  (at level 61, m at next level, right associativity).
Notation "m ;;; k" := (bind m (fun _ => k))
  (at level 61, right associativity).

(** [when b m]: [if (b) m;] *)
Definition when (b : bool) (m : M unit) : M unit := if b then m else ret tt.

(** [_writeQueue.front()]: a reference to the first element; undefined on
    an empty deque. *)
Definition front : M queued_writebuf :=
  c <- get ;;
  match _writeQueue c with
  | [] => undefined
  | b :: _ => ret b
  end.

(** Assignment through the reference returned by [front()]. *)
Definition update_front (f : queued_writebuf -> queued_writebuf) : M unit :=
  c <- get ;;
  match _writeQueue c with
  | [] => undefined
  | b :: q => modify (set_writeQueue (f b :: q))
  end.

(** [_writeQueue.pop_front()]. *)
Definition pop_front : M unit :=
  c <- get ;;
  match _writeQueue c with
  | [] => undefined
  | _ :: q => modify (set_writeQueue q)
  end.

(** ** The methods of [AsyncClient] *)

(** What the resolver answers to [dns_gethostbyname]. *)
Inductive dns_answer : Type :=
| DnsOk (addr : Z)       (* ERR_OK, address filled in *)
| DnsInProgress          (* ERR_INPROGRESS, the callback comes later *)
| DnsFailed.             (* any other err_t *)

Section Client.

Context {P : Platform}.

(** [AsyncClient::AsyncClient(int sockfd)].  [_connect_addr] is not
    initialised by the constructor: its content is [uninit]. *)
Definition AsyncClient_new (sockfd : Z) (uninit : Z) : AsyncClient :=
  let c0 := mkclient (-1) false false false false false false false false
              0 0 ASYNC_MAX_ACK_TIME uninit 0 [] false (u32 TCP_SND_BUF) 0 in
  if sockfd =? -1 then c0
  else set_socket sockfd (set_conn_state 4 c0).

Definition connected (c : AsyncClient) : bool :=
  if _socket c =? -1 then false else _conn_state c =? 4.

Definition freeable (c : AsyncClient) : bool :=
  if _socket c =? -1 then true
  else (_conn_state c =? 0) || (4 <? _conn_state c).

Definition free (c : AsyncClient) : bool :=
  if _socket c =? -1 then true
  else (_conn_state c =? 0) || (4 <? _conn_state c).

Definition space (c : AsyncClient) : Z :=
  if negb (connected c) then 0 else _writeSpaceRemaining c.

Definition canSend (c : AsyncClient) : bool := 0 <? space c.

Definition setRxTimeout (timeout : Z) : M unit := modify (set_rx_since_timeout timeout).
Definition setAckTimeout (timeout : Z) : M unit := modify (set_ack_timeout timeout).

Definition onConnect (cb : bool) : M unit := modify (set_connect_cb cb).
Definition onDisconnect (cb : bool) : M unit := modify (set_discard_cb cb).
Definition onAck (cb : bool) : M unit := modify (set_sent_cb cb).
Definition onError (cb : bool) : M unit := modify (set_error_cb cb).
Definition onData (cb : bool) : M unit := modify (set_recv_cb cb).
Definition onTimeout (cb : bool) : M unit := modify (set_timeout_cb cb).
Definition onPoll (cb : bool) : M unit := modify (set_poll_cb cb).

Definition _removeAllCallbacks : M unit :=
  modify (set_connect_cb false) ;;;
  modify (set_discard_cb false) ;;;
  modify (set_sent_cb false) ;;;
  modify (set_error_cb false) ;;;
  modify (set_recv_cb false) ;;;
  modify (set_timeout_cb false) ;;;
  modify (set_poll_cb false).

(** The [free] calls of the loop of [_clearWriteQueue], one iteration per
    queued buffer, front first. *)
Fixpoint clear_frees (q : list queued_writebuf) : list event :=
  match q with
  | [] => []
  | b :: q' => (if owned b then [SysFree (data b)] else []) ++ clear_frees q'
  end.

(** [while (_writeQueue.size() > 0) { if (front().owned) free(front().data);
    pop_front(); }] *)
Definition _clearWriteQueue : M unit :=
  fun c => Done tt (set_writeQueue [] c) (clear_frees (_writeQueue c)).

Definition _close : M unit :=
  modify (set_conn_state 0) ;;;
  c <- get ;;
  emit (SysClose (_socket c)) ;;;
  modify (set_socket (-1)) ;;;
  _clearWriteQueue ;;;
  c <- get ;;
  when (_discard_cb c) (emit CbDiscard) ;;;
  _removeAllCallbacks.

(** [_error(int8_t err)]: the argument is narrowed to [int8_t] at the call. *)
Definition _error (err : Z) : M unit :=
  let err := to_int8 err in
  modify (set_conn_state 0) ;;;
  c <- get ;;
  emit (SysClose (_socket c)) ;;;
  modify (set_socket (-1)) ;;;
  _clearWriteQueue ;;;
  c <- get ;;
  when (_error_cb c) (emit (CbError err)) ;;;
  c <- get ;;
  when (_discard_cb c) (emit CbDiscard) ;;;
  _removeAllCallbacks.

(** [close(bool now)]: [if (_socket != -1) _close();], whatever [now]. *)
Definition close : M unit :=
  c <- get ;;
  when (negb (_socket c =? -1)) _close.

(** [connect(IPAddress ip, uint16_t port)].  [task_ok] is the result of
    [_start_asyncsock_task()], [sockfd] that of [socket()], [cr] that of
    [lwip_connect].  The [close(sockfd)] of the failure path is, inside the
    class and with the macro of lwIP undefined, the member [close(bool)]
    above with the descriptor converted to [bool]: [lwip_close] is not
    called on [sockfd]. *)
Definition connect (ip port : Z) (task_ok : bool) (sockfd : Z) (cr : sysret) : M bool :=
  c <- get ;;
  if negb (_socket c =? -1) then ret false
  else if negb task_ok then ret false
  else if sockfd <? 0 then ret false
  else
    emit (SysConnect sockfd ip port) ;;;
    if (rv cr <? 0) && negb (errno cr =? EINPROGRESS) then
      close ;;; ret false
    else
      modify (set_conn_state 2) ;;;
      modify (set_socket sockfd) ;;;
      ret true.

(** [connect(const char* host, uint16_t port)]. *)
Definition connect_host (port : Z) (dns : dns_answer)
    (task_ok : bool) (sockfd : Z) (cr : sysret) : M bool :=
  if negb task_ok then ret false
  else match dns with
       | DnsOk addr => connect addr port task_ok sockfd cr
       | DnsInProgress => modify (set_connect_port port) ;;; ret true
       | DnsFailed => ret false
       end.

(** [_tcpsock_dns_found(name, ipaddr, arg)], the resolver callback;
    [ipaddr] is [None] for a null pointer. *)
Definition _tcpsock_dns_found (ipaddr : option Z) : M unit :=
  match ipaddr with
  | Some a => modify (set_connect_addr a)
  | None => modify (set_connect_addr 0)
  end ;;;
  modify (set_isdnsfinished true).

Definition _sockDelayedConnect (task_ok : bool) (sockfd : Z) (cr : sysret) : M unit :=
  c <- get ;;
  if negb (_connect_addr c =? 0) then
    connect (_connect_addr c) (_connect_port c) task_ok sockfd cr ;;; ret tt
  else
    when (_error_cb c) (emit (CbError (-55))) ;;;
    c <- get ;;
    when (_discard_cb c) (emit CbDiscard).

(** [_flushWriteQueue()]: [wr] is the answer of [lwip_write], [now] the
    value of [millis()]. *)
Definition _flushWriteQueue (wr : sysret) (now : Z) : M bool :=
  c <- get ;;
  if _socket c =? -1 then ret false
  else
    qwb <- front ;;
    if (write_errno qwb =? 0) && (written qwb <? length qwb) then
      let p := data qwb + written qwb in
      let n := u32 (length qwb - written qwb) in
      emit (SysWrite (_socket c) p n) ;;;
      let r := rv wr in
      if 0 <=? r then
        update_front (fun b => set_written (u32 (written b + r)) b) ;;;
        modify (fun c => set_writeSpaceRemaining (u32 (_writeSpaceRemaining c + r)) c) ;;;
        qwb <- front ;;
        when (length qwb <=? written qwb) (update_front (set_written_at now)) ;;;
        ret true
      else if (errno wr =? EAGAIN) || (errno wr =? EWOULDBLOCK) then
        ret false
      else
        update_front (set_write_errno (errno wr)) ;;;
        ret false
    else ret false.

(** The locals of [_sockIsWriteable] that survive the critical section. *)
Record sent_locals : Type := mklocals {
  activity : bool;
  hasErr : bool;
  sent_errno : Z;
  sent_cb_length : Z;
  sent_cb_delay : Z
}.

(** [_sockIsWriteable()]: [gso] and [sockerr] are the result of
    [getsockopt(SO_ERROR)] and the value it stored, [wr] the answer of
    [lwip_write], [now] the value of [millis()]. *)
Definition _sockIsWriteable (gso : sysret) (sockerr : Z) (wr : sysret) (now : Z) : M bool :=
  c <- get ;;
  if (_conn_state c =? 2) || (_conn_state c =? 3) then
    if rv gso <? 0 then _error (errno gso) ;;; ret false
    else if negb (sockerr =? 0) then _error sockerr ;;; ret false
    else
      modify (set_conn_state 4) ;;;
      modify (set_rx_last_packet now) ;;;
      modify (set_ack_timeout_signaled false) ;;;
      c <- get ;;
      when (_connect_cb c) (emit CbConnect) ;;;
      ret true
  else
    l <- (match _writeQueue c with
          | [] => ret (mklocals false false 0 0 0)
          | _ :: _ =>
              act <- _flushWriteQueue wr now ;;
              h <- front ;;
              let err := negb (write_errno h =? 0) in
              let e := if err then write_errno h else 0 in
              if negb err && (length h <=? written h) then
                c <- get ;;
                when (_rx_last_packet c <? written_at h)
                     (modify (set_rx_last_packet (written_at h))) ;;;
                when (owned h) (emit (SysFree (data h))) ;;;
                pop_front ;;;
                ret (mklocals act err e (length h) (u32 (written_at h - queued_at h)))
              else ret (mklocals act err e 0 0)
          end) ;;
    c <- get ;;
    (if hasErr l then _error (sent_errno l)
     else when ((0 <? sent_cb_length l) && _sent_cb c)
               (emit (CbSent (sent_cb_length l) (sent_cb_delay l)))) ;;;
    ret (activity l).

(** [_sockIsReadable()]: [now] is the value of [millis()], [rd] the answer
    of [lwip_read]. *)
Definition _sockIsReadable (rd : sysret) (now : Z) : M unit :=
  modify (set_rx_last_packet now) ;;;
  c <- get ;;
  emit (SysRead (_socket c)) ;;;
  let r := rv rd in
  if 0 <? r then when (_recv_cb c) (emit (CbRecv r))
  else if r =? 0 then _close
  else if (errno rd =? EAGAIN) || (errno rd =? EWOULDBLOCK) then ret tt
  else _error (errno rd).

(** [_sockPoll()]: [now] is the value of [millis()]. *)
Definition _sockPoll (now : Z) : M unit :=
  c <- get ;;
  if _socket c =? -1 then ret tt
  else
    h <- front ;;
    let sent_delay := u32 (now - queued_at h) in
    if negb (Nat.eqb (List.length (_writeQueue c)) 0)
       && negb (_ack_timeout_signaled c)
       && negb (_ack_timeout c =? 0)
       && (_ack_timeout c <=? sent_delay) then
      modify (set_ack_timeout_signaled true) ;;;
      when (_timeout_cb c) (emit (CbTimeout sent_delay))
    else if negb (_rx_since_timeout c =? 0)
            && (u32 (_rx_since_timeout c * 1000) <=? u32 (now - _rx_last_packet c)) then
      _close
    else when (_poll_cb c) (emit CbPoll).

(** [add(data, size, apiflags)]: [mem] is the pointer returned by [malloc]
    (asked only with the COPY flag), [now] the value of [millis()]. *)
Definition add (data_ size apiflags : Z) (mem : Z) (now : Z) : M Z :=
  c <- get ;;
  if negb (connected c) || (data_ =? 0) || (size <=? 0) then ret 0
  else
    let room := space c in
    if room =? 0 then ret 0
    else
      let will_send := if room <? size then room else size in
      let copy := negb (Z.land apiflags ASYNC_WRITE_FLAG_COPY =? 0) in
      if copy && (mem =? 0) then ret 0
      else
        let n_entry :=
          mkbuf (if copy then mem else data_) will_send 0 now 0 0 copy in
        modify (fun c => set_writeQueue (_writeQueue c ++ [n_entry]) c) ;;;
        modify (fun c => set_writeSpaceRemaining (u32 (_writeSpaceRemaining c - will_send)) c) ;;;
        modify (set_ack_timeout_signaled false) ;;;
        ret will_send.

(** [send()]: [sel] is the result of the zero-timeout [select].  The
    [select] itself is made in every call, on [_socket + 1] with [_socket]
    in the set, also when [_socket] is -1; it is an input of the model and
    is not recorded among the events. *)
Definition send (sel : Z) (wr : sysret) (now : Z) : M bool :=
  (if 0 <? sel then _flushWriteQueue wr now ;;; ret tt else ret tt) ;;;
  ret true.

(** [write(data, size, apiflags)]. *)
Definition write (data_ size apiflags : Z) (mem : Z) (now : Z)
    (sel : Z) (wr : sysret) (now' : Z) : M Z :=
  will_send <- add data_ size apiflags mem now ;;
  if will_send =? 0 then ret 0
  else
    sent <- send sel wr now' ;;
    if negb sent then ret 0 else ret will_send.

Definition abort : M Z :=
  c <- get ;;
  when (negb (_socket c =? -1)) (emit (SysLinger (_socket c)) ;;; _close) ;;;
  ret (to_int8 ERR_ABRT).

End Client.

(** ** Histories of one client

    An [op] is one call into the object, by the service task
    ([_asynctcpsock_task] calls the four hooks), by the resolver or by the
    application, together with what the system answers during the call. *)
Inductive op : Type :=
| OpConnect (ip port : Z) (task_ok : bool) (sockfd : Z) (cr : sysret)
| OpConnectHost (port : Z) (dns : dns_answer) (task_ok : bool) (sockfd : Z) (cr : sysret)
| OpDnsFound (ipaddr : option Z)
| OpDelayedConnect (task_ok : bool) (sockfd : Z) (cr : sysret)
| OpWriteable (gso : sysret) (sockerr : Z) (wr : sysret) (now : Z)
| OpReadable (rd : sysret) (now : Z)
| OpPoll (now : Z)
| OpAdd (data_ size apiflags mem now : Z)
| OpSend (sel : Z) (wr : sysret) (now : Z)
| OpWrite (data_ size apiflags mem now sel : Z) (wr : sysret) (now' : Z)
| OpClose
| OpAbort
| OpSetRxTimeout (timeout : Z)
| OpSetAckTimeout (timeout : Z)
| OpOnConnect (cb : bool)
| OpOnDisconnect (cb : bool)
| OpOnAck (cb : bool)
| OpOnError (cb : bool)
| OpOnData (cb : bool)
| OpOnTimeout (cb : bool)
| OpOnPoll (cb : bool).

Section Histories.

Context {P : Platform}.

Definition step (o : op) : M unit :=
  match o with
  | OpConnect ip port task_ok sockfd cr => connect ip port task_ok sockfd cr ;;; ret tt
  | OpConnectHost port dns task_ok sockfd cr =>
      connect_host port dns task_ok sockfd cr ;;; ret tt
  | OpDnsFound ipaddr => _tcpsock_dns_found ipaddr
  | OpDelayedConnect task_ok sockfd cr =>
      (* the service task clears _isdnsfinished, then calls the hook *)
      modify (set_isdnsfinished false) ;;; _sockDelayedConnect task_ok sockfd cr
  | OpWriteable gso sockerr wr now => _sockIsWriteable gso sockerr wr now ;;; ret tt
  | OpReadable rd now => _sockIsReadable rd now
  | OpPoll now => _sockPoll now
  | OpAdd data_ size apiflags mem now => add data_ size apiflags mem now ;;; ret tt
  | OpSend sel wr now => send sel wr now ;;; ret tt
  | OpWrite data_ size apiflags mem now sel wr now' =>
      write data_ size apiflags mem now sel wr now' ;;; ret tt
  | OpClose => close
  | OpAbort => abort ;;; ret tt
  | OpSetRxTimeout t => setRxTimeout t
  | OpSetAckTimeout t => setAckTimeout t
  | OpOnConnect cb => onConnect cb
  | OpOnDisconnect cb => onDisconnect cb
  | OpOnAck cb => onAck cb
  | OpOnError cb => onError cb
  | OpOnData cb => onData cb
  | OpOnTimeout cb => onTimeout cb
  | OpOnPoll cb => onPoll cb
  end.

Fixpoint run (ops : list op) : M unit :=
  match ops with
  | [] => ret tt
  | o :: ops' => step o ;;; run ops'
  end.

End Histories.

(** ** Predicates and closed forms used by the statements and the proofs *)

Section Derived.

Context {P : Platform}.

(** Descriptor/state coherence. *)
Definition coherent (c : AsyncClient) : Prop :=
  _socket c = -1 <-> _conn_state c = 0.

(** The object after either teardown: state CLOSED, descriptor -1, empty
    queue, no handler left. *)
Definition torn_down (c : AsyncClient) : AsyncClient :=
  mkclient (-1) (_isdnsfinished c) false false false false false false false
    (_rx_last_packet c) (_rx_since_timeout c) (_ack_timeout c) (_connect_addr c)
    (_connect_port c) [] (_ack_timeout_signaled c) (_writeSpaceRemaining c) 0.

Definition is_CbError (e : event) : bool :=
  match e with CbError _ => true | _ => false end.

Definition is_CbTimeout (e : event) : bool :=
  match e with CbTimeout _ => true | _ => false end.

Definition is_CbSent (e : event) : bool :=
  match e with CbSent _ _ => true | _ => false end.

Definition is_SysWrite (e : event) : bool :=
  match e with SysWrite _ _ _ => true | _ => false end.

Definition count (f : event -> bool) (out : list event) : nat :=
  List.length (filter f out).

(** The test guarding the single [lwip_write] of [_flushWriteQueue]. *)
Definition wants_write (h : queued_writebuf) : bool :=
  (write_errno h =? 0) && (written h <? length h).

Definition is_again (wr : sysret) : bool :=
  (errno wr =? EAGAIN) || (errno wr =? EWOULDBLOCK).

(** The head buffer after a [lwip_write] that returned [r >= 0]. *)
Definition advanced (r now : Z) (h : queued_writebuf) : queued_writebuf :=
  let h1 := set_written (u32 (written h + r)) h in
  if length h1 <=? written h1 then set_written_at now h1 else h1.

Definition the_write (c : AsyncClient) (h : queued_writebuf) : event :=
  SysWrite (_socket c) (data h + written h) (u32 (length h - written h)).

(** [ensures m c Q]: if [m] run from [c] is defined, its result, final
    state and output satisfy [Q]. *)
Definition ensures {A} (m : M A) (c : AsyncClient)
    (Q : A -> AsyncClient -> list event -> Prop) : Prop :=
  match m c with
  | Done a c' out => Q a c' out
  | Undef => True
  end.

Definition teardown_out (c : AsyncClient) (err : option Z) : list event :=
  SysClose (_socket c) :: clear_frees (_writeQueue c)
    ++ match err with
       | Some e => if _error_cb c then [CbError (to_int8 e)] else []
       | None => []
       end
    ++ (if _discard_cb c then [CbDiscard] else []).

Definition connecting (c : AsyncClient) : bool :=
  (_conn_state c =? 2) || (_conn_state c =? 3).

(** The object once the pending connect has succeeded. *)
Definition established (now : Z) (c : AsyncClient) : AsyncClient :=
  set_ack_timeout_signaled false (set_rx_last_packet now (set_conn_state 4 c)).

(** The object after the head buffer [h1] has been retired. *)
Definition retired (h1 : queued_writebuf) (q1 : list queued_writebuf)
    (c1 : AsyncClient) : AsyncClient :=
  set_writeQueue q1
    (if _rx_last_packet c1 <? written_at h1
     then set_rx_last_packet (written_at h1) c1 else c1).

Definition retire_out (h1 : queued_writebuf) (c1 : AsyncClient) : list event :=
  (if owned h1 then [SysFree (data h1)] else [])
    ++ (if (0 <? length h1) && _sent_cb c1
        then [CbSent (length h1) (u32 (written_at h1 - queued_at h1))] else []).

(** The two tests of [_sockPoll]. *)
Definition ack_timed_out (now : Z) (h : queued_writebuf) (c : AsyncClient) : bool :=
  negb (_ack_timeout_signaled c)
  && negb (_ack_timeout c =? 0)
  && (_ack_timeout c <=? u32 (now - queued_at h)).

Definition rx_timed_out (now : Z) (c : AsyncClient) : bool :=
  negb (_rx_since_timeout c =? 0)
  && (u32 (_rx_since_timeout c * 1000) <=? u32 (now - _rx_last_packet c)).

(** The four early returns of [add] (the first three share one test). *)
Definition add_rejects (c : AsyncClient) (data_ size apiflags mem : Z) : bool :=
  negb (connected c) || (data_ =? 0) || (size <=? 0)
  || (space c =? 0)
  || (negb (Z.land apiflags ASYNC_WRITE_FLAG_COPY =? 0) && (mem =? 0)).

Definition will_send (c : AsyncClient) (size : Z) : Z :=
  if space c <? size then space c else size.

Definition n_entry (c : AsyncClient) (data_ size apiflags mem now : Z) : queued_writebuf :=
  let copy := negb (Z.land apiflags ASYNC_WRITE_FLAG_COPY =? 0) in
  mkbuf (if copy then mem else data_) (will_send c size) 0 now 0 0 copy.

Definition enqueued (c : AsyncClient) (data_ size apiflags mem now : Z) : AsyncClient :=
  set_ack_timeout_signaled false
    (set_writeSpaceRemaining (u32 (_writeSpaceRemaining c - will_send c size))
       (set_writeQueue (_writeQueue c ++ [n_entry c data_ size apiflags mem now]) c)).

Definition connect_refused (c : AsyncClient) (task_ok : bool) (sockfd : Z) : bool :=
  negb (_socket c =? -1) || negb task_ok || (sockfd <? 0).

(** Every path of [_sockIsWriteable]. *)
Definition writeable_post (c : AsyncClient) (wr : sysret) (now : Z)
    (a : bool) (c' : AsyncClient) (out : list event) : Prop :=
  (connecting c = true /\
     ((c' = torn_down c /\ exists e, out = teardown_out c (Some e))
      \/ (c' = established now c /\ a = true
          /\ out = if _connect_cb c then [CbConnect] else [])))
  \/ (connecting c = false /\ _writeQueue c = [] /\ c' = c /\ out = [])
  \/ (connecting c = false /\ _writeQueue c <> [] /\
      exists c1 out1 h1 q1,
        _flushWriteQueue wr now c = Done a c1 out1 /\ _writeQueue c1 = h1 :: q1 /\
        ((write_errno h1 <> 0 /\ c' = torn_down c1
          /\ out = out1 ++ teardown_out c1 (Some (write_errno h1)))
         \/ (write_errno h1 = 0 /\ length h1 <= written h1
             /\ c' = retired h1 q1 c1 /\ out = out1 ++ retire_out h1 c1)
         \/ (write_errno h1 = 0 /\ written h1 < length h1 /\ c' = c1 /\ out = out1))).

(** C2 as it is stated: when flush-head returns, the head buffer [h'] is
    fully written with [written_at] set to [now], or the last write failed
    with EAGAIN/EWOULDBLOCK, or an error is latched in [write_errno]. *)
Definition flush_claimed (wr : sysret) (now : Z)
    (h' : queued_writebuf) : Prop :=
  (written h' = length h' /\ written_at h' = now)
  \/ (rv wr < 0 /\ is_again wr = true)
  \/ write_errno h' <> 0.

(** C6 as it is stated: [add] returns 0 and changes nothing in exactly four
    cases, and accepts [min(size, space())] bytes in every other case. *)
Definition add_claimed (c : AsyncClient)
    (data_ size apiflags mem now : Z) : Prop :=
  let rejected :=
    _conn_state c <> 4 \/ data_ = 0 \/ size <= 0 \/ space c = 0 in
  (rejected -> add data_ size apiflags mem now c = Done 0 c [])
  /\ (~ rejected ->
      exists c' b,
        add data_ size apiflags mem now c = Done (Z.min size (space c)) c' []
        /\ _writeQueue c' = _writeQueue c ++ [b]
        /\ written b = 0 /\ write_errno b = 0
        /\ _writeSpaceRemaining c' = _writeSpaceRemaining c - Z.min size (space c)
        /\ _ack_timeout_signaled c' = false).

Definition is_connect_op (o : op) : bool :=
  match o with
  | OpConnect _ _ _ _ _ | OpConnectHost _ _ _ _ _ | OpDelayedConnect _ _ _ => true
  | _ => false
  end.

Definition is_enqueue_op (o : op) : bool :=
  match o with
  | OpAdd _ _ _ _ _ | OpWrite _ _ _ _ _ _ _ _ => true
  | _ => false
  end.

Definition is_poll_op (o : op) : bool :=
  match o with OpPoll _ => true | _ => false end.

(** How the descriptor and the state move in one call. *)
Definition moves (o : op) (c c' : AsyncClient) : Prop :=
  (_socket c' = -1 /\ _conn_state c' = 0)
  \/ (_socket c' = _socket c /\ _conn_state c' = _conn_state c)
  \/ (connecting c = true /\ _socket c' = _socket c /\ _conn_state c' = 4)
  \/ (is_connect_op o = true /\ _socket c = -1 /\ 0 <= _socket c' /\ _conn_state c' = 2).

(** How the ack-timeout latch moves in one call, and how many times
    [on_timeout] is invoked. *)
Definition latches (o : op) (c c' : AsyncClient) (out : list event) : Prop :=
  (count is_CbTimeout out = 0%nat
   /\ (_ack_timeout_signaled c' = _ack_timeout_signaled c
       \/ is_enqueue_op o = true
       \/ connecting c = true))
  \/ (is_poll_op o = true /\ _ack_timeout_signaled c = false
      /\ _ack_timeout_signaled c' = true /\ (count is_CbTimeout out <= 1)%nat).

(** Calls that neither enqueue nor start a connection. *)
Definition quiet (o : op) : bool := negb (is_enqueue_op o) && negb (is_connect_op o).

Fixpoint sum_length (q : list queued_writebuf) : Z :=
  match q with [] => 0 | b :: q' => length b + sum_length q' end.

Fixpoint sum_written (q : list queued_writebuf) : Z :=
  match q with [] => 0 | b :: q' => written b + sum_written q' end.

(** The contract of [lwip_write(fd, p, n)]: it returns at most [n]. *)
Definition write_contract (wr : sysret) (c : AsyncClient) : Prop :=
  match _writeQueue c with
  | [] => True
  | h :: _ => rv wr <= u32 (length h - written h)
  end.

Definition op_contract (o : op) (c : AsyncClient) : Prop :=
  match o with
  | OpWriteable _ _ wr _ => write_contract wr c
  | OpSend _ wr _ => write_contract wr c
  | OpWrite data_ size apiflags mem now _ wr _ =>
      match add data_ size apiflags mem now c with
      | Done _ c1 _ => write_contract wr c1
      | Undef => True
      end
  | _ => True
  end.

(** Every write of the history [ops], run from [c], obeys the contract. *)
Fixpoint obeys (ops : list op) (c : AsyncClient) : Prop :=
  match ops with
  | [] => True
  | o :: ops' =>
      op_contract o c
      /\ match step o c with
         | Done _ c' _ => obeys ops' c'
         | Undef => True
         end
  end.

Definition buf_ok (b : queued_writebuf) : Prop :=
  0 <= written b <= length b /\ length b < 2 ^ 32.

(** The accounting invariant of an open client. *)
Definition accounted (c : AsyncClient) : Prop :=
  Forall buf_ok (_writeQueue c)
  /\ 0 <= _writeSpaceRemaining c
  /\ _writeSpaceRemaining c
     = u32 TCP_SND_BUF - sum_length (_writeQueue c) + sum_written (_writeQueue c).

Definition accounted_or_closed (c : AsyncClient) : Prop :=
  _socket c = -1 \/ accounted c.

(** What [add] guarantees of every buffer it queues, with the free space a
    value of [uint32_t]. *)
Definition positive (c : AsyncClient) : Prop :=
  0 <= _writeSpaceRemaining c /\ Forall (fun b => 0 < length b) (_writeQueue c).

Definition is_SysClose (e : event) : bool :=
  match e with SysClose _ => true | _ => false end.

End Derived.

(** ** Concrete clients for the examples *)

(** A sample platform for the concrete examples: the send window of
    5840 bytes and lwIP's numbering of [EAGAIN] (= [EWOULDBLOCK]) and
    [ERR_ABRT]. *)
#[export] Instance sample_platform : Platform :=
  {| TCP_SND_BUF := 5840; EAGAIN := 11; EWOULDBLOCK := 11; ERR_ABRT := -13 |}.

(** A client wrapping the accepted descriptor 3, and the same client after
    [add] has queued a 10-byte copy at address 2000 at time 0. *)
Definition accepted3 : AsyncClient := AsyncClient_new 3 0.

Definition queued10 : AsyncClient :=
  set_writeSpaceRemaining 5830
    (set_writeQueue [mkbuf 2000 10 0 0 0 0 true] accepted3).

(** A history for the examples: an outbound connect that succeeds, a
    10-byte copy queued and written in two passes, its retirement, then the
    peer closing. *)
Definition sample_history : list op :=
  [ OpOnAck true; OpOnDisconnect true;
    OpConnect 16777343 80 true 5 (mkret (-1) 119);
    OpWriteable (mkret 0 0) 0 (mkret 0 0) 10;
    OpAdd 1000 10 ASYNC_WRITE_FLAG_COPY 2000 20;
    OpSend 1 (mkret 4 0) 30;
    OpWriteable (mkret 0 0) 0 (mkret 6 0) 40;
    OpReadable (mkret 0 0) 50 ].

(** ** More predicates on calls and outputs *)

Definition is_SysFree (e : event) : bool :=
  match e with SysFree _ => true | _ => false end.

Definition is_CbDiscard (e : event) : bool :=
  match e with CbDiscard => true | _ => false end.

(** The invocations of a handler among the events. *)
Definition is_callback (e : event) : bool :=
  match e with
  | CbConnect | CbDiscard | CbSent _ _ | CbError _ | CbRecv _ | CbTimeout _ | CbPoll => true
  | _ => false
  end.

(** The seven handler slots. *)
Definition slots (c : AsyncClient) : list bool :=
  [_connect_cb c; _discard_cb c; _sent_cb c; _error_cb c; _recv_cb c;
   _timeout_cb c; _poll_cb c].

(** No handler is stored. *)
Definition silent (c : AsyncClient) : Prop := slots c = repeat false 7.

(** The calls that store a handler. *)
Definition is_register_op (o : op) : bool :=
  match o with
  | OpOnConnect _ | OpOnDisconnect _ | OpOnAck _ | OpOnError _ | OpOnData _
  | OpOnTimeout _ | OpOnPoll _ => true
  | _ => false
  end.

Definition is_shutdown_op (o : op) : bool :=
  match o with OpClose | OpAbort => true | _ => false end.

(** The calls of the application and the idle poll, none of which does
    anything to a closed client. *)
Definition is_api_op (o : op) : bool :=
  match o with
  | OpAdd _ _ _ _ _ | OpSend _ _ _ | OpWrite _ _ _ _ _ _ _ _ | OpClose | OpAbort
  | OpPoll _ => true
  | _ => false
  end.

Section Ownership.

Context {P : Platform}.

(** The queued buffers whose data the client must free. *)
Definition owned_count (q : list queued_writebuf) : nat :=
  List.length (filter owned q).

(** The copies one call takes ownership of: 1 for an [add] (alone or inside
    [write]) that is accepted with the COPY flag, 0 otherwise. *)
Definition copies_taken (o : op) (c : AsyncClient) : nat :=
  match o with
  | OpAdd data_ size apiflags mem _
  | OpWrite data_ size apiflags mem _ _ _ _ =>
      if add_rejects c data_ size apiflags mem then 0%nat
      else if negb (Z.land apiflags ASYNC_WRITE_FLAG_COPY =? 0) then 1%nat else 0%nat
  | _ => 0%nat
  end.

(** The copies taken along the history [ops] run from [c]. *)
Fixpoint copies (ops : list op) (c : AsyncClient) : nat :=
  match ops with
  | [] => 0%nat
  | o :: ops' =>
      (copies_taken o c
       + match step o c with
         | Done _ c' _ => copies ops' c'
         | Undef => 0
         end)%nat
  end.

End Ownership.

Section Ordering.

Context {P : Platform}.

(** The lengths [on_ack] reported, in order. *)
Fixpoint acked (out : list event) : list Z :=
  match out with
  | [] => []
  | CbSent len _ :: out' => len :: acked out'
  | _ :: out' => acked out'
  end.

(** The length one call queues: that of the buffer an accepted [add]
    (alone or inside [write]) appends. *)
Definition accepted_by (o : op) (c : AsyncClient) : list Z :=
  match o with
  | OpAdd data_ size apiflags mem _
  | OpWrite data_ size apiflags mem _ _ _ _ =>
      if add_rejects c data_ size apiflags mem then [] else [will_send c size]
  | _ => []
  end.

(** The lengths queued along the history [ops] run from [c], in order. *)
Fixpoint accepted (ops : list op) (c : AsyncClient) : list Z :=
  match ops with
  | [] => []
  | o :: ops' =>
      accepted_by o c
      ++ match step o c with
         | Done _ c' _ => accepted ops' c'
         | Undef => []
         end
  end.

(** Calls that neither start a connection nor replace the [on_ack]
    handler. *)
Definition keeps_ack_handler (o : op) : bool :=
  negb (is_connect_op o) && match o with OpOnAck _ => false | _ => true end.

(** What one call does to the acknowledged and the queued lengths of a
    client that keeps its [on_ack] handler. *)
Definition in_order (o : op) (c c' : AsyncClient) (out : list event) : Prop :=
  _socket c' = -1
  \/ (_sent_cb c' = true
      /\ acked out ++ map length (_writeQueue c')
         = map length (_writeQueue c) ++ accepted_by o c).

End Ordering.

(** ** The destructor and the socket option of the client *)

Section Release.

Context {P : Platform}.

(** [AsyncClient::~AsyncClient()]: [if (_socket != -1) _close();] (the
    write mutex it deletes is not modelled). *)
Definition AsyncClient_delete : M unit :=
  c <- get ;;
  when (negb (_socket c =? -1)) _close.

(** A closed client holds no buffer. *)
Definition drained (c : AsyncClient) : Prop :=
  _socket c = -1 -> _writeQueue c = [].

End Release.

(** [AsyncClient::setNoDelay(bool nodelay)]: the object is not changed; the
    result is the [setsockopt(TCP_NODELAY)] call made, as (descriptor,
    flag), none on a closed client. *)
Definition setNoDelay (nodelay : bool) (c : AsyncClient) : option (Z * bool) :=
  if _socket c =? -1 then None else Some (_socket c, nodelay).

(** * The listening socket: [AsyncServer] *)

Module Server.

Record AsyncServer : Type := mkserver {
  _socket : Z;                 (* of AsyncSocketBase; -1 when not listening *)
  _port : Z;
  _addr : Z;
  _noDelay : bool;
  _connect_cb : bool           (* true when a handler is stored *)
}.

Definition set_socket (v : Z) (s : AsyncServer) : AsyncServer :=
  mkserver v (_port s) (_addr s) (_noDelay s) (_connect_cb s).

Definition set_noDelay (v : bool) (s : AsyncServer) : AsyncServer :=
  mkserver (_socket s) (_port s) (_addr s) v (_connect_cb s).

Definition set_connect_cb (v : bool) (s : AsyncServer) : AsyncServer :=
  mkserver (_socket s) (_port s) (_addr s) (_noDelay s) v.

(** What the server does to the outside. *)
Inductive event : Type :=
| SysSocket (r : Z)                  (* socket(AF_INET, SOCK_STREAM, 0), returning r *)
| SysBind (fd addr port : Z)         (* bind(fd, {addr, htons(port)}) *)
| SysListen (fd backlog : Z)         (* listen(fd, backlog) *)
| SysNonblock (fd : Z)               (* fcntl(fd, F_SETFL, O_NONBLOCK) *)
| SysClose (fd : Z)                  (* lwip_close(fd) *)
| SysAccept (fd r : Z)               (* lwip_accept(fd, ...), returning r *)
| SysNoDelay (fd : Z) (flag : bool)  (* setsockopt(fd, IPPROTO_TCP, TCP_NODELAY, flag) *)
| CbClient (c : AsyncClient).        (* _connect_cb(arg, c) *)

(** [static uint8_t backlog = 5;] *)
Definition backlog : Z := 5.

(** [AsyncServer::AsyncServer(IPAddress addr, uint16_t port)]; the
    constructor taking a port alone is this one at the address IPADDR_ANY.
    [_socket] has the initialiser of [AsyncSocketBase]. *)
Definition AsyncServer_new (addr port : Z) : AsyncServer :=
  mkserver (-1) port addr false false.

Definition onClient (cb : bool) (s : AsyncServer) : AsyncServer :=
  set_connect_cb cb s.

(** [begin()]: [task_ok] is the result of [_start_asyncsock_task()],
    [sockfd] that of [socket()], [bind_r] and [listen_r] those of [bind]
    and [listen]. *)
Definition begin (task_ok : bool) (sockfd bind_r listen_r : Z) (s : AsyncServer)
    : AsyncServer * list event :=
  if negb (_socket s =? -1) then (s, [])
  else if negb task_ok then (s, [])
  else if sockfd <? 0 then (s, [SysSocket sockfd])
  else if bind_r <? 0 then
    (s, [SysSocket sockfd; SysBind sockfd (_addr s) (_port s); SysClose sockfd])
  else if listen_r <? 0 then
    (s, [SysSocket sockfd; SysBind sockfd (_addr s) (_port s);
         SysListen sockfd backlog; SysClose sockfd])
  else
    (set_socket sockfd s,
     [SysSocket sockfd; SysBind sockfd (_addr s) (_port s);
      SysListen sockfd backlog; SysNonblock sockfd]).

(** [end()]; the destructor is a call of it. *)
Definition end_ (s : AsyncServer) : AsyncServer * list event :=
  if _socket s =? -1 then (s, [])
  else (set_socket (-1) s, [SysClose (_socket s)]).

Section Accept.

Context {P : Platform}.

(** [_sockIsReadable()] of the server: [acc] is the result of
    [lwip_accept], [alloc_ok] tells whether [new AsyncClient] gave an
    object, [uninit] is the content of the member the constructor of the
    client leaves uninitialised.  The server itself is not changed. *)
Definition _sockIsReadable (acc : Z) (alloc_ok : bool) (uninit : Z) (s : AsyncServer)
    : list event :=
  if _connect_cb s then
    SysAccept (_socket s) acc ::
      (if acc <? 0 then []
       else if alloc_ok then
         let c := AsyncClient_new acc uninit in
         match setNoDelay (_noDelay s) c with
         | Some (fd, flag) => [SysNoDelay fd flag]
         | None => []
         end ++ [CbClient c]
       else [])
  else [].

End Accept.

(** The setter of the header, [setNoDelay(bool nodelay) { _noDelay = nodelay; }]. *)
Definition setNoDelay (nodelay : bool) (s : AsyncServer) : AsyncServer :=
  set_noDelay nodelay s.

(** One call into the server, with what the system answers during it. *)
Inductive op : Type :=
| OpBegin (task_ok : bool) (sockfd bind_r listen_r : Z)
| OpEnd
| OpOnClient (cb : bool)
| OpSetNoDelay (nodelay : bool)
| OpReadable (acc : Z) (alloc_ok : bool) (uninit : Z).

Section Histories.

Context {P : Platform}.

Definition step (o : op) (s : AsyncServer) : AsyncServer * list event :=
  match o with
  | OpBegin task_ok sockfd bind_r listen_r => begin task_ok sockfd bind_r listen_r s
  | OpEnd => end_ s
  | OpOnClient cb => (onClient cb s, [])
  | OpSetNoDelay nodelay => (setNoDelay nodelay s, [])
  | OpReadable acc alloc_ok uninit => (s, _sockIsReadable acc alloc_ok uninit s)
  end.

Fixpoint run (ops : list op) (s : AsyncServer) : AsyncServer * list event :=
  match ops with
  | [] => (s, [])
  | o :: ops' =>
      let (s1, out1) := step o s in
      let (s2, out2) := run ops' s1 in
      (s2, out1 ++ out2)
  end.

End Histories.

(** *** The descriptors the server holds *)

(** [remove_fd fd live]: [live] without its first [fd]; nothing when [fd]
    is not in it. *)
Fixpoint remove_fd (fd : Z) (live : list Z) : option (list Z) :=
  match live with
  | [] => None
  | x :: live' =>
      if x =? fd then Some live'
      else match remove_fd fd live' with
           | Some l => Some (x :: l)
           | None => None
           end
  end.

(** [open_fds out live]: the descriptors of the server that are open after
    the events [out], from those of [live]: a successful [socket()] opens
    one, [close] closes one; nothing when a descriptor is closed that is
    not open. *)
Fixpoint open_fds (out : list event) (live : list Z) : option (list Z) :=
  match out with
  | [] => Some live
  | SysSocket r :: out' => open_fds out' (if r <? 0 then live else live ++ [r])
  | SysClose fd :: out' =>
      match remove_fd fd live with
      | Some l => open_fds out' l
      | None => None
      end
  | _ :: out' => open_fds out' live
  end.

(** The descriptor a server holds. *)
Definition listening (s : AsyncServer) : list Z :=
  if _socket s =? -1 then [] else [_socket s].

(** The calls of a successful [begin()]. *)
Definition setup (fd addr port : Z) : list event :=
  [SysSocket fd; SysBind fd addr port; SysListen fd backlog; SysNonblock fd].

(** The events of [_sockIsReadable]. *)
Definition is_traffic (e : event) : bool :=
  match e with
  | SysAccept _ _ | SysNoDelay _ _ | CbClient _ => true
  | _ => false
  end.

(** The clients handed to the handler, in order. *)
Fixpoint clients (out : list event) : list AsyncClient :=
  match out with
  | [] => []
  | CbClient c :: out' => c :: clients out'
  | _ :: out' => clients out'
  end.

(** The descriptors [lwip_accept] returned, in order. *)
Fixpoint accepts (out : list event) : list Z :=
  match out with
  | [] => []
  | SysAccept _ r :: out' => if r <? 0 then accepts out' else r :: accepts out'
  | _ :: out' => accepts out'
  end.

(** The TCP_NODELAY calls, in order. *)
Fixpoint nodelays (out : list event) : list (Z * bool) :=
  match out with
  | [] => []
  | SysNoDelay fd flag :: out' => (fd, flag) :: nodelays out'
  | _ :: out' => nodelays out'
  end.

(** [new AsyncClient] gives an object in every call of the history. *)
Definition allocates (o : op) : bool :=
  match o with
  | OpReadable _ alloc_ok _ => alloc_ok
  | _ => true
  end.

(** The call stores no handler. *)
Definition keeps_unhandled (o : op) : bool :=
  match o with
  | OpOnClient cb => negb cb
  | _ => true
  end.

End Server.

(** The client as its constructor leaves it around an accepted descriptor. *)
Definition fresh {P : Platform} (c : AsyncClient) : Prop :=
  connected c = true /\ 0 <= _socket c /\ _writeQueue c = []
  /\ space c = u32 TCP_SND_BUF /\ silent c.

(** The invariant of a listening server: configuration unchanged, and the
    descriptor set up by the last successful [begin], with accept traffic
    only since. *)
Definition bound_as_configured (addr port : Z) (s : Server.AsyncServer)
    (out : list Server.event) : Prop :=
  Server._addr s = addr /\ Server._port s = port
  /\ (Server._socket s <> -1 ->
      0 <= Server._socket s
      /\ exists pre post,
           out = pre ++ Server.setup (Server._socket s) addr port ++ post
           /\ forallb Server.is_traffic post = true).

(** What the handler has been given: the accepted descriptors, each with
    TCP_NODELAY set, each in a client as constructed. *)
Definition handed_over {P : Platform} (out : list Server.event) : Prop :=
  map _socket (Server.clients out) = Server.accepts out
  /\ map fst (Server.nodelays out) = Server.accepts out
  /\ Forall fresh (Server.clients out).

(** * The service task: the pieces without a hook *)

Module Task.

(** The members of [AsyncSocketBase]. *)
Record AsyncSocketBase : Type := mkbase {
  _socket : Z;
  _selected : bool;
  _isdnsfinished : bool;
  _sock_lastactivity : Z
}.

Definition set_selected (v : bool) (b : AsyncSocketBase) : AsyncSocketBase :=
  mkbase (_socket b) v (_isdnsfinished b) (_sock_lastactivity b).

(** The state of the first loop of a tick: the objects visited so far, the
    descriptors given to [FD_SET] (the same for both sets), [max_sock]. *)
Record collected : Type := mkcollected {
  visited : list AsyncSocketBase;
  fd_set_calls : list Z;
  max_sock : Z
}.

(** The body of the loop that collects the active sockets. *)
Definition collect_one (acc : collected) (b : AsyncSocketBase) : collected :=
  if negb (_socket b =? -1) then
    mkcollected (visited acc ++ [set_selected true b])
                (fd_set_calls acc ++ [_socket b])
                (if max_sock acc <=? _socket b then _socket b + 1 else max_sock acc)
  else
    mkcollected (visited acc ++ [b]) (fd_set_calls acc) (max_sock acc).

(** [int max_sock = 0; for (it = begin; it != end; it++) ...] *)
Definition collect (l : list AsyncSocketBase) : collected :=
  fold_left collect_one l (mkcollected [] [] 0).

Definition INT_MAX : Z := 2 ^ 31 - 1.

(** [uint32_t d = (nActive == 0 && t2 - t1 < 125) ? 125 - (t2 - t1) : 1;]
    with [t1], [t2] the two values of [millis()]. *)
Definition tick_delay (nActive t1 t2 : Z) : Z :=
  if (nActive =? 0) && (u32 (t2 - t1) <? 125) then u32 (125 - u32 (t2 - t1)) else 1.

End Task.

(** What the loop keeps true of [max_sock] and the descriptors given to
    [FD_SET]. *)
Definition covered (acc : Task.collected) : Prop :=
  (forall fd, In fd (Task.fd_set_calls acc) -> fd < Task.max_sock acc)
  /\ (Task.max_sock acc = 0 \/ In (Task.max_sock acc - 1) (Task.fd_set_calls acc))
  /\ 0 <= Task.max_sock acc <= Task.INT_MAX.

(** ** The two claims that fail as they are stated, and the running totals *)

Section Claimed.

Context {P : Platform}.

(** C4 as it is stated, for the retirement of the head buffer: once the
    head buffer has retired, a stall of the next head buffer is reported:
    an idle poll that finds it older than a nonzero [_ack_timeout] invokes
    [on_timeout]. *)
Definition rearmed_claimed (c : AsyncClient) (now : Z) : Prop :=
  forall h q,
    _socket c <> -1 -> _writeQueue c = h :: q -> _timeout_cb c = true ->
    _ack_timeout c <> 0 -> _ack_timeout c <= u32 (now - queued_at h) ->
    exists c' out,
      _sockPoll now c = Done tt c' out /\ count is_CbTimeout out = 1%nat.

(** C3 as it is stated: on a connected client the free space is the
    initial window minus the sum of [length] plus the sum of [written] over
    the queued buffers. *)
Definition space_claimed (c : AsyncClient) : Prop :=
  connected c = true ->
  _writeSpaceRemaining c
  = u32 TCP_SND_BUF - sum_length (_writeQueue c) + sum_written (_writeQueue c).

Definition total (l : list Z) : Z := fold_right Z.add 0 l.

(** The answer of [lwip_write] a call is given, for the calls that flush. *)
Definition wr_of (o : op) : option sysret :=
  match o with
  | OpWriteable _ _ wr _ | OpSend _ wr _ | OpWrite _ _ _ _ _ _ wr _ => Some wr
  | _ => None
  end.

(** The bytes a call with the output [out] has written: the result of its
    [lwip_write], when it made one and the result is not negative. *)
Definition wrote (wr : sysret) (out : list event) : Z :=
  if Nat.eqb (count is_SysWrite out) 0 then 0
  else if 0 <=? rv wr then rv wr else 0.

Definition written_by (o : op) (c : AsyncClient) : Z :=
  match wr_of o, step o c with
  | Some wr, Done _ _ out => wrote wr out
  | _, _ => 0
  end.

(** The bytes written along the history [ops] run from [c]. *)
Fixpoint written_total (ops : list op) (c : AsyncClient) : Z :=
  match ops with
  | [] => 0
  | o :: ops' =>
      written_by o c
      + match step o c with
        | Done _ c' _ => written_total ops' c'
        | Undef => 0
        end
  end.

End Claimed.

(** * Proofs *)

(** ** Proof support *)

Ltac munfold :=
  unfold bind, ret, get, modify, emit, when, undefined,
         front, update_front, pop_front in *.

Section Teardown.

Context {P : Platform}.

Lemma _close_eq (c : AsyncClient) :
  _close c =
  Done tt (torn_down c)
       (SysClose (_socket c) :: clear_frees (_writeQueue c)
          ++ (if _discard_cb c then [CbDiscard] else [])).
Proof.
  destruct c as [s d cc dc]; destruct dc;
    unfold _close, _removeAllCallbacks, _clearWriteQueue; munfold; cbn;
    rewrite ?app_nil_r; reflexivity.
Qed.

Lemma _error_eq (err : Z) (c : AsyncClient) :
  _error err c =
  Done tt (torn_down c)
       (SysClose (_socket c) :: clear_frees (_writeQueue c)
          ++ (if _error_cb c then [CbError (to_int8 err)] else [])
          ++ (if _discard_cb c then [CbDiscard] else [])).
Proof.
  destruct c as [s d cc dc sc ec]; destruct dc, ec;
    unfold _error, _removeAllCallbacks, _clearWriteQueue; munfold; cbn;
    rewrite ?app_nil_r; reflexivity.
Qed.

Lemma coherent_torn_down (c : AsyncClient) : coherent (torn_down c).
Proof. unfold coherent; cbn; tauto. Qed.

End Teardown.

Arguments u32 z : simpl never.
Arguments to_int8 z : simpl never.

Lemma u32_range (z : Z) : 0 <= u32 z < 2 ^ 32.
Proof. unfold u32. apply Z.mod_pos_bound. lia. Qed.

Lemma u32_small (z : Z) : 0 <= z < 2 ^ 32 -> u32 z = z.
Proof. intros H. unfold u32. apply Z.mod_small. exact H. Qed.

(** ** One pass of [_flushWriteQueue], path by path *)

Section Flush.

Context {P : Platform}.

Lemma flush_closed (c : AsyncClient) wr now :
  _socket c = -1 -> _flushWriteQueue wr now c = Done false c [].
Proof.
  intros Hs. unfold _flushWriteQueue. munfold. cbn. rewrite Hs. reflexivity.
Qed.

Lemma flush_empty (c : AsyncClient) wr now :
  _socket c <> -1 -> _writeQueue c = [] -> _flushWriteQueue wr now c = Undef.
Proof.
  intros Hs Hq. unfold _flushWriteQueue. munfold. cbn.
  apply Z.eqb_neq in Hs. rewrite Hs, Hq. reflexivity.
Qed.

Lemma flush_skip (c : AsyncClient) wr now h q :
  _socket c <> -1 -> _writeQueue c = h :: q -> wants_write h = false ->
  _flushWriteQueue wr now c = Done false c [].
Proof.
  intros Hs Hq Hw. unfold _flushWriteQueue. munfold. cbn.
  apply Z.eqb_neq in Hs. unfold wants_write in Hw.
  rewrite Hs, Hq. cbn. rewrite Hw. reflexivity.
Qed.

Lemma flush_ok (c : AsyncClient) wr now h q :
  _socket c <> -1 -> _writeQueue c = h :: q -> wants_write h = true ->
  0 <= rv wr ->
  _flushWriteQueue wr now c =
  Done true
       (set_writeSpaceRemaining (u32 (_writeSpaceRemaining c + rv wr))
          (set_writeQueue (advanced (rv wr) now h :: q) c))
       [the_write c h].
Proof.
  intros Hs Hq Hw Hr. unfold _flushWriteQueue. munfold. cbn.
  apply Z.eqb_neq in Hs. unfold wants_write in Hw. apply Z.leb_le in Hr.
  repeat (cbn; rewrite ?Hs, ?Hq, ?Hw, ?Hr).
  unfold advanced, the_write. cbn.
  destruct (length h <=? u32 (written h + rv wr)); reflexivity.
Qed.

Lemma flush_again (c : AsyncClient) wr now h q :
  _socket c <> -1 -> _writeQueue c = h :: q -> wants_write h = true ->
  rv wr < 0 -> is_again wr = true ->
  _flushWriteQueue wr now c = Done false c [the_write c h].
Proof.
  intros Hs Hq Hw Hr Ha. unfold _flushWriteQueue. munfold. cbn.
  apply Z.eqb_neq in Hs. unfold wants_write in Hw. unfold is_again in Ha.
  assert (Hr' : (0 <=? rv wr) = false) by (apply Z.leb_gt; exact Hr).
  rewrite Hs, Hq. cbn. rewrite Hw. cbn. rewrite Hr', Ha. reflexivity.
Qed.

Lemma flush_fail (c : AsyncClient) wr now h q :
  _socket c <> -1 -> _writeQueue c = h :: q -> wants_write h = true ->
  rv wr < 0 -> is_again wr = false ->
  _flushWriteQueue wr now c =
  Done false (set_writeQueue (set_write_errno (errno wr) h :: q) c) [the_write c h].
Proof.
  intros Hs Hq Hw Hr Ha. unfold _flushWriteQueue. munfold. cbn.
  apply Z.eqb_neq in Hs. unfold wants_write in Hw. unfold is_again in Ha.
  assert (Hr' : (0 <=? rv wr) = false) by (apply Z.leb_gt; exact Hr).
  repeat (cbn; rewrite ?Hs, ?Hq, ?Hw, ?Hr', ?Ha). reflexivity.
Qed.

End Flush.

(** ** Weakest-precondition style reasoning on [M] *)

Lemma ensures_elim {A} (m : M A) c Q a c' out :
  ensures m c Q -> m c = Done a c' out -> Q a c' out.
Proof. unfold ensures. intros H E. rewrite E in H. exact H. Qed.

Lemma ensures_weaken {A} (m : M A) c (Q Q' : A -> AsyncClient -> list event -> Prop) :
  ensures m c Q -> (forall a c' out, Q a c' out -> Q' a c' out) -> ensures m c Q'.
Proof. unfold ensures. destruct (m c); auto. Qed.

Section Frames.

Context {P : Platform}.

(** [_flushWriteQueue] touches the head buffer and the free space, nothing
    else, and outputs at most its one [lwip_write]. *)
Lemma flush_frame (c : AsyncClient) wr now :
  ensures (_flushWriteQueue wr now) c (fun _ c' out =>
    exists w q',
      c' = set_writeSpaceRemaining w (set_writeQueue q' c)
      /\ List.length q' = List.length (_writeQueue c)
      /\ (out = [] \/ exists h q, _writeQueue c = h :: q /\ out = [the_write c h])).
Proof.
  unfold ensures.
  destruct (Z.eq_dec (_socket c) (-1)) as [Hs|Hs].
  { rewrite flush_closed by exact Hs.
    exists (_writeSpaceRemaining c), (_writeQueue c). destruct c; cbn; auto. }
  destruct (_writeQueue c) as [|h q] eqn:Hq.
  { rewrite flush_empty by assumption. exact I. }
  destruct (wants_write h) eqn:Hw.
  2:{ rewrite (flush_skip c wr now h q) by assumption.
      exists (_writeSpaceRemaining c), (h :: q). rewrite <- Hq. destruct c; cbn; auto. }
  destruct (Z_lt_le_dec (rv wr) 0) as [Hr|Hr].
  - destruct (is_again wr) eqn:Ha.
    + rewrite (flush_again c wr now h q) by assumption.
      exists (_writeSpaceRemaining c), (h :: q). rewrite <- Hq.
      split; [destruct c; reflexivity|]. split; [reflexivity|].
      right. exists h, q. rewrite Hq. auto.
    + rewrite (flush_fail c wr now h q) by assumption.
      exists (_writeSpaceRemaining c), (set_write_errno (errno wr) h :: q).
      split; [destruct c; reflexivity|]. split; [reflexivity|].
      right. exists h, q. auto.
  - rewrite (flush_ok c wr now h q) by assumption.
    eexists _, _. split; [reflexivity|]. split; [reflexivity|].
    right. exists h, q. auto.
Qed.

End Frames.

Arguments _flushWriteQueue {P} wr now c : simpl never.
Arguments _close c : simpl never.
Arguments _error err c : simpl never.

(** ** [_sockIsWriteable], path by path *)

Section Writeable.

Context {P : Platform}.

Lemma _close_out (c : AsyncClient) :
  _close c = Done tt (torn_down c) (teardown_out c None).
Proof. rewrite _close_eq. reflexivity. Qed.

Lemma _error_out (err : Z) (c : AsyncClient) :
  _error err c = Done tt (torn_down c) (teardown_out c (Some err)).
Proof. rewrite _error_eq. reflexivity. Qed.

Lemma writeable_connecting (c : AsyncClient) gso sockerr wr now :
  connecting c = true ->
  _sockIsWriteable gso sockerr wr now c =
  if rv gso <? 0 then
    Done false (torn_down c) (teardown_out c (Some (errno gso)))
  else if negb (sockerr =? 0) then
    Done false (torn_down c) (teardown_out c (Some sockerr))
  else
    Done true (established now c) (if _connect_cb c then [CbConnect] else []).
Proof.
  intros Hc. unfold connecting in Hc.
  unfold _sockIsWriteable, bind at 1, get at 1. rewrite Hc.
  destruct (rv gso <? 0).
  { unfold bind, ret. rewrite _error_out. rewrite app_nil_r. reflexivity. }
  destruct (negb (sockerr =? 0)).
  { unfold bind, ret. rewrite _error_out. rewrite app_nil_r. reflexivity. }
  munfold. cbn. unfold established.
  destruct (_connect_cb c); reflexivity.
Qed.

Lemma writeable_idle (c : AsyncClient) gso sockerr wr now :
  connecting c = false -> _writeQueue c = [] ->
  _sockIsWriteable gso sockerr wr now c = Done false c [].
Proof.
  intros Hc Hq. unfold connecting in Hc.
  unfold _sockIsWriteable, bind at 1, get at 1. rewrite Hc, Hq.
  munfold. cbn. reflexivity.
Qed.

(** What follows the flush when the head buffer carries a write error. *)
Lemma writeable_failed (c : AsyncClient) gso sockerr wr now act c1 out1 h1 q1 :
  connecting c = false -> _writeQueue c <> [] ->
  _flushWriteQueue wr now c = Done act c1 out1 ->
  _writeQueue c1 = h1 :: q1 ->
  write_errno h1 <> 0 ->
  _sockIsWriteable gso sockerr wr now c =
  Done act (torn_down c1) (out1 ++ teardown_out c1 (Some (write_errno h1))).
Proof.
  intros Hc Hq Hf Hq1 He. unfold connecting in Hc.
  unfold _sockIsWriteable, bind at 1, get at 1. rewrite Hc.
  destruct (_writeQueue c) as [|h q]; [congruence|].
  apply Z.eqb_neq in He.
  unfold bind, front, get, ret. rewrite Hf. cbn. rewrite Hq1. cbn. rewrite He. cbn.
  rewrite _error_out. cbn. rewrite !app_nil_r. reflexivity.
Qed.

(** What follows the flush when the head buffer is completely written. *)
Lemma writeable_retires (c : AsyncClient) gso sockerr wr now act c1 out1 h1 q1 :
  connecting c = false -> _writeQueue c <> [] ->
  _flushWriteQueue wr now c = Done act c1 out1 ->
  _writeQueue c1 = h1 :: q1 ->
  write_errno h1 = 0 -> length h1 <= written h1 ->
  _sockIsWriteable gso sockerr wr now c =
  Done act (retired h1 q1 c1) (out1 ++ retire_out h1 c1).
Proof.
  intros Hc Hq Hf Hq1 He Hl. unfold connecting in Hc.
  unfold _sockIsWriteable, bind at 1, get at 1. rewrite Hc.
  destruct (_writeQueue c) as [|h q]; [congruence|].
  apply Z.eqb_eq in He. apply Z.leb_le in Hl.
  unfold bind, front, get, ret. rewrite Hf. cbn. rewrite Hq1. cbn. rewrite He, Hl. cbn.
  unfold retired, retire_out, when, modify, emit, pop_front, bind, get, ret.
  destruct (_rx_last_packet c1 <? written_at h1); cbn;
    destruct (owned h1); cbn; rewrite Hq1; cbn;
    destruct ((0 <? length h1) && _sent_cb c1); cbn;
    rewrite ?app_nil_r, <- ?app_assoc; reflexivity.
Qed.

(** What follows the flush when the head buffer is still pending. *)
Lemma writeable_pending (c : AsyncClient) gso sockerr wr now act c1 out1 h1 q1 :
  connecting c = false -> _writeQueue c <> [] ->
  _flushWriteQueue wr now c = Done act c1 out1 ->
  _writeQueue c1 = h1 :: q1 ->
  write_errno h1 = 0 -> written h1 < length h1 ->
  _sockIsWriteable gso sockerr wr now c = Done act c1 out1.
Proof.
  intros Hc Hq Hf Hq1 He Hl. unfold connecting in Hc.
  unfold _sockIsWriteable, bind at 1, get at 1. rewrite Hc.
  destruct (_writeQueue c) as [|h q]; [congruence|].
  apply Z.eqb_eq in He. apply Z.leb_gt in Hl.
  unfold bind, front, get, ret. rewrite Hf. cbn. rewrite Hq1. cbn. rewrite He, Hl. cbn.
  rewrite !app_nil_r. reflexivity.
Qed.

End Writeable.

(** ** The other hooks and the enqueue API in closed form *)

Section Hooks.

Context {P : Platform}.

Lemma readable_eq (c : AsyncClient) rd now :
  _sockIsReadable rd now c =
  let c1 := set_rx_last_packet now c in
  if 0 <? rv rd then
    Done tt c1 (SysRead (_socket c) :: if _recv_cb c then [CbRecv (rv rd)] else [])
  else if rv rd =? 0 then
    Done tt (torn_down c1) (SysRead (_socket c) :: teardown_out c1 None)
  else if is_again rd then
    Done tt c1 [SysRead (_socket c)]
  else
    Done tt (torn_down c1) (SysRead (_socket c) :: teardown_out c1 (Some (errno rd))).
Proof.
  unfold _sockIsReadable, is_again.
  unfold bind at 1, modify at 1. unfold bind at 1, get at 1.
  unfold bind at 1, emit at 1. cbn.
  destruct (0 <? rv rd).
  { unfold when, emit, ret. destruct (_recv_cb c); reflexivity. }
  destruct (rv rd =? 0).
  { rewrite _close_out. reflexivity. }
  destruct ((errno rd =? EAGAIN) || (errno rd =? EWOULDBLOCK)).
  { reflexivity. }
  rewrite _error_out. reflexivity.
Qed.

Lemma poll_closed (c : AsyncClient) now :
  _socket c = -1 -> _sockPoll now c = Done tt c [].
Proof.
  intros Hs. unfold _sockPoll. munfold. cbn. rewrite Hs. reflexivity.
Qed.

Lemma poll_empty (c : AsyncClient) now :
  _socket c <> -1 -> _writeQueue c = [] -> _sockPoll now c = Undef.
Proof.
  intros Hs Hq. apply Z.eqb_neq in Hs.
  unfold _sockPoll. munfold. cbn. rewrite Hs, Hq. reflexivity.
Qed.

Lemma poll_eq (c : AsyncClient) now h q :
  _socket c <> -1 -> _writeQueue c = h :: q ->
  _sockPoll now c =
  if ack_timed_out now h c then
    Done tt (set_ack_timeout_signaled true c)
         (if _timeout_cb c then [CbTimeout (u32 (now - queued_at h))] else [])
  else if rx_timed_out now c then
    Done tt (torn_down c) (teardown_out c None)
  else
    Done tt c (if _poll_cb c then [CbPoll] else []).
Proof.
  intros Hs Hq. apply Z.eqb_neq in Hs.
  unfold _sockPoll, ack_timed_out, rx_timed_out.
  unfold bind at 1, get at 1. rewrite Hs.
  unfold bind at 1, front, bind at 1, get at 1. rewrite Hq. cbn.
  destruct (negb (_ack_timeout_signaled c) && negb (_ack_timeout c =? 0)
            && (_ack_timeout c <=? u32 (now - queued_at h))).
  { unfold bind, modify, when, emit, ret. destruct (_timeout_cb c); reflexivity. }
  destruct (negb (_rx_since_timeout c =? 0)
            && (u32 (_rx_since_timeout c * 1000) <=? u32 (now - _rx_last_packet c))).
  { rewrite _close_out. reflexivity. }
  unfold when, emit, ret. destruct (_poll_cb c); reflexivity.
Qed.

Lemma add_eq (c : AsyncClient) data_ size apiflags mem now :
  add data_ size apiflags mem now c =
  if add_rejects c data_ size apiflags mem then Done 0 c []
  else Done (will_send c size) (enqueued c data_ size apiflags mem now) [].
Proof.
  unfold add, add_rejects. unfold bind at 1, get at 1.
  destruct (negb (connected c) || (data_ =? 0) || (size <=? 0)); [reflexivity|].
  destruct (space c =? 0); [reflexivity|].
  destruct (negb (Z.land apiflags ASYNC_WRITE_FLAG_COPY =? 0) && (mem =? 0)); reflexivity.
Qed.

Lemma send_eq (c : AsyncClient) sel wr now :
  send sel wr now c =
  if 0 <? sel then
    match _flushWriteQueue wr now c with
    | Done _ c' out => Done true c' out
    | Undef => Undef
    end
  else Done true c [].
Proof.
  unfold send. destruct (0 <? sel).
  - unfold bind, ret. destruct (_flushWriteQueue wr now c); [|reflexivity].
    rewrite !app_nil_r. reflexivity.
  - reflexivity.
Qed.

Lemma connect_eq (c : AsyncClient) ip port task_ok sockfd cr :
  connect ip port task_ok sockfd cr c =
  if connect_refused c task_ok sockfd then Done false c []
  else if (rv cr <? 0) && negb (errno cr =? EINPROGRESS) then
    Done false c [SysConnect sockfd ip port]
  else
    Done true (set_socket sockfd (set_conn_state 2 c)) [SysConnect sockfd ip port].
Proof.
  unfold connect, connect_refused. unfold bind at 1, get at 1.
  destruct (_socket c =? -1) eqn:Hs; cbn [negb orb]; [|reflexivity].
  destruct (negb task_ok); [reflexivity|].
  destruct (sockfd <? 0); [reflexivity|]. cbn [orb].
  destruct ((rv cr <? 0) && negb (errno cr =? EINPROGRESS)).
  - unfold bind, emit, close, get, when, ret. cbn. rewrite Hs. reflexivity.
  - reflexivity.
Qed.

Lemma close_eq (c : AsyncClient) :
  close c =
  if _socket c =? -1 then Done tt c []
  else Done tt (torn_down c) (teardown_out c None).
Proof.
  unfold close, bind, get, when. destruct (_socket c =? -1); cbn.
  - reflexivity.
  - rewrite _close_out. reflexivity.
Qed.

Lemma abort_eq (c : AsyncClient) :
  abort c =
  if _socket c =? -1 then Done (to_int8 ERR_ABRT) c []
  else Done (to_int8 ERR_ABRT) (torn_down c)
            (SysLinger (_socket c) :: teardown_out c None).
Proof.
  unfold abort, bind, get, when, emit, ret. destruct (_socket c =? -1); cbn.
  - reflexivity.
  - rewrite _close_out. cbn. rewrite app_nil_r. reflexivity.
Qed.

End Hooks.

Ltac zbool :=
  repeat match goal with
         | H : (_ =? _) = true |- _ => apply Z.eqb_eq in H
         | H : (_ =? _) = false |- _ => apply Z.eqb_neq in H
         | H : (_ <? _) = true |- _ => apply Z.ltb_lt in H
         | H : (_ <? _) = false |- _ => apply Z.ltb_ge in H
         | H : (_ <=? _) = true |- _ => apply Z.leb_le in H
         | H : (_ <=? _) = false |- _ => apply Z.leb_gt in H
         | H : negb _ = true |- _ => apply negb_true_iff in H
         | H : negb _ = false |- _ => apply negb_false_iff in H
         | H : _ && _ = true |- _ => apply andb_true_iff in H; destruct H
         | H : _ || _ = false |- _ => apply orb_false_iff in H; destruct H
         end.

Section Cases.

Context {P : Platform}.

Lemma flush_defined (c : AsyncClient) wr now :
  _writeQueue c <> [] ->
  exists a c1 out1 h1 q1,
    _flushWriteQueue wr now c = Done a c1 out1 /\ _writeQueue c1 = h1 :: q1.
Proof.
  intros Hq.
  pose proof (flush_frame c wr now) as Hfr. unfold ensures in Hfr.
  destruct (_flushWriteQueue wr now c) as [a c1 out1|] eqn:Hf.
  - destruct Hfr as (w & q' & -> & Hlen & _).
    destruct q' as [|h1 q1].
    + destruct (_writeQueue c); [congruence|discriminate].
    + exists a. eexists _, out1, h1, q1. split; reflexivity.
  - exfalso.
    destruct (Z.eq_dec (_socket c) (-1)) as [Hs|Hs].
    { rewrite flush_closed in Hf by exact Hs. discriminate. }
    destruct (_writeQueue c) as [|h q] eqn:E; [congruence|].
    destruct (wants_write h) eqn:Hw.
    2:{ rewrite (flush_skip c wr now h q) in Hf by assumption. discriminate. }
    destruct (Z_lt_le_dec (rv wr) 0) as [Hr|Hr].
    + destruct (is_again wr) eqn:Ha.
      * rewrite (flush_again c wr now h q) in Hf by assumption. discriminate.
      * rewrite (flush_fail c wr now h q) in Hf by assumption. discriminate.
    + rewrite (flush_ok c wr now h q) in Hf by assumption. discriminate.
Qed.

Lemma writeable_cases (c : AsyncClient) gso sockerr wr now :
  ensures (_sockIsWriteable gso sockerr wr now) c (writeable_post c wr now).
Proof.
  unfold ensures, writeable_post.
  destruct (connecting c) eqn:Hc.
  { rewrite writeable_connecting by exact Hc.
    destruct (rv gso <? 0); [left; split; [reflexivity|left; eauto]|].
    destruct (negb (sockerr =? 0)); [left; split; [reflexivity|left; eauto]|].
    left. split; [reflexivity|right; auto]. }
  destruct (_writeQueue c) as [|h q] eqn:Hq.
  { rewrite writeable_idle by assumption. right. left. auto. }
  assert (Hne : _writeQueue c <> []) by (rewrite Hq; discriminate).
  destruct (flush_defined c wr now Hne) as (a & c1 & out1 & h1 & q1 & Hf & Hq1).
  rewrite <- Hq.
  destruct (Z.eq_dec (write_errno h1) 0) as [He|He].
  - destruct (Z_lt_le_dec (written h1) (length h1)) as [Hl|Hl].
    + rewrite (writeable_pending c gso sockerr wr now a c1 out1 h1 q1) by assumption.
      right. right. split; [reflexivity|]. split; [assumption|].
      exists c1, out1, h1, q1. auto 10.
    + rewrite (writeable_retires c gso sockerr wr now a c1 out1 h1 q1) by assumption.
      right. right. split; [reflexivity|]. split; [assumption|].
      exists c1, out1, h1, q1. auto 10.
  - rewrite (writeable_failed c gso sockerr wr now a c1 out1 h1 q1) by assumption.
    right. right. split; [reflexivity|]. split; [assumption|].
    exists c1, out1, h1, q1. auto 10.
Qed.

End Cases.

Example queued10_by_add :
  add 1000 10 ASYNC_WRITE_FLAG_COPY 2000 0 accepted3 = Done 10 queued10 [].
Proof. reflexivity. Qed.

(** ** C1: the head of an empty queue *)

Section C1.

Context {P : Platform}.

(** C1 (the code departs from it).  C1 wants the head buffer of an empty
    write queue never accessed by [send()] or by the idle-poll hook.  On an
    open client with an empty queue both access it: [_sockPoll] evaluates
    [_writeQueue.front().queued_at] before it tests [size() > 0], and
    [send()], when [select] reports the socket writable, calls
    [_flushWriteQueue], which takes [front()] without a test.  Both calls
    are undefined. *)
Theorem C1_front_of_empty_queue (c : AsyncClient) (now sel : Z) (wr : sysret) :
  _writeQueue c = [] -> _socket c <> -1 -> 0 < sel ->
  _sockPoll now c = Undef /\ send sel wr now c = Undef.
Proof.
  intros Hq Hs Hsel. split.
  - apply poll_empty; assumption.
  - rewrite send_eq. apply Z.ltb_lt in Hsel. rewrite Hsel.
    rewrite flush_empty by assumption. reflexivity.
Qed.

End C1.

Lemma C1_front_of_empty_queue_witness :
  _writeQueue accepted3 = [] /\ _socket accepted3 <> -1 /\ 0 < 1
  /\ _sockPoll 125 accepted3 = Undef
  /\ send 1 (mkret 0 0) 125 accepted3 = Undef.
Proof.
  assert (Hq : _writeQueue accepted3 = []) by reflexivity.
  assert (Hs : _socket accepted3 <> -1) by (cbn; lia).
  assert (Hsel : 0 < 1) by lia.
  pose proof (C1_front_of_empty_queue accepted3 125 1 (mkret 0 0) Hq Hs Hsel) as [H1 H2].
  repeat split; assumption.
Defined.

(** ** C2: one pass of flush-head *)

(** C2, counterexample.  The head buffer holds 10 bytes and [lwip_write]
    accepts 4 of them: [_flushWriteQueue] returns after that one write, the
    head buffer has [written = 4 < 10], no error is latched and the write
    did not fail. *)
Lemma C2_counterexample :
  let h' := mkbuf 2000 10 4 0 0 0 true in
  _flushWriteQueue (mkret 4 0) 50 queued10
  = Done true (set_writeSpaceRemaining 5834 (set_writeQueue [h'] queued10))
         [SysWrite 3 2000 10]
  /\ ~ flush_claimed (mkret 4 0) 50 h'.
Proof.
  split; [reflexivity|].
  unfold flush_claimed; cbn. intros [[H _]|[[H _]|H]].
  - discriminate H.
  - lia.
  - apply H; reflexivity.
Qed.

Section C2.

Context {P : Platform}.

(** C2, amended.  On a non-empty queue of an open client, flush-head makes
    one write attempt when the head buffer has [write_errno == 0] and
    [written < length], and none otherwise; it never repeats the attempt.
    When it returns after an attempt, either the head buffer is fully
    written ([written >= length], [written_at] set to now), or the write was
    partial ([written] and the free space advanced by the bytes written,
    the buffer still pending), or the write failed with
    EAGAIN/EWOULDBLOCK and nothing changed, or the errno of the failed write
    is stored in the head buffer's [write_errno]. *)
Theorem C2_flush_single_attempt (c : AsyncClient) (wr : sysret) (now : Z)
    (h : queued_writebuf) (q : list queued_writebuf) :
  _writeQueue c = h :: q -> _socket c <> -1 ->
  exists a c' h' out,
    _flushWriteQueue wr now c = Done a c' out
    /\ _writeQueue c' = h' :: q
    /\ (count is_SysWrite out <= 1)%nat
    /\ (wants_write h = false -> c' = c /\ out = [])
    /\ (wants_write h = true ->
        out = [SysWrite (_socket c) (data h + written h) (u32 (length h - written h))]
        /\ ((0 <= rv wr /\ length h' <= written h' /\ written_at h' = now
             /\ written h' = u32 (written h + rv wr)
             /\ _writeSpaceRemaining c' = u32 (_writeSpaceRemaining c + rv wr))
            \/ (0 <= rv wr /\ written h' < length h'
                /\ written h' = u32 (written h + rv wr)
                /\ _writeSpaceRemaining c' = u32 (_writeSpaceRemaining c + rv wr)
                /\ write_errno h' = 0)
            \/ (rv wr < 0 /\ is_again wr = true /\ c' = c)
            \/ (rv wr < 0 /\ is_again wr = false /\ write_errno h' = errno wr
                /\ written h' = written h))).
Proof.
  intros Hq Hs.
  destruct (wants_write h) eqn:Hw.
  2:{ exists false, c, h, []. rewrite (flush_skip c wr now h q) by assumption.
      repeat split; auto; try discriminate. }
  destruct (Z_lt_le_dec (rv wr) 0) as [Hr|Hr].
  - destruct (is_again wr) eqn:Ha.
    + exists false, c, h, [the_write c h].
      rewrite (flush_again c wr now h q) by assumption.
      repeat split; auto; try discriminate.
      right. right. left. auto.
    + eexists false, _, (set_write_errno (errno wr) h), [the_write c h].
      rewrite (flush_fail c wr now h q) by assumption.
      repeat split; auto; try discriminate.
      right. right. right. repeat split; auto.
  - eexists true, _, (advanced (rv wr) now h), [the_write c h].
    rewrite (flush_ok c wr now h q) by assumption.
    split; [reflexivity|]. split; [reflexivity|]. split; [unfold the_write; cbn; lia|].
    split; [discriminate|]. intros _. split; [reflexivity|].
    unfold advanced. cbn.
    destruct (length h <=? u32 (written h + rv wr)) eqn:Hl; cbn; zbool.
    + left. repeat split; auto.
    + right. left. repeat split; auto.
      unfold wants_write in Hw. zbool. assumption.
Qed.

End C2.

Lemma C2_flush_single_attempt_witness :
  exists a c' h' out,
    _flushWriteQueue (mkret 4 0) 50 queued10 = Done a c' out
    /\ _writeQueue c' = [h']
    /\ (count is_SysWrite out <= 1)%nat
    /\ written h' = 4.
Proof.
  assert (Hq : _writeQueue queued10 = [mkbuf 2000 10 0 0 0 0 true]) by reflexivity.
  assert (Hs : _socket queued10 <> -1) by (cbn; lia).
  destruct (C2_flush_single_attempt queued10 (mkret 4 0) 50 _ _ Hq Hs)
    as (a & c' & h' & out & Hf & Hq' & Hn & _ & Hw).
  exists a, c', h', out. repeat split; try assumption.
  destruct (Hw eq_refl) as (_ & [H|[H|[H|H]]]).
  - destruct H as (_ & _ & _ & -> & _). reflexivity.
  - destruct H as (_ & _ & -> & _). reflexivity.
  - destruct H as (H & _). cbn in H. lia.
  - destruct H as (H & _). cbn in H. lia.
Defined.

(** ** C6: [add] *)

(** C6, counterexample.  An established client with all its window free is
    asked to copy 4 bytes and [malloc] returns NULL: none of the four
    stated reasons holds, yet [add] returns 0 and queues nothing. *)
Lemma C6_counterexample :
  add 1000 4 ASYNC_WRITE_FLAG_COPY 0 7 accepted3 = Done 0 accepted3 []
  /\ ~ add_claimed accepted3 1000 4 ASYNC_WRITE_FLAG_COPY 0 7.
Proof.
  split; [reflexivity|].
  unfold add_claimed. intros [_ H].
  destruct H as (c' & b & Hadd & _).
  - intros [H|[H|[H|H]]].
    + apply H. reflexivity.
    + discriminate H.
    + lia.
    + vm_compute in H. discriminate H.
  - vm_compute in Hadd. discriminate Hadd.
Qed.

Section C6.

Context {P : Platform}.

Lemma connected_iff_state4 (c : AsyncClient) :
  coherent c -> (connected c = true <-> _conn_state c = 4).
Proof.
  unfold coherent, connected. intros Hc.
  destruct (_socket c =? -1) eqn:Hs; zbool.
  - split; [discriminate|]. intros H4. apply Hc in Hs. lia.
  - rewrite Z.eqb_eq. tauto.
Qed.

(** C6, amended.  On a client whose descriptor and state are coherent,
    [add(data, size, flags)] returns 0 and leaves the object unchanged when
    the client is not ESTABLISHED, [data] is null, [size <= 0], the
    available space is zero, or the COPY flag is set and the copy cannot be
    allocated; otherwise it accepts [will_send = min(size, space())] bytes,
    appends one buffer with [written = 0] and [write_errno = 0] (the owned
    copy with the COPY flag, the caller's pointer otherwise), decrements
    [_writeSpaceRemaining] by [will_send], clears [_ack_timeout_signaled]
    and returns [will_send]. *)
Theorem C6_add_amended (c : AsyncClient) (data_ size apiflags mem now : Z) :
  coherent c -> 0 <= _writeSpaceRemaining c < 2 ^ 32 ->
  let copy := negb (Z.land apiflags ASYNC_WRITE_FLAG_COPY =? 0) in
  let rejected :=
    _conn_state c <> 4 \/ data_ = 0 \/ size <= 0 \/ space c = 0
    \/ (copy = true /\ mem = 0) in
  let n := Z.min size (space c) in
  (rejected -> add data_ size apiflags mem now c = Done 0 c [])
  /\ (~ rejected ->
      add data_ size apiflags mem now c =
      Done n
        (set_ack_timeout_signaled false
           (set_writeSpaceRemaining (_writeSpaceRemaining c - n)
              (set_writeQueue
                 (_writeQueue c
                    ++ [mkbuf (if copy then mem else data_) n 0 now 0 0 copy]) c)))
        []).
Proof.
  intros Hc Hw copy rejected n. subst copy rejected n.
  pose proof (connected_iff_state4 c Hc) as H4.
  rewrite add_eq. unfold add_rejects.
  split.
  - intros Hrej.
    assert (E : negb (connected c) || (data_ =? 0) || (size <=? 0) || (space c =? 0)
                || (negb (Z.land apiflags ASYNC_WRITE_FLAG_COPY =? 0) && (mem =? 0))
                = true).
    { destruct Hrej as [H|[H|[H|[H|[H1 H2]]]]].
      - destruct (connected c); [exfalso; apply H, H4; reflexivity|reflexivity].
      - apply Z.eqb_eq in H. rewrite H. rewrite !orb_true_r. reflexivity.
      - apply Z.leb_le in H. rewrite H. rewrite !orb_true_r. reflexivity.
      - apply Z.eqb_eq in H. rewrite H. rewrite !orb_true_r. reflexivity.
      - apply Z.eqb_eq in H2. rewrite H1, H2. rewrite !orb_true_r. reflexivity. }
    rewrite E. reflexivity.
  - intros Hacc.
    destruct (negb (connected c) || (data_ =? 0) || (size <=? 0) || (space c =? 0)
              || (negb (Z.land apiflags ASYNC_WRITE_FLAG_COPY =? 0) && (mem =? 0)))
      eqn:E.
    + exfalso. apply Hacc.
      apply orb_true_iff in E. destruct E as [E|E].
      2:{ apply andb_true_iff in E. destruct E as [E1 E2]. apply Z.eqb_eq in E2. auto 10. }
      apply orb_true_iff in E. destruct E as [E|E]; [|zbool; auto 10].
      apply orb_true_iff in E. destruct E as [E|E]; [|zbool; auto 10].
      apply orb_true_iff in E. destruct E as [E|E]; [|zbool; auto 10].
      left. intros H. apply H4 in H. rewrite H in E. discriminate E.
    + zbool.
      assert (Hconn : connected c = true) by (destruct (connected c); [reflexivity|discriminate]).
      assert (Hsp : space c = _writeSpaceRemaining c) by (unfold space; rewrite Hconn; reflexivity).
      assert (Hn : will_send c size = Z.min size (space c)).
      { unfold will_send. destruct (space c <? size) eqn:El; zbool; lia. }
      unfold enqueued, n_entry. rewrite Hn.
      rewrite u32_small by (rewrite Hsp in *; lia).
      reflexivity.
Qed.

End C6.

Lemma C6_add_amended_witness :
  coherent accepted3 /\ 0 <= _writeSpaceRemaining accepted3 < 2 ^ 32
  /\ add 1000 10 ASYNC_WRITE_FLAG_COPY 2000 0 accepted3 = Done 10 queued10 []
  /\ add 1000 4 ASYNC_WRITE_FLAG_COPY 0 7 accepted3 = Done 0 accepted3 [].
Proof.
  assert (Hc : coherent accepted3) by (unfold coherent; cbn; lia).
  assert (Hw : 0 <= _writeSpaceRemaining accepted3 < 2 ^ 32)
    by (change (_writeSpaceRemaining accepted3) with 5840; lia).
  split; [exact Hc|]. split; [exact Hw|]. split.
  - destruct (C6_add_amended accepted3 1000 10 ASYNC_WRITE_FLAG_COPY 2000 0 Hc Hw)
      as [_ Hacc].
    rewrite Hacc; [reflexivity|].
    intros [H|[H|[H|[H|[_ H]]]]].
    + apply H. reflexivity.
    + discriminate H.
    + lia.
    + vm_compute in H. discriminate H.
    + discriminate H.
  - destruct (C6_add_amended accepted3 1000 4 ASYNC_WRITE_FLAG_COPY 0 7 Hc Hw)
      as [Hrej _].
    apply Hrej. right. right. right. right. split; reflexivity.
Defined.

(** ** C8: the peer closes *)

Section C8.

Context {P : Platform}.

Lemma clear_frees_owned (q : list queued_writebuf) (b : queued_writebuf) :
  In b q -> owned b = true -> In (SysFree (data b)) (clear_frees q).
Proof.
  induction q as [|x q IH]; intros Hin Ho; [contradiction|].
  cbn. apply in_or_app. destruct Hin as [->|Hin].
  - left. rewrite Ho. left. reflexivity.
  - right. apply IH; assumption.
Qed.

Lemma clear_frees_only_owned (q : list queued_writebuf) (e : event) :
  In e (clear_frees q) -> exists b, In b q /\ owned b = true /\ e = SysFree (data b).
Proof.
  induction q as [|x q IH]; cbn; intros Hin; [contradiction|].
  apply in_app_or in Hin. destruct Hin as [Hin|Hin].
  - destruct (owned x) eqn:Ho; [|contradiction].
    destruct Hin as [<-|[]]. exists x. auto.
  - destruct (IH Hin) as (b & Hb & Ho & He). exists b. auto.
Qed.

Lemma clear_frees_no_callback (q : list queued_writebuf) (f : event -> bool) :
  (forall p, f (SysFree p) = false) -> filter f (clear_frees q) = [].
Proof.
  intros Hf. induction q as [|x q IH]; [reflexivity|].
  cbn. rewrite filter_app, IH, app_nil_r.
  destruct (owned x); cbn; [rewrite Hf|]; reflexivity.
Qed.

(** C8.  When the read of the readable hook returns 0, the hook runs the
    close teardown: the state becomes CLOSED (0), the descriptor is closed
    and set to -1, the queue is dropped after the data of every owned
    buffer (and of no other) has been freed, every handler slot is cleared,
    [on_disconnect] is invoked last if a handler was set, and [on_error] is
    not invoked. *)
Theorem C8_peer_close_is_not_an_error (c : AsyncClient) (e now : Z) :
  exists out,
    _sockIsReadable (mkret 0 e) now c
    = Done tt (torn_down (set_rx_last_packet now c)) out
    /\ out = SysRead (_socket c) :: SysClose (_socket c)
               :: clear_frees (_writeQueue c)
               ++ (if _discard_cb c then [CbDiscard] else [])
    /\ _conn_state (torn_down (set_rx_last_packet now c)) = 0
    /\ _socket (torn_down (set_rx_last_packet now c)) = -1
    /\ _writeQueue (torn_down (set_rx_last_packet now c)) = []
    /\ (forall b, In b (_writeQueue c) ->
          (owned b = true -> In (SysFree (data b)) out))
    /\ (forall p, In (SysFree p) out ->
          exists b, In b (_writeQueue c) /\ owned b = true /\ data b = p)
    /\ count is_CbError out = 0%nat.
Proof.
  eexists. split.
  { rewrite readable_eq. cbn. reflexivity. }
  unfold teardown_out. cbn.
  split; [reflexivity|]. split; [reflexivity|]. split; [reflexivity|].
  split; [reflexivity|]. split; [|split].
  - intros b Hb Ho. right. right. apply in_or_app. left.
    apply clear_frees_owned; assumption.
  - intros p [H|[H|H]]; try discriminate H.
    apply in_app_or in H. destruct H as [H|H].
    + destruct (clear_frees_only_owned _ _ H) as (b & Hb & Ho & He).
      exists b. inversion He. auto.
    + destruct (_discard_cb c); [destruct H as [H|[]]; discriminate H|contradiction].
  - unfold count. cbn. rewrite filter_app.
    rewrite clear_frees_no_callback by reflexivity.
    destruct (_discard_cb c); reflexivity.
Qed.

End C8.

(** ** C9: the delayed connect *)

Section C9.

Context {P : Platform}.

(** C9.  When the resolver left a nonzero address, the delayed-connect hook
    is the IPv4 [connect(_connect_addr, _connect_port)] call (its result
    dropped): on a closed client with the service task running and a
    socket at hand, [lwip_connect] is issued to that address and port.
    When the address is zero, the hook invokes [on_error] with -55 and then
    [on_disconnect], each if a handler is set, and changes nothing. *)
Theorem C9_delayed_connect (c : AsyncClient) (task_ok : bool) (sockfd : Z) (cr : sysret) :
  (_connect_addr c <> 0 ->
     _sockDelayedConnect task_ok sockfd cr c
     = (connect (_connect_addr c) (_connect_port c) task_ok sockfd cr ;;; ret tt) c
     /\ (_socket c = -1 -> task_ok = true -> 0 <= sockfd ->
         exists c' out,
           _sockDelayedConnect task_ok sockfd cr c
           = Done tt c' (SysConnect sockfd (_connect_addr c) (_connect_port c) :: out)))
  /\ (_connect_addr c = 0 ->
     _sockDelayedConnect task_ok sockfd cr c
     = Done tt c ((if _error_cb c then [CbError (-55)] else [])
                    ++ (if _discard_cb c then [CbDiscard] else []))).
Proof.
  split.
  - intros Ha. apply Z.eqb_neq in Ha.
    assert (E : _sockDelayedConnect task_ok sockfd cr c
                = (connect (_connect_addr c) (_connect_port c) task_ok sockfd cr ;;; ret tt) c).
    { unfold _sockDelayedConnect. unfold bind at 1, get at 1. rewrite Ha. cbn [negb].
      destruct ((connect (_connect_addr c) (_connect_port c) task_ok sockfd cr ;;; ret tt) c);
        reflexivity. }
    split; [exact E|].
    intros Hs Ht Hfd. rewrite E. unfold bind, ret. rewrite connect_eq.
    unfold connect_refused. apply Z.ltb_ge in Hfd. rewrite Hs, Ht, Hfd. cbn.
    destruct ((rv cr <? 0) && negb (errno cr =? EINPROGRESS)); cbn; eauto.
  - intros Ha. unfold _sockDelayedConnect. unfold bind at 1, get at 1.
    rewrite Ha. cbn.
    unfold bind, when, emit, get, ret.
    destruct (_error_cb c), (_discard_cb c); reflexivity.
Qed.

End C9.

Lemma C9_delayed_connect_witness :
  let resolved := set_connect_port 80 (set_connect_addr 16777343 (AsyncClient_new (-1) 0)) in
  let failed := set_discard_cb true (set_error_cb true (AsyncClient_new (-1) 0)) in
  _sockDelayedConnect true 5 (mkret (-1) 119) resolved
  = Done tt (set_socket 5 (set_conn_state 2 resolved)) [SysConnect 5 16777343 80]
  /\ _sockDelayedConnect true 5 (mkret (-1) 119) failed
     = Done tt failed [CbError (-55); CbDiscard].
Proof.
  intros resolved failed. split.
  - assert (Ha : _connect_addr resolved <> 0) by (cbn; lia).
    destruct (C9_delayed_connect resolved true 5 (mkret (-1) 119)) as [H _].
    destruct (H Ha) as [E _]. rewrite E. reflexivity.
  - destruct (C9_delayed_connect failed true 5 (mkret (-1) 119)) as [_ H].
    rewrite (H eq_refl). reflexivity.
Defined.

(** ** What one call does to the descriptor, the state and the latch *)

Lemma count_app (f : event -> bool) (a b : list event) :
  count f (a ++ b) = (count f a + count f b)%nat.
Proof. unfold count. rewrite filter_app, length_app. reflexivity. Qed.

Section Summary.

Context {P : Platform}.

Lemma teardown_out_count (f : event -> bool) (c : AsyncClient) (err : option Z) :
  (forall fd, f (SysClose fd) = false) -> (forall p, f (SysFree p) = false) ->
  (forall e, f (CbError e) = false) -> f CbDiscard = false ->
  count f (teardown_out c err) = 0%nat.
Proof.
  intros H1 H2 H3 H4. unfold teardown_out, count. cbn. rewrite H1.
  rewrite !filter_app, clear_frees_no_callback by exact H2.
  destruct err; destruct (_error_cb c), (_discard_cb c); cbn;
    rewrite ?H3, ?H4; reflexivity.
Qed.

Lemma flush_out_count (f : event -> bool) (c : AsyncClient) wr now :
  (forall fd p n, f (SysWrite fd p n) = false) ->
  ensures (_flushWriteQueue wr now) c (fun _ _ out => count f out = 0%nat).
Proof.
  intros Hf. eapply ensures_weaken; [apply flush_frame|].
  cbn. intros _ c' out (w & q' & _ & _ & [->|(h & q & _ & ->)]).
  - reflexivity.
  - unfold count, the_write. cbn. rewrite Hf. reflexivity.
Qed.

End Summary.

Ltac summary_done :=
  cbn;
  first
    [ split;
      [ first [ left; split; reflexivity
              | right; left; split; reflexivity
              | right; right; left; repeat split; (reflexivity || assumption)
              | right; right; right; repeat split; (reflexivity || assumption || lia) ]
      | first [ left; split;
                [ rewrite ?count_app, ?teardown_out_count by reflexivity; reflexivity
                | first [ left; reflexivity | right; left; assumption
                        | right; right; assumption ] ] ] ]
    | exact I ].

Section StepSummary.

Context {P : Platform}.

Lemma connect_summary (o : op) (c : AsyncClient) ip port task_ok sockfd cr :
  is_connect_op o = true ->
  ensures (connect ip port task_ok sockfd cr) c
    (fun _ c' out => moves o c c' /\ latches o c c' out).
Proof.
  intros Ho. unfold ensures. rewrite connect_eq.
  destruct (connect_refused c task_ok sockfd) eqn:Hr; [summary_done|].
  unfold connect_refused in Hr. zbool.
  destruct ((rv cr <? 0) && negb (errno cr =? EINPROGRESS)); summary_done.
Qed.

Lemma flush_summary (o : op) (c : AsyncClient) wr now :
  ensures (_flushWriteQueue wr now) c
    (fun _ c' out => moves o c c' /\ latches o c c' out).
Proof.
  pose proof (flush_frame c wr now) as H1.
  pose proof (flush_out_count is_CbTimeout c wr now (fun _ _ _ => eq_refl)) as H2.
  unfold ensures in *. destruct (_flushWriteQueue wr now c) as [a c' out|]; [|exact I].
  destruct H1 as (w & q' & -> & _ & _). split.
  - right. left. split; reflexivity.
  - left. split; [exact H2|]. left. reflexivity.
Qed.

Lemma add_summary (o : op) (c : AsyncClient) data_ size apiflags mem now :
  is_enqueue_op o = true ->
  ensures (add data_ size apiflags mem now) c
    (fun _ c' out => moves o c c' /\ latches o c c' out).
Proof.
  intros Ho. unfold ensures. rewrite add_eq.
  destruct (add_rejects c data_ size apiflags mem); summary_done.
Qed.

Lemma writeable_summary (c : AsyncClient) gso sockerr wr now :
  let o := OpWriteable gso sockerr wr now in
  ensures (_sockIsWriteable gso sockerr wr now) c
    (fun _ c' out => moves o c c' /\ latches o c c' out).
Proof.
  intros o. eapply ensures_weaken; [apply writeable_cases|].
  cbn. intros a c' out H. unfold writeable_post in H.
  destruct H as [(Hc & [(-> & e & ->)|(-> & _ & ->)])|[(Hc & Hq & -> & ->)|H]].
  - summary_done.
  - split; [right; right; left; auto|].
    left. split; [destruct (_connect_cb c); reflexivity|]. right. right. exact Hc.
  - summary_done.
  - destruct H as (Hc & Hq & c1 & out1 & h1 & q1 & Hf & Hq1 & H).
    pose proof (flush_frame c wr now) as H1.
    pose proof (flush_out_count is_CbTimeout c wr now (fun _ _ _ => eq_refl)) as H2.
    unfold ensures in H1, H2. rewrite Hf in H1, H2.
    destruct H1 as (w & q' & E1 & _ & _).
    destruct H as [(He & -> & ->)|[(He & Hl & -> & ->)|(He & Hl & -> & ->)]].
    + split; [left; split; reflexivity|].
      left. split; [|left; rewrite E1; reflexivity].
      rewrite count_app, H2, teardown_out_count by reflexivity. reflexivity.
    + split; [right; left; rewrite E1; unfold retired;
              destruct (_rx_last_packet _ <? _); split; reflexivity|].
      left. split.
      * rewrite count_app, H2. unfold retire_out.
        destruct (owned h1), ((0 <? length h1) && _sent_cb c1); reflexivity.
      * left. rewrite E1. unfold retired.
        destruct (_rx_last_packet _ <? _); reflexivity.
    + split; [right; left; rewrite E1; split; reflexivity|].
      left. split; [exact H2|left; rewrite E1; reflexivity].
Qed.

Lemma readable_summary (c : AsyncClient) rd now :
  let o := OpReadable rd now in
  ensures (_sockIsReadable rd now) c
    (fun _ c' out => moves o c c' /\ latches o c c' out).
Proof.
  intros o. unfold ensures. rewrite readable_eq. cbn.
  destruct (0 <? rv rd).
  { split; [right; left; split; reflexivity|].
    left. split; [destruct (_recv_cb c); reflexivity|left; reflexivity]. }
  destruct (rv rd =? 0).
  { split; [left; split; reflexivity|].
    left. split; [|left; reflexivity].
    change (count is_CbTimeout (teardown_out (set_rx_last_packet now c) None) = 0%nat).
    apply teardown_out_count; reflexivity. }
  destruct (is_again rd).
  { summary_done. }
  split; [left; split; reflexivity|].
  left. split; [|left; reflexivity].
  change (count is_CbTimeout
            (teardown_out (set_rx_last_packet now c) (Some (errno rd))) = 0%nat).
  apply teardown_out_count; reflexivity.
Qed.

Lemma poll_summary (c : AsyncClient) now :
  let o := OpPoll now in
  ensures (_sockPoll now) c
    (fun _ c' out => moves o c c' /\ latches o c c' out).
Proof.
  intros o. unfold ensures.
  destruct (Z.eq_dec (_socket c) (-1)) as [Hs|Hs].
  { rewrite poll_closed by exact Hs. summary_done. }
  destruct (_writeQueue c) as [|h q] eqn:Hq.
  { rewrite poll_empty by assumption. exact I. }
  rewrite (poll_eq c now h q) by assumption.
  destruct (ack_timed_out now h c) eqn:Ha.
  { unfold ack_timed_out in Ha. zbool.
    split; [right; left; split; reflexivity|].
    right. repeat split; [assumption|].
    destruct (_timeout_cb c); cbn; lia. }
  destruct (rx_timed_out now c).
  { summary_done. }
  split; [right; left; split; reflexivity|].
  left. split; [destruct (_poll_cb c); reflexivity|left; reflexivity].
Qed.

End StepSummary.

Section Steps.

Context {P : Platform}.

Lemma ensures_drop {A} (m : M A) (c : AsyncClient)
    (Q : unit -> AsyncClient -> list event -> Prop) :
  ensures m c (fun _ c' out => Q tt c' out) -> ensures (m ;;; ret tt) c Q.
Proof.
  unfold ensures, bind, ret. destruct (m c) as [a c' out|]; [|trivial].
  rewrite app_nil_r. trivial.
Qed.

Lemma write_summary (c : AsyncClient) data_ size apiflags mem now sel wr now' :
  let o := OpWrite data_ size apiflags mem now sel wr now' in
  ensures (write data_ size apiflags mem now sel wr now') c
    (fun _ c' out => moves o c c' /\ latches o c c' out).
Proof.
  intros o. unfold ensures, write. unfold bind at 1. rewrite add_eq.
  destruct (add_rejects c data_ size apiflags mem).
  { cbn. split; [right; left; split; reflexivity|].
    left. split; [reflexivity|left; reflexivity]. }
  set (c1 := enqueued c data_ size apiflags mem now).
  destruct (will_send c size =? 0).
  { cbn. split; [right; left; split; reflexivity|].
    left. split; [reflexivity|right; left; reflexivity]. }
  unfold bind. rewrite send_eq.
  pose proof (flush_frame c1 wr now') as H1.
  pose proof (flush_out_count is_CbTimeout c1 wr now' (fun _ _ _ => eq_refl)) as H2.
  unfold ensures in H1, H2.
  destruct (0 <? sel).
  - destruct (_flushWriteQueue wr now' c1) as [a c' out|]; [|exact I].
    destruct H1 as (w & q' & -> & _ & _). cbn. rewrite app_nil_r.
    split; [right; left; split; reflexivity|].
    left. split; [exact H2|right; left; reflexivity].
  - cbn. split; [right; left; split; reflexivity|].
    left. split; [reflexivity|right; left; reflexivity].
Qed.

(** Every call moves the descriptor, the state and the latch in one of the
    ways of [moves] and [latches]. *)
Lemma step_summary (o : op) (c : AsyncClient) :
  ensures (step o) c (fun _ c' out => moves o c c' /\ latches o c c' out).
Proof.
  destruct o; unfold step.
  - apply ensures_drop. apply (connect_summary (OpConnect ip port task_ok sockfd cr)).
    reflexivity.
  - apply ensures_drop. unfold connect_host.
    destruct task_ok; cbn [negb]; [|unfold ensures, ret; summary_done].
    destruct dns.
    + apply (connect_summary (OpConnectHost port (DnsOk addr) true sockfd cr)). reflexivity.
    + unfold ensures, bind, modify, ret. summary_done.
    + unfold ensures, ret. summary_done.
  - unfold ensures, _tcpsock_dns_found, bind, modify.
    destruct ipaddr; summary_done.
  - unfold _sockDelayedConnect. unfold ensures. unfold bind at 1, modify at 1.
    unfold bind at 1, get at 1.
    change (_connect_addr (set_isdnsfinished false c)) with (_connect_addr c).
    destruct (_connect_addr c =? 0); cbn [negb].
    + unfold bind, when, emit, get, ret.
      destruct (_error_cb (set_isdnsfinished false c)),
               (_discard_cb (set_isdnsfinished false c)); summary_done.
    + pose proof (connect_summary (OpDelayedConnect task_ok sockfd cr)
                    (set_isdnsfinished false c)
                    (_connect_addr c)
                    (_connect_port (set_isdnsfinished false c))
                    task_ok sockfd cr eq_refl) as H.
      assert (H' : ensures
                (connect (_connect_addr c) (_connect_port (set_isdnsfinished false c))
                   task_ok sockfd cr ;;; ret tt)
                (set_isdnsfinished false c)
                (fun _ c' out =>
                   moves (OpDelayedConnect task_ok sockfd cr)
                     (set_isdnsfinished false c) c'
                   /\ latches (OpDelayedConnect task_ok sockfd cr)
                        (set_isdnsfinished false c) c' out))
        by (apply ensures_drop; exact H).
      clear H. rename H' into H. unfold ensures in H.
      destruct ((connect (_connect_addr c) (_connect_port (set_isdnsfinished false c))
                   task_ok sockfd cr ;;; ret tt) (set_isdnsfinished false c))
        as [a c' out|]; [|exact I].
      cbn. exact H.
  - apply ensures_drop. apply writeable_summary.
  - apply readable_summary.
  - apply poll_summary.
  - apply ensures_drop.
    apply (add_summary (OpAdd data_ size apiflags mem now)). reflexivity.
  - apply ensures_drop. unfold ensures. rewrite send_eq.
    destruct (0 <? sel); [|summary_done].
    pose proof (flush_summary (OpSend sel wr now) c wr now) as H. unfold ensures in H.
    destruct (_flushWriteQueue wr now c); [exact H|exact I].
  - apply ensures_drop. apply write_summary.
  - unfold ensures. rewrite close_eq. destruct (_socket c =? -1); summary_done.
  - apply ensures_drop. unfold ensures. rewrite abort_eq.
    destruct (_socket c =? -1); [summary_done|].
    cbn. split; [left; split; reflexivity|].
    left. split; [|left; reflexivity].
    change (count is_CbTimeout (teardown_out c None) = 0%nat).
    apply teardown_out_count; reflexivity.
  - unfold ensures, setRxTimeout, modify. summary_done.
  - unfold ensures, setAckTimeout, modify. summary_done.
  - unfold ensures, onConnect, modify. summary_done.
  - unfold ensures, onDisconnect, modify. summary_done.
  - unfold ensures, onAck, modify. summary_done.
  - unfold ensures, onError, modify. summary_done.
  - unfold ensures, onData, modify. summary_done.
  - unfold ensures, onTimeout, modify. summary_done.
  - unfold ensures, onPoll, modify. summary_done.
Qed.

Lemma run_cons (o : op) (ops : list op) (c : AsyncClient) :
  run (o :: ops) c =
  match step o c with
  | Done _ c1 o1 =>
      match run ops c1 with
      | Done _ c2 o2 => Done tt c2 (o1 ++ o2)
      | Undef => Undef
      end
  | Undef => Undef
  end.
Proof.
  cbn. unfold bind. destruct (step o c) as [[] c1 o1|]; [|reflexivity].
  destruct (run ops c1) as [[] c2 o2|]; reflexivity.
Qed.

Lemma moves_coherent (o : op) (c c' : AsyncClient) :
  coherent c -> moves o c c' -> coherent c'.
Proof.
  unfold coherent, moves, connecting. intros Hc [H|[H|[H|H]]].
  - destruct H as [-> ->]. tauto.
  - destruct H as [-> ->]. exact Hc.
  - destruct H as (Hs & -> & ->).
    apply orb_true_iff in Hs. destruct Hs as [Hs|Hs]; zbool; split; intros; lia.
  - destruct H as (_ & _ & H1 & ->). split; intros; lia.
Qed.

Lemma step_coherent (o : op) (c : AsyncClient) :
  coherent c -> ensures (step o) c (fun _ c' _ => coherent c').
Proof.
  intros Hc. eapply ensures_weaken; [apply step_summary|].
  cbn. intros _ c' _ [Hm _]. exact (moves_coherent o c c' Hc Hm).
Qed.

Lemma run_coherent (ops : list op) :
  forall c, coherent c -> ensures (run ops) c (fun _ c' _ => coherent c').
Proof.
  induction ops as [|o ops IH]; intros c Hc.
  - exact Hc.
  - unfold ensures. rewrite run_cons.
    pose proof (step_coherent o c Hc) as H1. unfold ensures in H1.
    destruct (step o c) as [[] c1 o1|]; [|exact I].
    pose proof (IH c1 H1) as H2. unfold ensures in H2.
    destruct (run ops c1) as [[] c2 o2|]; [exact H2|exact I].
Qed.

Lemma new_coherent (sockfd uninit : Z) : coherent (AsyncClient_new sockfd uninit).
Proof.
  unfold coherent, AsyncClient_new.
  destruct (sockfd =? -1) eqn:E; cbn; zbool; [tauto|split; intros; lia].
Qed.

End Steps.

(** ** C5: descriptor and state *)

Section C5.

Context {P : Platform}.

(** C5.  The descriptor is -1 exactly when the state is CLOSED (0): this
    holds of a client as the constructor leaves it, it is preserved by
    every call into the object (among them [connect], the hooks, [close]
    and [abort]), both teardowns [_close] and [_error] establish it from
    any state, and so it holds after every history of a client. *)
Theorem C5_descriptor_state_coherence :
  (forall sockfd uninit, coherent (AsyncClient_new sockfd uninit))
  /\ (forall o c c' out, coherent c -> step o c = Done tt c' out -> coherent c')
  /\ (forall c, exists c' out, _close c = Done tt c' out /\ coherent c')
  /\ (forall err c, exists c' out, _error err c = Done tt c' out /\ coherent c')
  /\ (forall sockfd uninit ops c' out,
        run ops (AsyncClient_new sockfd uninit) = Done tt c' out -> coherent c').
Proof.
  split; [exact new_coherent|]. split; [|split; [|split]].
  - intros o c c' out Hc E.
    exact (ensures_elim _ _ _ _ _ _ (step_coherent o c Hc) E).
  - intros c. rewrite _close_out. eexists _, _. split; [reflexivity|].
    apply coherent_torn_down.
  - intros err c. rewrite _error_out. eexists _, _. split; [reflexivity|].
    apply coherent_torn_down.
  - intros sockfd uninit ops c' out E.
    exact (ensures_elim _ _ _ _ _ _
             (run_coherent ops _ (new_coherent sockfd uninit)) E).
Qed.

End C5.

Lemma C5_descriptor_state_coherence_witness :
  exists c',
    run sample_history (AsyncClient_new (-1) 0)
    = Done tt c' [SysConnect 5 16777343 80; SysWrite 5 2000 10; SysWrite 5 2004 6;
                  SysFree 2000; CbSent 10 20; SysRead 5; SysClose 5; CbDiscard]
    /\ coherent c'.
Proof.
  eexists. split; [vm_compute; reflexivity|].
  destruct C5_descriptor_state_coherence as (_ & _ & _ & _ & H).
  eapply (H (-1) 0 sample_history). vm_compute. reflexivity.
Defined.

(** ** C4: the ack-timeout latch *)

Section C4.

Context {P : Platform}.

Lemma moves_not_connecting (o : op) (c c' : AsyncClient) :
  connecting c = false -> is_connect_op o = false -> moves o c c' ->
  connecting c' = false.
Proof.
  unfold moves, connecting. intros Hc Ho [H|[H|[H|H]]].
  - destruct H as [_ ->]. reflexivity.
  - destruct H as [_ ->]. exact Hc.
  - destruct H as (H & _). unfold connecting in H. congruence.
  - destruct H as (H & _). congruence.
Qed.

(** Between two enqueues [on_timeout] is invoked at most once, and not at
    all once the latch is set. *)
Lemma run_latch (ops : list op) :
  forall c, connecting c = false -> forallb quiet ops = true ->
  ensures (run ops) c (fun _ _ out =>
    (count is_CbTimeout out <= if _ack_timeout_signaled c then 0 else 1)%nat).
Proof.
  induction ops as [|o ops IH]; intros c Hc Hq.
  - cbn. destruct (_ack_timeout_signaled c); cbn; lia.
  - cbn in Hq. apply andb_true_iff in Hq. destruct Hq as [Ho Hq].
    unfold quiet in Ho. apply andb_true_iff in Ho. destruct Ho as [Ho1 Ho2].
    apply negb_true_iff in Ho1, Ho2.
    unfold ensures. rewrite run_cons.
    pose proof (step_summary o c) as H1. unfold ensures in H1.
    destruct (step o c) as [[] c1 o1|]; [|exact I].
    destruct H1 as [Hm Hl].
    pose proof (IH c1 (moves_not_connecting o c c1 Hc Ho2 Hm) Hq) as H2.
    unfold ensures in H2.
    destruct (run ops c1) as [[] c2 o2|]; [|exact I].
    rewrite count_app.
    destruct Hl as [(H0 & [Hs|[Hs|Hs]])|(_ & Hs & Hs' & H0)]; try congruence.
    + rewrite Hs in H2. lia.
    + rewrite Hs. rewrite Hs' in H2. lia.
Qed.

(** C4.  In a history of an established client that contains no enqueue
    ([add], [write]) and no connect - the head buffer may stall, be
    written, or retire - [on_timeout] is invoked at most once, and not at
    all if the latch [_ack_timeout_signaled] is already set.  An accepted
    [add] clears the latch, after which an idle poll that finds the head
    buffer older than a nonzero [_ack_timeout] sets it and invokes
    [on_timeout] again (when a handler is set) with the age of the head
    buffer.  The writable hook of an established client, which is where the
    head buffer retires, leaves the latch as it finds it. *)
Theorem C4_ack_timeout_fires_once :
  (forall ops c c' out,
      connected c = true -> forallb quiet ops = true ->
      run ops c = Done tt c' out ->
      (count is_CbTimeout out <= 1)%nat
      /\ (_ack_timeout_signaled c = true -> count is_CbTimeout out = 0%nat))
  /\ (forall c data_ size apiflags mem now n c1 out1,
        add data_ size apiflags mem now c = Done n c1 out1 -> 0 < n ->
        _ack_timeout_signaled c1 = false
        /\ forall now' h q,
            _socket c1 <> -1 -> _writeQueue c1 = h :: q ->
            _ack_timeout c1 <> 0 -> _ack_timeout c1 <= u32 (now' - queued_at h) ->
            _sockPoll now' c1
            = Done tt (set_ack_timeout_signaled true c1)
                (if _timeout_cb c1 then [CbTimeout (u32 (now' - queued_at h))] else []))
  /\ (forall c gso sockerr wr now a c' out,
        connecting c = false ->
        _sockIsWriteable gso sockerr wr now c = Done a c' out ->
        _ack_timeout_signaled c' = _ack_timeout_signaled c
        /\ count is_CbTimeout out = 0%nat).
Proof.
  split; [|split].
  - intros ops c c' out Hc Hq E.
    assert (Hnc : connecting c = false).
    { unfold connected in Hc. unfold connecting.
      destruct (_socket c =? -1); [discriminate|]. zbool. rewrite Hc. reflexivity. }
    pose proof (ensures_elim _ _ _ _ _ _ (run_latch ops c Hnc Hq) E) as H.
    cbn in H. destruct (_ack_timeout_signaled c); split; try lia; try discriminate.
  - intros c data_ size apiflags mem now n c1 out1 E Hn.
    rewrite add_eq in E.
    destruct (add_rejects c data_ size apiflags mem); inversion E; subst; [lia|].
    split; [reflexivity|].
    intros now' h q Hs Hq Ha Hd.
    rewrite (poll_eq _ now' h q) by assumption.
    unfold ack_timed_out. apply Z.eqb_neq in Ha. apply Z.leb_le in Hd.
    rewrite Ha, Hd. reflexivity.
  - intros c gso sockerr wr now a c' out Hc E.
    pose proof (ensures_elim _ _ _ _ _ _ (writeable_summary c gso sockerr wr now) E)
      as [_ Hl].
    destruct Hl as [(H0 & [Hs|[Hs|Hs]])|(Hp & _)].
    + split; assumption.
    + discriminate Hs.
    + congruence.
    + discriminate Hp.
Qed.

End C4.

Lemma C4_ack_timeout_fires_once_witness :
  let c := set_timeout_cb true queued10 in
  let stalled := [OpPoll 5000; OpPoll 5125; OpSend 1 (mkret (-1) 11) 5130; OpPoll 5250] in
  let out := [CbTimeout 5000; SysWrite 3 2000 10] in
  exists c0 c1,
    connected c = true /\ forallb quiet stalled = true
    /\ run stalled c = Done tt c0 out
    /\ (count is_CbTimeout out <= 1)%nat
    /\ add 1000 4 ASYNC_WRITE_FLAG_COPY 3000 5300 c0 = Done 4 c1 []
    /\ _ack_timeout_signaled c1 = false
    /\ _sockPoll 5400 c1 = Done tt (set_ack_timeout_signaled true c1) [CbTimeout 5400].
Proof.
  intros c stalled out.
  destruct C4_ack_timeout_fires_once as (H1 & H2 & _).
  assert (Hrun : exists c0, run stalled c = Done tt c0 out)
    by (eexists; vm_compute; reflexivity).
  destruct Hrun as (c0 & Hrun).
  assert (Hadd : exists c1, add 1000 4 ASYNC_WRITE_FLAG_COPY 3000 5300 c0 = Done 4 c1 [] /\
                            _socket c1 <> -1 /\
                            _writeQueue c1 = [mkbuf 2000 10 0 0 0 0 true;
                                              mkbuf 3000 4 0 5300 0 0 true] /\
                            _ack_timeout c1 = 5000 /\ _timeout_cb c1 = true).
  { vm_compute in Hrun. inversion Hrun; subst c0. eexists. split; [vm_compute; reflexivity|].
    cbn. repeat split; try reflexivity. lia. }
  destruct Hadd as (c1 & Hadd & Hs & Hq1 & Hat & Hcb).
  assert (Hc : connected c = true) by reflexivity.
  assert (Hq : forallb quiet stalled = true) by reflexivity.
  destruct (H1 stalled c c0 out Hc Hq Hrun) as [Hle _].
  assert (Hn : 0 < 4) by lia.
  destruct (H2 c0 1000 4 ASYNC_WRITE_FLAG_COPY 3000 5300 4 c1 [] Hadd Hn) as [Hl Hp].
  assert (Ha : _ack_timeout c1 <> 0) by (rewrite Hat; lia).
  assert (Hd : _ack_timeout c1 <= u32 (5400 - queued_at (mkbuf 2000 10 0 0 0 0 true)))
    by (rewrite Hat; vm_compute; discriminate).
  pose proof (Hp 5400 _ _ Hs Hq1 Ha Hd) as Hpoll.
  rewrite Hcb in Hpoll.
  exists c0, c1. repeat split; assumption.
Defined.

(** C4 as it is stated fails at the retirement of the head buffer.  Two
    buffers are queued; the first stalls and [on_timeout] is invoked; the
    first is then written and retires.  The second, now the head buffer,
    has been queued for 20 s with an ack timeout of 5 s: the poll does not
    report it, the latch still being set. *)
Lemma C4_counterexample :
  let c0 := set_timeout_cb true accepted3 in
  let ops := [OpAdd 1000 10 0 0 0;
              OpAdd 1100 4 0 0 1;
              OpPoll 6000;
              OpWriteable (mkret 0 0) 0 (mkret 10 0) 6100] in
  exists c1 out1,
    run ops c0 = Done tt c1 out1
    /\ out1 = [CbTimeout 6000; SysWrite 3 1000 10]
    /\ _writeQueue c1 = [mkbuf 1100 4 0 1 0 0 false]
    /\ connected c1 = true /\ _timeout_cb c1 = true /\ _ack_timeout c1 = 5000
    /\ _sockPoll 20000 c1 = Done tt c1 []
    /\ ~ rearmed_claimed c1 20000.
Proof.
  intros c0 ops.
  eexists _, _. split; [vm_compute; reflexivity|].
  split; [reflexivity|]. split; [reflexivity|]. split; [reflexivity|].
  split; [reflexivity|]. split; [reflexivity|].
  split; [vm_compute; reflexivity|].
  intros H.
  destruct (H (mkbuf 1100 4 0 1 0 0 false) []) as (c' & out & E & Hn).
  - cbn. lia.
  - reflexivity.
  - reflexivity.
  - cbn. lia.
  - vm_compute. discriminate.
  - vm_compute in E. inversion E; subst out. discriminate Hn.
Qed.

(** ** C3: space accounting *)

Section C3.

Context {P : Platform}.

Lemma sum_length_app q1 q2 : sum_length (q1 ++ q2) = sum_length q1 + sum_length q2.
Proof. induction q1; cbn; lia. Qed.

Lemma sum_written_app q1 q2 : sum_written (q1 ++ q2) = sum_written q1 + sum_written q2.
Proof. induction q1; cbn; lia. Qed.

Lemma pending_nonneg (q : list queued_writebuf) :
  Forall buf_ok q -> 0 <= sum_length q - sum_written q.
Proof.
  induction 1 as [|b q Hb _ IH]; cbn; [lia|]. unfold buf_ok in Hb. lia.
Qed.

Lemma accounted_frame (c c' : AsyncClient) :
  _writeQueue c' = _writeQueue c ->
  _writeSpaceRemaining c' = _writeSpaceRemaining c ->
  accounted c -> accounted c'.
Proof. unfold accounted. intros -> ->. trivial. Qed.

Lemma flush_accounted (c : AsyncClient) wr now :
  accounted c -> write_contract wr c ->
  ensures (_flushWriteQueue wr now) c (fun _ c' _ => accounted c').
Proof.
  intros Ha Hw. unfold ensures.
  destruct (Z.eq_dec (_socket c) (-1)) as [Hs|Hs].
  { rewrite flush_closed by exact Hs. exact Ha. }
  destruct (_writeQueue c) as [|h q] eqn:Hq.
  { rewrite flush_empty by assumption. exact I. }
  destruct (wants_write h) eqn:Hww.
  2:{ rewrite (flush_skip c wr now h q) by assumption. exact Ha. }
  destruct (Z_lt_le_dec (rv wr) 0) as [Hr|Hr].
  - destruct (is_again wr) eqn:Hag.
    + rewrite (flush_again c wr now h q) by assumption. exact Ha.
    + rewrite (flush_fail c wr now h q) by assumption.
      unfold accounted in *. cbn. rewrite Hq in Ha. cbn in Ha.
      destruct Ha as (Hf & Hpos & He). inversion Hf; subst.
      split; [constructor; assumption|]. split; assumption.
  - rewrite (flush_ok c wr now h q) by assumption.
    unfold accounted in *. rewrite Hq in Ha. cbn in Ha.
    destruct Ha as (Hf & Hpos & He). inversion Hf as [|? ? Hb Hq']; subst.
    unfold write_contract in Hw. rewrite Hq in Hw.
    pose proof (pending_nonneg q Hq') as Hp.
    pose proof (u32_range TCP_SND_BUF) as HW.
    unfold buf_ok in Hb.
    rewrite u32_small in Hw by lia.
    assert (E1 : u32 (written h + rv wr) = written h + rv wr) by (apply u32_small; lia).
    assert (E2 : u32 (_writeSpaceRemaining c + rv wr) = _writeSpaceRemaining c + rv wr)
      by (apply u32_small; lia).
    cbn. rewrite E2.
    assert (Hadv : buf_ok (advanced (rv wr) now h)
                   /\ length (advanced (rv wr) now h) = length h
                   /\ written (advanced (rv wr) now h) = written h + rv wr).
    { unfold advanced. cbn. rewrite E1.
      destruct (length h <=? written h + rv wr); unfold buf_ok; cbn; lia. }
    destruct Hadv as (Hb' & El & Ew).
    split; [constructor; assumption|]. split; [lia|].
    cbn. rewrite El, Ew. lia.
Qed.

Lemma retired_accounted (c1 : AsyncClient) h1 q1 :
  accounted c1 -> _writeQueue c1 = h1 :: q1 -> length h1 <= written h1 ->
  accounted (retired h1 q1 c1).
Proof.
  unfold accounted. intros (Hf & Hpos & He) Hq Hl. rewrite Hq in *. cbn in He.
  inversion Hf as [|? ? Hb Hq']; subst. unfold buf_ok in Hb.
  unfold retired. destruct (_rx_last_packet c1 <? written_at h1); cbn;
    (split; [assumption|]; split; [assumption|]; lia).
Qed.

Lemma add_accounted (c : AsyncClient) data_ size apiflags mem now :
  accounted c ->
  ensures (add data_ size apiflags mem now) c (fun _ c' _ => accounted c').
Proof.
  intros Ha. unfold ensures. rewrite add_eq.
  destruct (add_rejects c data_ size apiflags mem) eqn:Hr; [exact Ha|].
  unfold add_rejects in Hr. zbool.
  assert (Hconn : connected c = true) by (destruct (connected c); [reflexivity|discriminate]).
  assert (Hsp : space c = _writeSpaceRemaining c) by (unfold space; rewrite Hconn; reflexivity).
  unfold accounted in *. destruct Ha as (Hf & Hpos & He).
  pose proof (pending_nonneg _ Hf) as Hp.
  pose proof (u32_range TCP_SND_BUF) as HW.
  assert (Hn : 0 < will_send c size <= _writeSpaceRemaining c).
  { unfold will_send. rewrite Hsp in *. destruct (_writeSpaceRemaining c <? size) eqn:El;
      zbool; lia. }
  unfold enqueued. cbn.
  rewrite u32_small by lia.
  split; [|split; [lia|]].
  - apply Forall_app. split; [assumption|]. constructor; [|constructor].
    unfold buf_ok, n_entry. cbn. lia.
  - rewrite sum_length_app, sum_written_app. unfold n_entry. cbn. lia.
Qed.

Lemma moves_stays_closed (o : op) (c c' : AsyncClient) :
  is_connect_op o = false -> _socket c = -1 -> moves o c c' -> _socket c' = -1.
Proof.
  unfold moves. intros Ho Hs [H|[H|[H|H]]].
  - tauto.
  - destruct H as [-> _]. exact Hs.
  - destruct H as (_ & -> & _). exact Hs.
  - destruct H as (H & _). congruence.
Qed.

End C3.

Section C3_steps.

Context {P : Platform}.

Ltac framed Ha :=
  right; apply (accounted_frame _ _ eq_refl eq_refl Ha).

Lemma step_accounted (o : op) (c : AsyncClient) :
  is_connect_op o = false -> accounted_or_closed c -> op_contract o c ->
  ensures (step o) c (fun _ c' _ => accounted_or_closed c').
Proof.
  intros Ho [Hs|Ha] Hw.
  { eapply ensures_weaken; [apply step_summary|].
    cbn. intros _ c' _ [Hm _]. left. exact (moves_stays_closed o c c' Ho Hs Hm). }
  destruct o; try discriminate Ho; unfold step; unfold op_contract in Hw.
  - (* _tcpsock_dns_found *)
    unfold ensures, _tcpsock_dns_found, bind, modify. destruct ipaddr; cbn; framed Ha.
  - (* _sockIsWriteable *)
    apply ensures_drop. eapply ensures_weaken; [apply writeable_cases|].
    cbn. intros a c' out H. unfold writeable_post in H.
    destruct H as [(Hc & [(-> & _)|(-> & _)])|[(Hc & Hq & -> & _)|H]].
    + left. reflexivity.
    + framed Ha.
    + right. exact Ha.
    + destruct H as (Hc & Hq & c1 & out1 & h1 & q1 & Hf & Hq1 & H).
      pose proof (ensures_elim _ _ _ _ _ _ (flush_accounted c wr now Ha Hw) Hf) as Ha1.
      destruct H as [(He & -> & _)|[(He & Hl & -> & _)|(He & Hl & -> & _)]].
      * left. reflexivity.
      * right. apply retired_accounted; assumption.
      * right. exact Ha1.
  - (* _sockIsReadable *)
    unfold ensures. rewrite readable_eq. cbn.
    destruct (0 <? rv rd); [framed Ha|].
    destruct (rv rd =? 0); [left; reflexivity|].
    destruct (is_again rd); [framed Ha|left; reflexivity].
  - (* _sockPoll *)
    unfold ensures.
    destruct (Z.eq_dec (_socket c) (-1)) as [Hs|Hs].
    { rewrite poll_closed by exact Hs. right. exact Ha. }
    destruct (_writeQueue c) as [|h q] eqn:Hq.
    { rewrite poll_empty by assumption. exact I. }
    rewrite (poll_eq c now h q) by assumption.
    destruct (ack_timed_out now h c); [framed Ha|].
    destruct (rx_timed_out now c); [left; reflexivity|right; exact Ha].
  - (* add *)
    apply ensures_drop. eapply ensures_weaken; [apply add_accounted; exact Ha|].
    cbn. intros _ c' _ H. right. exact H.
  - (* send *)
    apply ensures_drop. unfold ensures. rewrite send_eq.
    destruct (0 <? sel); [|right; exact Ha].
    pose proof (flush_accounted c wr now Ha Hw) as H. unfold ensures in H.
    destruct (_flushWriteQueue wr now c); [right; exact H|exact I].
  - (* write *)
    apply ensures_drop. unfold ensures, write. unfold bind at 1.
    pose proof (add_accounted c data_ size apiflags mem now Ha) as H1.
    unfold ensures in H1.
    destruct (add data_ size apiflags mem now c) as [n c1 o1|]; [|exact I].
    destruct (n =? 0); [cbn; right; exact H1|].
    unfold bind. rewrite send_eq.
    destruct (0 <? sel); [|cbn; right; exact H1].
    pose proof (flush_accounted c1 wr now' H1 Hw) as H. unfold ensures in H.
    destruct (_flushWriteQueue wr now' c1); [cbn; right; exact H|exact I].
  - (* close *)
    unfold ensures. rewrite close_eq.
    destruct (_socket c =? -1); [right; exact Ha|left; reflexivity].
  - (* abort *)
    apply ensures_drop. unfold ensures. rewrite abort_eq.
    destruct (_socket c =? -1); [right; exact Ha|left; reflexivity].
  - unfold ensures, setRxTimeout, modify. framed Ha.
  - unfold ensures, setAckTimeout, modify. framed Ha.
  - unfold ensures, onConnect, modify. framed Ha.
  - unfold ensures, onDisconnect, modify. framed Ha.
  - unfold ensures, onAck, modify. framed Ha.
  - unfold ensures, onError, modify. framed Ha.
  - unfold ensures, onData, modify. framed Ha.
  - unfold ensures, onTimeout, modify. framed Ha.
  - unfold ensures, onPoll, modify. framed Ha.
Qed.

Lemma run_accounted (ops : list op) :
  forall c, forallb (fun o => negb (is_connect_op o)) ops = true ->
  accounted_or_closed c -> obeys ops c ->
  ensures (run ops) c (fun _ c' _ => accounted_or_closed c').
Proof.
  induction ops as [|o ops IH]; intros c Hn Ha Hob.
  - exact Ha.
  - cbn in Hn. apply andb_true_iff in Hn. destruct Hn as [Ho Hn].
    apply negb_true_iff in Ho. cbn in Hob. destruct Hob as [Hc Hob].
    unfold ensures. rewrite run_cons.
    pose proof (step_accounted o c Ho Ha Hc) as H1. unfold ensures in H1.
    destruct (step o c) as [[] c1 o1|]; [|exact I].
    pose proof (IH c1 Hn H1 Hob) as H2. unfold ensures in H2.
    destruct (run ops c1) as [[] c2 o2|]; [exact H2|exact I].
Qed.

(** *** The running totals: what moves the free space *)

Lemma total_app (a b : list Z) : total (a ++ b) = total a + total b.
Proof. unfold total. induction a as [|x a IH]; cbn; [reflexivity|]. rewrite IH. lia. Qed.

Lemma u32_u32_add (a b : Z) : u32 (u32 a + b) = u32 (a + b).
Proof. unfold u32. apply Zplus_mod_idemp_l. Qed.

Lemma wrote_none (wr : sysret) (out : list event) :
  count is_SysWrite out = 0%nat -> wrote wr out = 0.
Proof. unfold wrote. intros ->. reflexivity. Qed.

Lemma wrote_app_l (wr : sysret) (a b : list event) :
  count is_SysWrite b = 0%nat -> wrote wr (a ++ b) = wrote wr a.
Proof. unfold wrote. intros H. rewrite count_app, H, Nat.add_0_r. reflexivity. Qed.

Lemma teardown_out_writes (c : AsyncClient) (err : option Z) :
  count is_SysWrite (teardown_out c err) = 0%nat.
Proof. apply teardown_out_count; reflexivity. Qed.

Lemma retire_out_writes (h1 : queued_writebuf) (c1 : AsyncClient) :
  count is_SysWrite (retire_out h1 c1) = 0%nat.
Proof.
  unfold retire_out. destruct (owned h1), ((0 <? length h1) && _sent_cb c1); reflexivity.
Qed.

Lemma flush_tally (c : AsyncClient) wr now :
  0 <= _writeSpaceRemaining c < 2 ^ 32 ->
  ensures (_flushWriteQueue wr now) c (fun _ c1 out1 =>
    0 <= _writeSpaceRemaining c1 < 2 ^ 32
    /\ _writeSpaceRemaining c1 = u32 (_writeSpaceRemaining c + wrote wr out1)).
Proof.
  intros Hr. unfold ensures.
  assert (Hsame : 0 <= _writeSpaceRemaining c < 2 ^ 32
                  /\ _writeSpaceRemaining c = u32 (_writeSpaceRemaining c + 0)).
  { split; [exact Hr|]. rewrite Z.add_0_r. symmetry. apply u32_small. exact Hr. }
  destruct (Z.eq_dec (_socket c) (-1)) as [Hs|Hs].
  { rewrite flush_closed by exact Hs. exact Hsame. }
  destruct (_writeQueue c) as [|h q] eqn:Hq.
  { rewrite flush_empty by assumption. exact I. }
  destruct (wants_write h) eqn:Hw.
  2:{ rewrite (flush_skip c wr now h q) by assumption. exact Hsame. }
  destruct (Z_lt_le_dec (rv wr) 0) as [Hn|Hn].
  - assert (Hz : wrote wr [the_write c h] = 0).
    { unfold wrote. cbn. apply Z.leb_gt in Hn. rewrite Hn. reflexivity. }
    destruct (is_again wr) eqn:Ha.
    + rewrite (flush_again c wr now h q) by assumption. rewrite Hz. exact Hsame.
    + rewrite (flush_fail c wr now h q) by assumption. rewrite Hz. exact Hsame.
  - rewrite (flush_ok c wr now h q) by assumption.
    assert (Hz : wrote wr [the_write c h] = rv wr).
    { unfold wrote. cbn. apply Z.leb_le in Hn. rewrite Hn. reflexivity. }
    rewrite Hz. split; [apply u32_range|reflexivity].
Qed.

Lemma add_tally (c : AsyncClient) data_ size apiflags mem now :
  0 <= _writeSpaceRemaining c < 2 ^ 32 ->
  ensures (add data_ size apiflags mem now) c (fun n c1 out1 =>
    out1 = []
    /\ (n =? 0) = add_rejects c data_ size apiflags mem
    /\ 0 <= _writeSpaceRemaining c1 < 2 ^ 32
    /\ _writeSpaceRemaining c1
       = u32 (_writeSpaceRemaining c
              - total (if add_rejects c data_ size apiflags mem then []
                       else [will_send c size]))).
Proof.
  intros Hr. unfold ensures. rewrite add_eq.
  destruct (add_rejects c data_ size apiflags mem) eqn:Hrej.
  - split; [reflexivity|]. split; [reflexivity|]. split; [exact Hr|].
    cbn. rewrite Z.sub_0_r. symmetry. apply u32_small. exact Hr.
  - split; [reflexivity|].
    unfold add_rejects in Hrej.
    repeat (apply orb_false_iff in Hrej; destruct Hrej as [Hrej ?]).
    apply negb_false_iff in Hrej.
    assert (Hsp : space c = _writeSpaceRemaining c) by (unfold space; rewrite Hrej; reflexivity).
    assert (Hws : will_send c size <> 0).
    { unfold will_send. zbool. destruct (space c <? size) eqn:E; zbool; lia. }
    split; [apply Z.eqb_neq; exact Hws|].
    split; [apply u32_range|]. cbn. rewrite Z.add_0_r. reflexivity.
Qed.

Lemma step_tally (o : op) (c : AsyncClient) :
  0 <= _writeSpaceRemaining c < 2 ^ 32 ->
  ensures (step o) c (fun _ c' out =>
    0 <= _writeSpaceRemaining c' < 2 ^ 32
    /\ _writeSpaceRemaining c'
       = u32 (_writeSpaceRemaining c - total (accepted_by o c)
              + match wr_of o with Some wr => wrote wr out | None => 0 end)).
Proof.
  intros Hr.
  assert (Hsame : forall w, w = 0 ->
            0 <= _writeSpaceRemaining c < 2 ^ 32
            /\ _writeSpaceRemaining c = u32 (_writeSpaceRemaining c - 0 + w)).
  { intros w ->. split; [exact Hr|]. rewrite Z.sub_0_r, Z.add_0_r.
    symmetry. apply u32_small. exact Hr. }
  destruct o; unfold step; cbn [accepted_by wr_of]; change (total []) with 0.
  - apply ensures_drop. unfold ensures. rewrite connect_eq.
    destruct (connect_refused c task_ok sockfd); [exact (Hsame 0 eq_refl)|].
    destruct ((rv cr <? 0) && negb (errno cr =? EINPROGRESS)); exact (Hsame 0 eq_refl).
  - apply ensures_drop. unfold connect_host.
    destruct task_ok; cbn [negb]; [|exact (Hsame 0 eq_refl)].
    destruct dns; [| |exact (Hsame 0 eq_refl)].
    + unfold ensures. rewrite connect_eq.
      destruct (connect_refused c true sockfd); [exact (Hsame 0 eq_refl)|].
      destruct ((rv cr <? 0) && negb (errno cr =? EINPROGRESS)); exact (Hsame 0 eq_refl).
    + unfold ensures, bind, modify, ret. exact (Hsame 0 eq_refl).
  - unfold ensures, _tcpsock_dns_found, bind, modify.
    destruct ipaddr; exact (Hsame 0 eq_refl).
  - unfold _sockDelayedConnect. unfold ensures. unfold bind at 1, modify at 1.
    unfold bind at 1, get at 1.
    change (_connect_addr (set_isdnsfinished false c)) with (_connect_addr c).
    destruct (_connect_addr c =? 0); cbn [negb].
    + unfold bind, when, emit, get, ret.
      destruct (_error_cb (set_isdnsfinished false c)),
               (_discard_cb (set_isdnsfinished false c)); exact (Hsame 0 eq_refl).
    + unfold bind, ret. rewrite connect_eq.
      destruct (connect_refused _ task_ok sockfd); [exact (Hsame 0 eq_refl)|].
      destruct ((rv cr <? 0) && negb (errno cr =? EINPROGRESS)); exact (Hsame 0 eq_refl).
  - apply ensures_drop. eapply ensures_weaken; [apply writeable_cases|].
    cbn beta. intros a c' out Hw. unfold writeable_post in Hw.
    destruct Hw as [(Hc & [(-> & e & ->)|(-> & _ & ->)])|[(Hc & Hq & -> & ->)|Hw]].
    + apply Hsame. apply wrote_none, teardown_out_writes.
    + apply Hsame. apply wrote_none. destruct (_connect_cb c); reflexivity.
    + apply Hsame. reflexivity.
    + destruct Hw as (Hc & Hq & c1 & out1 & h1 & q1 & Hf & Hq1 & Hw).
      pose proof (ensures_elim _ _ _ _ _ _ (flush_tally c wr now Hr) Hf) as [Hr1 E1].
      rewrite Z.sub_0_r.
      destruct Hw as [(He & -> & ->)|[(He & Hl & -> & ->)|(He & Hl & -> & ->)]].
      * rewrite wrote_app_l by apply teardown_out_writes.
        split; [exact Hr1|exact E1].
      * rewrite wrote_app_l by apply retire_out_writes.
        unfold retired. destruct (_rx_last_packet c1 <? written_at h1);
          (split; [exact Hr1|exact E1]).
      * split; [exact Hr1|exact E1].
  - unfold ensures. rewrite readable_eq. cbn zeta.
    destruct (0 <? rv rd); [exact (Hsame 0 eq_refl)|].
    destruct (rv rd =? 0); [exact (Hsame 0 eq_refl)|].
    destruct (is_again rd); exact (Hsame 0 eq_refl).
  - unfold ensures.
    destruct (Z.eq_dec (_socket c) (-1)) as [Hs|Hs].
    { rewrite poll_closed by exact Hs. exact (Hsame 0 eq_refl). }
    destruct (_writeQueue c) as [|h q] eqn:Hq.
    { rewrite poll_empty by assumption. exact I. }
    rewrite (poll_eq c now h q) by assumption.
    destruct (ack_timed_out now h c); [exact (Hsame 0 eq_refl)|].
    destruct (rx_timed_out now c); exact (Hsame 0 eq_refl).
  - apply ensures_drop. eapply ensures_weaken; [apply add_tally; exact Hr|].
    cbn beta. intros n c1 out1 (_ & _ & Hr1 & E1). rewrite Z.add_0_r.
    split; [exact Hr1|exact E1].
  - apply ensures_drop. unfold ensures. rewrite send_eq. rewrite Z.sub_0_r.
    destruct (0 <? sel).
    2:{ destruct (Hsame 0 eq_refl) as [H1 H2]. rewrite Z.sub_0_r in H2.
        split; [exact H1|exact H2]. }
    pose proof (flush_tally c wr now Hr) as H. unfold ensures in H.
    destruct (_flushWriteQueue wr now c); [exact H|exact I].
  - apply ensures_drop. unfold ensures, write. unfold bind at 1.
    pose proof (add_tally c data_ size apiflags mem now Hr) as H1.
    unfold ensures in H1.
    destruct (add data_ size apiflags mem now c) as [n c1 o1|]; [|exact I].
    destruct H1 as (-> & Hn & Hr1 & E1).
    destruct (n =? 0).
    { cbn [ret]. change (wrote wr []) with 0. rewrite Z.add_0_r.
      split; [exact Hr1|exact E1]. }
    unfold bind. rewrite send_eq.
    destruct (0 <? sel).
    2:{ cbn [negb ret app]. change (wrote wr []) with 0. rewrite Z.add_0_r.
        split; [exact Hr1|exact E1]. }
    pose proof (flush_tally c1 wr now' Hr1) as H. unfold ensures in H.
    destruct (_flushWriteQueue wr now' c1) as [a c2 o2|]; [|exact I].
    destruct H as [Hr2 E2]. cbn [negb ret app]. rewrite app_nil_r.
    split; [exact Hr2|]. rewrite E2, E1. apply u32_u32_add.
  - unfold ensures. rewrite close_eq.
    destruct (_socket c =? -1); exact (Hsame 0 eq_refl).
  - apply ensures_drop. unfold ensures. rewrite abort_eq.
    destruct (_socket c =? -1); exact (Hsame 0 eq_refl).
  - unfold ensures, setRxTimeout, modify. exact (Hsame 0 eq_refl).
  - unfold ensures, setAckTimeout, modify. exact (Hsame 0 eq_refl).
  - unfold ensures, onConnect, modify. exact (Hsame 0 eq_refl).
  - unfold ensures, onDisconnect, modify. exact (Hsame 0 eq_refl).
  - unfold ensures, onAck, modify. exact (Hsame 0 eq_refl).
  - unfold ensures, onError, modify. exact (Hsame 0 eq_refl).
  - unfold ensures, onData, modify. exact (Hsame 0 eq_refl).
  - unfold ensures, onTimeout, modify. exact (Hsame 0 eq_refl).
  - unfold ensures, onPoll, modify. exact (Hsame 0 eq_refl).
Qed.

Lemma run_tally (ops : list op) :
  forall c, 0 <= _writeSpaceRemaining c < 2 ^ 32 ->
  ensures (run ops) c (fun _ c' _ =>
    0 <= _writeSpaceRemaining c' < 2 ^ 32
    /\ _writeSpaceRemaining c'
       = u32 (_writeSpaceRemaining c - total (accepted ops c) + written_total ops c)).
Proof.
  induction ops as [|o ops IH]; intros c Hr.
  - cbn. split; [exact Hr|]. rewrite Z.sub_0_r, Z.add_0_r. symmetry.
    apply u32_small. exact Hr.
  - unfold ensures. rewrite run_cons. cbn [accepted written_total]. unfold written_by.
    pose proof (step_tally o c Hr) as H1. unfold ensures in H1.
    destruct (step o c) as [[] c1 o1|]; [|exact I].
    destruct H1 as [Hr1 E1].
    pose proof (IH c1 Hr1) as H2. unfold ensures in H2.
    destruct (run ops c1) as [[] c2 o2|]; [|exact I].
    destruct H2 as [Hr2 E2]. split; [exact Hr2|].
    rewrite E2, E1, total_app.
    replace (u32 (_writeSpaceRemaining c - total (accepted_by o c)
                  + match wr_of o with Some wr => wrote wr o1 | None => 0 end)
             - total (accepted ops c1) + written_total ops c1)
      with (u32 (_writeSpaceRemaining c - total (accepted_by o c)
                 + match wr_of o with Some wr => wrote wr o1 | None => 0 end)
            + (written_total ops c1 - total (accepted ops c1))) by lia.
    rewrite u32_u32_add. f_equal. lia.
Qed.

(** C3.  Over every history of a client since its constructor - [add],
    the flushes, the hooks, both teardowns and new connects included -
    [_writeSpaceRemaining] is, in the arithmetic of [uint32_t], the initial
    window minus the lengths [add] accepted plus the bytes [lwip_write]
    reported written: an accepted [add] takes the accepted length, a
    successful write gives the bytes written back, and nothing else moves
    it; a teardown gives nothing back for the buffers it drops.  From a
    client with an empty queue and the initial window, as the constructor
    leaves it, along a history without a new connect in which [lwip_write]
    never returns more than it was asked to write, this is the initial
    window minus the sum of [length] plus the sum of [written] over the
    queued buffers whenever the client is connected. *)
Theorem C3_space_accounting :
  (forall (ops : list op) (sockfd uninit : Z) (c' : AsyncClient) (out : list event),
      run ops (AsyncClient_new sockfd uninit) = Done tt c' out ->
      _writeSpaceRemaining c'
      = u32 (TCP_SND_BUF - total (accepted ops (AsyncClient_new sockfd uninit))
             + written_total ops (AsyncClient_new sockfd uninit)))
  /\ (forall (c0 : AsyncClient) (ops : list op) (c' : AsyncClient) (out : list event),
        _writeQueue c0 = [] -> _writeSpaceRemaining c0 = u32 TCP_SND_BUF ->
        forallb (fun o => negb (is_connect_op o)) ops = true ->
        obeys ops c0 ->
        run ops c0 = Done tt c' out ->
        connected c' = true ->
        _writeSpaceRemaining c'
        = u32 TCP_SND_BUF - sum_length (_writeQueue c') + sum_written (_writeQueue c')).
Proof.
  split.
  - intros ops sockfd uninit c' out E.
    assert (Hw : _writeSpaceRemaining (AsyncClient_new sockfd uninit) = u32 TCP_SND_BUF).
    { unfold AsyncClient_new. destruct (sockfd =? -1); reflexivity. }
    assert (Hr : 0 <= _writeSpaceRemaining (AsyncClient_new sockfd uninit) < 2 ^ 32)
      by (rewrite Hw; apply u32_range).
    pose proof (ensures_elim _ _ _ _ _ _ (run_tally ops _ Hr) E) as [_ H].
    rewrite H, Hw.
    replace (u32 TCP_SND_BUF - total (accepted ops (AsyncClient_new sockfd uninit))
             + written_total ops (AsyncClient_new sockfd uninit))
      with (u32 TCP_SND_BUF
            + (written_total ops (AsyncClient_new sockfd uninit)
               - total (accepted ops (AsyncClient_new sockfd uninit)))) by lia.
    rewrite u32_u32_add. f_equal. lia.
  - intros c0 ops c' out Hq Hw Hn Hob E Hc.
    assert (Ha : accounted_or_closed c0).
    { right. unfold accounted. rewrite Hq, Hw. cbn.
      pose proof (u32_range TCP_SND_BUF). split; [constructor|]. split; lia. }
    pose proof (ensures_elim _ _ _ _ _ _ (run_accounted ops c0 Hn Ha Hob) E) as H.
    destruct H as [Hs|(_ & _ & H)]; [|exact H].
    unfold connected in Hc. apply Z.eqb_eq in Hs. rewrite Hs in Hc. discriminate Hc.
Qed.

End C3_steps.

Lemma C3_space_accounting_witness :
  let ops := [ OpAdd 1000 10 ASYNC_WRITE_FLAG_COPY 2000 20;
               OpSend 1 (mkret 4 0) 30;
               OpAdd 1100 8000 0 0 35;
               OpWriteable (mkret 0 0) 0 (mkret 6 0) 40 ] in
  exists c' out,
    run ops (AsyncClient_new 3 0) = Done tt c' out
    /\ _writeQueue c' = [mkbuf 1100 5834 0 35 0 0 false]
    /\ accepted ops (AsyncClient_new 3 0) = [10; 5834]
    /\ written_total ops (AsyncClient_new 3 0) = 10
    /\ _writeSpaceRemaining c' = u32 (5840 - (10 + 5834) + 10)
    /\ _writeSpaceRemaining c'
       = u32 TCP_SND_BUF - sum_length (_writeQueue c') + sum_written (_writeQueue c').
Proof.
  intros ops.
  destruct C3_space_accounting as [Htotals Hqueue].
  assert (Hrun : exists c' out, run ops (AsyncClient_new 3 0) = Done tt c' out
                                /\ _writeQueue c' = [mkbuf 1100 5834 0 35 0 0 false]
                                /\ connected c' = true).
  { eexists _, _. split; [vm_compute; reflexivity|]. split; reflexivity. }
  destruct Hrun as (c' & out & Hrun & Hq' & Hc').
  assert (Hacc : accepted ops (AsyncClient_new 3 0) = [10; 5834])
    by (vm_compute; reflexivity).
  assert (Hwr : written_total ops (AsyncClient_new 3 0) = 10)
    by (vm_compute; reflexivity).
  assert (Hq : _writeQueue (AsyncClient_new 3 0) = []) by reflexivity.
  assert (Hw : _writeSpaceRemaining (AsyncClient_new 3 0) = u32 TCP_SND_BUF) by reflexivity.
  assert (Hn : forallb (fun o => negb (is_connect_op o)) ops = true) by reflexivity.
  assert (Hob : obeys ops (AsyncClient_new 3 0)).
  { vm_compute. repeat split; try exact I; intro; discriminate. }
  pose proof (Htotals ops 3 0 c' out Hrun) as H1.
  rewrite Hacc, Hwr in H1.
  pose proof (Hqueue (AsyncClient_new 3 0) ops c' out Hq Hw Hn Hob Hrun Hc') as H2.
  exists c', out.
  split; [exact Hrun|]. split; [exact Hq'|]. split; [exact Hacc|]. split; [exact Hwr|].
  split; [exact H1|exact H2].
Defined.

(** C3 as it is stated fails on a client connected anew.  Ten bytes are
    queued and the client is closed with them pending; the object is
    connected again and the connection is established; four bytes are
    queued, written and retired.  The client is connected, its queue is
    empty, and the free space is 5830, not the initial window 5840: the ten
    bytes dropped by the teardown are not given back. *)
Lemma C3_counterexample :
  let ops := [OpAdd 1000 10 0 0 0;
              OpClose;
              OpConnect 16777343 80 true 5 (mkret (-1) 119);
              OpWriteable (mkret 0 0) 0 (mkret 0 0) 10;
              OpAdd 1100 4 0 0 20;
              OpWriteable (mkret 0 0) 0 (mkret 4 0) 30] in
  exists c' out,
    run ops (AsyncClient_new 3 0) = Done tt c' out
    /\ connected c' = true /\ _writeQueue c' = []
    /\ u32 TCP_SND_BUF = 5840
    /\ _writeSpaceRemaining c' = 5830
    /\ ~ space_claimed c'.
Proof.
  intros ops.
  eexists _, _. split; [vm_compute; reflexivity|].
  split; [reflexivity|]. split; [reflexivity|]. split; [reflexivity|].
  split; [reflexivity|].
  intros H. specialize (H eq_refl). vm_compute in H. discriminate H.
Qed.

(** ** Queued buffers are never empty *)

Section Positive.

Context {P : Platform}.

Lemma flush_lengths (c : AsyncClient) wr now :
  ensures (_flushWriteQueue wr now) c (fun _ c' _ =>
    map length (_writeQueue c') = map length (_writeQueue c)
    /\ (_writeSpaceRemaining c' = _writeSpaceRemaining c \/ 0 <= _writeSpaceRemaining c')).
Proof.
  unfold ensures.
  destruct (Z.eq_dec (_socket c) (-1)) as [Hs|Hs].
  { rewrite flush_closed by exact Hs. auto. }
  destruct (_writeQueue c) as [|h q] eqn:Hq.
  { rewrite flush_empty by assumption. exact I. }
  destruct (wants_write h) eqn:Hw.
  2:{ rewrite (flush_skip c wr now h q) by assumption. rewrite Hq. auto. }
  destruct (Z_lt_le_dec (rv wr) 0) as [Hr|Hr].
  - destruct (is_again wr) eqn:Ha.
    + rewrite (flush_again c wr now h q) by assumption. rewrite Hq. auto.
    + rewrite (flush_fail c wr now h q) by assumption. cbn. auto.
  - rewrite (flush_ok c wr now h q) by assumption. cbn. split.
    + unfold advanced. destruct (length _ <=? written _); reflexivity.
    + right. apply u32_range.
Qed.

Lemma positive_frame (c c' : AsyncClient) :
  _writeQueue c' = _writeQueue c ->
  _writeSpaceRemaining c' = _writeSpaceRemaining c ->
  positive c -> positive c'.
Proof. unfold positive. intros -> ->. trivial. Qed.

Lemma positive_torn_down (c : AsyncClient) : positive c -> positive (torn_down c).
Proof. unfold positive. cbn. intros [H _]. split; [exact H|constructor]. Qed.

Lemma Forall_positive_lengths (q q' : list queued_writebuf) :
  map length q' = map length q ->
  Forall (fun b => 0 < length b) q -> Forall (fun b => 0 < length b) q'.
Proof.
  revert q'. induction q as [|b q IH]; intros [|b' q'] E H; try discriminate E.
  - constructor.
  - cbn in E. inversion E as [[E1 E2]]. inversion H; subst.
    constructor; [lia|]. apply IH; assumption.
Qed.

Lemma flush_positive (c : AsyncClient) wr now :
  positive c -> ensures (_flushWriteQueue wr now) c (fun _ c' _ => positive c').
Proof.
  intros [H0 Hf]. eapply ensures_weaken; [apply flush_lengths|].
  cbn. intros _ c' _ [Hl Hw]. split.
  - destruct Hw as [->|Hw]; assumption.
  - exact (Forall_positive_lengths _ _ Hl Hf).
Qed.

Lemma add_positive (c : AsyncClient) data_ size apiflags mem now :
  positive c -> ensures (add data_ size apiflags mem now) c (fun _ c' _ => positive c').
Proof.
  intros [H0 Hf]. unfold ensures. rewrite add_eq.
  destruct (add_rejects c data_ size apiflags mem) eqn:Hr; [split; assumption|].
  unfold add_rejects in Hr. zbool.
  assert (Hconn : connected c = true) by (destruct (connected c); [reflexivity|discriminate]).
  assert (Hsp : space c = _writeSpaceRemaining c) by (unfold space; rewrite Hconn; reflexivity).
  unfold positive, enqueued. cbn. split; [apply u32_range|].
  apply Forall_app. split; [assumption|]. constructor; [|constructor].
  unfold n_entry, will_send. cbn. rewrite Hsp in *.
  destruct (_writeSpaceRemaining c <? size); lia.
Qed.

Ltac pframed Hp := apply (positive_frame _ _ eq_refl eq_refl Hp).

Lemma connect_positive (c : AsyncClient) ip port task_ok sockfd cr :
  positive c -> ensures (connect ip port task_ok sockfd cr) c (fun _ c' _ => positive c').
Proof.
  intros Hp. unfold ensures. rewrite connect_eq.
  destruct (connect_refused c task_ok sockfd); [exact Hp|].
  destruct ((rv cr <? 0) && negb (errno cr =? EINPROGRESS)); [exact Hp|pframed Hp].
Qed.

Lemma step_positive (o : op) (c : AsyncClient) :
  positive c -> ensures (step o) c (fun _ c' _ => positive c').
Proof.
  intros Hp. destruct o; unfold step.
  - apply ensures_drop. apply connect_positive. exact Hp.
  - apply ensures_drop. unfold connect_host.
    destruct task_ok; cbn [negb]; [|exact Hp].
    destruct dns; [apply connect_positive; exact Hp| |exact Hp].
    unfold ensures, bind, modify, ret. pframed Hp.
  - unfold ensures, _tcpsock_dns_found, bind, modify. destruct ipaddr; cbn; pframed Hp.
  - unfold _sockDelayedConnect. unfold ensures. unfold bind at 1, modify at 1.
    unfold bind at 1, get at 1.
    change (_connect_addr (set_isdnsfinished false c)) with (_connect_addr c).
    assert (Hp1 : positive (set_isdnsfinished false c)) by pframed Hp.
    destruct (_connect_addr c =? 0); cbn [negb].
    + unfold bind, when, emit, get, ret.
      destruct (_error_cb (set_isdnsfinished false c)),
               (_discard_cb (set_isdnsfinished false c)); exact Hp1.
    + pose proof (connect_positive (set_isdnsfinished false c) (_connect_addr c)
                    (_connect_port (set_isdnsfinished false c)) task_ok sockfd cr Hp1) as H.
      unfold ensures in H. unfold bind, ret.
      destruct (connect _ _ _ _ _ _) as [a c' out|]; [exact H|exact I].
  - apply ensures_drop. eapply ensures_weaken; [apply writeable_cases|].
    cbn. intros a c' out H. unfold writeable_post in H.
    destruct H as [(Hc & [(-> & _)|(-> & _)])|[(Hc & Hq & -> & _)|H]].
    + apply positive_torn_down. exact Hp.
    + pframed Hp.
    + exact Hp.
    + destruct H as (Hc & Hq & c1 & out1 & h1 & q1 & Hf & Hq1 & H).
      pose proof (ensures_elim _ _ _ _ _ _ (flush_positive c wr now Hp) Hf) as Hp1.
      destruct H as [(He & -> & _)|[(He & Hl & -> & _)|(He & Hl & -> & _)]].
      * apply positive_torn_down. exact Hp1.
      * destruct Hp1 as [H0 Hf1]. rewrite Hq1 in Hf1. inversion Hf1; subst.
        unfold positive, retired.
        destruct (_rx_last_packet c1 <? written_at h1); cbn; split; assumption.
      * exact Hp1.
  - unfold ensures. rewrite readable_eq. cbn.
    assert (Hp1 : positive (set_rx_last_packet now c)) by pframed Hp.
    destruct (0 <? rv rd); [exact Hp1|].
    destruct (rv rd =? 0); [apply positive_torn_down; exact Hp1|].
    destruct (is_again rd); [exact Hp1|apply positive_torn_down; exact Hp1].
  - unfold ensures.
    destruct (Z.eq_dec (_socket c) (-1)) as [Hs|Hs].
    { rewrite poll_closed by exact Hs. exact Hp. }
    destruct (_writeQueue c) as [|h q] eqn:Hq.
    { rewrite poll_empty by assumption. exact I. }
    rewrite (poll_eq c now h q) by assumption.
    destruct (ack_timed_out now h c); [pframed Hp|].
    destruct (rx_timed_out now c); [apply positive_torn_down; exact Hp|exact Hp].
  - apply ensures_drop. apply add_positive. exact Hp.
  - apply ensures_drop. unfold ensures. rewrite send_eq.
    destruct (0 <? sel); [|exact Hp].
    pose proof (flush_positive c wr now Hp) as H. unfold ensures in H.
    destruct (_flushWriteQueue wr now c); [exact H|exact I].
  - apply ensures_drop. unfold ensures, write. unfold bind at 1.
    pose proof (add_positive c data_ size apiflags mem now Hp) as H1.
    unfold ensures in H1.
    destruct (add data_ size apiflags mem now c) as [n c1 o1|]; [|exact I].
    destruct (n =? 0); [exact H1|].
    unfold bind. rewrite send_eq.
    destruct (0 <? sel); [|exact H1].
    pose proof (flush_positive c1 wr now' H1) as H. unfold ensures in H.
    destruct (_flushWriteQueue wr now' c1); [exact H|exact I].
  - unfold ensures. rewrite close_eq.
    destruct (_socket c =? -1); [exact Hp|apply positive_torn_down; exact Hp].
  - apply ensures_drop. unfold ensures. rewrite abort_eq.
    destruct (_socket c =? -1); [exact Hp|apply positive_torn_down; exact Hp].
  - unfold ensures, setRxTimeout, modify. pframed Hp.
  - unfold ensures, setAckTimeout, modify. pframed Hp.
  - unfold ensures, onConnect, modify. pframed Hp.
  - unfold ensures, onDisconnect, modify. pframed Hp.
  - unfold ensures, onAck, modify. pframed Hp.
  - unfold ensures, onError, modify. pframed Hp.
  - unfold ensures, onData, modify. pframed Hp.
  - unfold ensures, onTimeout, modify. pframed Hp.
  - unfold ensures, onPoll, modify. pframed Hp.
Qed.

(** After every history of a client, every queued buffer has a positive
    length. *)
Lemma reachable_positive (ops : list op) :
  forall c, positive c -> ensures (run ops) c (fun _ c' _ => positive c').
Proof.
  induction ops as [|o ops IH]; intros c Hp.
  - exact Hp.
  - unfold ensures. rewrite run_cons.
    pose proof (step_positive o c Hp) as H1. unfold ensures in H1.
    destruct (step o c) as [[] c1 o1|]; [|exact I].
    pose proof (IH c1 H1) as H2. unfold ensures in H2.
    destruct (run ops c1) as [[] c2 o2|]; [exact H2|exact I].
Qed.

Lemma new_positive (sockfd uninit : Z) : positive (AsyncClient_new sockfd uninit).
Proof.
  unfold positive, AsyncClient_new.
  destruct (sockfd =? -1); cbn; (split; [apply u32_range|constructor]).
Qed.

End Positive.

(** ** C7 and C10: retiring the head buffer *)

Section C7.

Context {P : Platform}.

Lemma retire_out_count (h1 : queued_writebuf) (c1 : AsyncClient) :
  (count is_CbSent (retire_out h1 c1) <= 1)%nat.
Proof.
  unfold retire_out. destruct (owned h1), ((0 <? length h1) && _sent_cb c1); cbn; lia.
Qed.

Lemma state4_not_connecting (c : AsyncClient) :
  _conn_state c = 4 -> connecting c = false.
Proof. unfold connecting. intros ->. reflexivity. Qed.

(** C7.  On an ESTABLISHED client whose queued buffers have a positive
    length (as [add] queues them, see [reachable_positive]) one invocation
    of the writable hook returns, invokes [on_ack] at most once, and -
    unless a write error tears the connection down - removes at most one
    buffer from the queue.  When, after the flush, the head buffer [h1] is
    completely written without error, the hook pops it, frees its data if
    and only if it is owned, and invokes [on_ack] once (the handler slot
    being set) with the length of the buffer and the delay
    [written_at - queued_at]; with an empty slot there is no handler to
    invoke. *)
Theorem C7_writeable_retires_one (c : AsyncClient) (gso : sysret) (sockerr : Z)
    (wr : sysret) (now : Z) :
  _conn_state c = 4 ->
  Forall (fun b => 0 < length b) (_writeQueue c) ->
  exists a c' out,
    _sockIsWriteable gso sockerr wr now c = Done a c' out
    /\ (count is_CbSent out <= 1)%nat
    /\ (_conn_state c' = 0
        \/ (List.length (_writeQueue c) <= S (List.length (_writeQueue c')))%nat)
    /\ (forall a1 c1 out1 h1 q1,
          _writeQueue c <> [] ->
          _flushWriteQueue wr now c = Done a1 c1 out1 ->
          _writeQueue c1 = h1 :: q1 ->
          write_errno h1 = 0 -> length h1 <= written h1 ->
          a = a1
          /\ _writeQueue c' = q1
          /\ _conn_state c' = 4
          /\ out = out1
                   ++ (if owned h1 then [SysFree (data h1)] else [])
                   ++ (if _sent_cb c
                       then [CbSent (length h1) (u32 (written_at h1 - queued_at h1))]
                       else [])).
Proof.
  intros H4 Hpos. pose proof (state4_not_connecting c H4) as Hc.
  pose proof (writeable_cases c gso sockerr wr now) as Hcases.
  unfold ensures in Hcases.
  destruct (_writeQueue c) as [|h q] eqn:Hq.
  { rewrite writeable_idle in * by assumption.
    exists false, c, []. split; [reflexivity|]. split; [cbn; lia|].
    split; [right; rewrite Hq; cbn; lia|]. intros. congruence. }
  assert (Hne : _writeQueue c <> []) by (rewrite Hq; discriminate).
  destruct (flush_defined c wr now Hne) as (a1 & c1 & out1 & h1 & q1 & Hf & Hq1).
  pose proof (flush_frame c wr now) as Hfr.
  pose proof (flush_out_count is_CbSent c wr now (fun _ _ _ => eq_refl)) as Hcnt.
  unfold ensures in Hfr, Hcnt. rewrite Hf in Hfr, Hcnt.
  destruct Hfr as (w & q' & E1 & Hlen & _).
  assert (Hpos1 : 0 < length h1).
  { pose proof (ensures_elim _ _ _ _ _ _ (flush_lengths c wr now) Hf) as [Hmap _].
    rewrite Hq in Hmap.
    pose proof (Forall_positive_lengths _ _ Hmap Hpos) as Hall.
    rewrite Hq1 in Hall. inversion Hall; assumption. }
  assert (Hq1' : q' = h1 :: q1) by (rewrite E1 in Hq1; exact Hq1).
  assert (Hcb : _sent_cb c1 = _sent_cb c) by (rewrite E1; reflexivity).
  assert (Hst : _conn_state c1 = 4) by (rewrite E1; exact H4).
  rewrite Hq in Hlen. rewrite Hq1' in Hlen. cbn in Hlen.
  destruct (Z.eq_dec (write_errno h1) 0) as [He|He].
  - destruct (Z_lt_le_dec (written h1) (length h1)) as [Hl|Hl].
    + rewrite (writeable_pending c gso sockerr wr now a1 c1 out1 h1 q1) by assumption.
      exists a1, c1, out1. split; [reflexivity|]. split; [lia|].
      split; [right; rewrite Hq1; cbn; lia|].
      intros a2 c2 out2 h2 q2 _ Hf2 Hq2 _ Hl2.
      rewrite Hf in Hf2. inversion Hf2; subst. rewrite Hq1 in Hq2. inversion Hq2; subst. lia.
    + rewrite (writeable_retires c gso sockerr wr now a1 c1 out1 h1 q1) by assumption.
      exists a1, (retired h1 q1 c1), (out1 ++ retire_out h1 c1).
      split; [reflexivity|]. split.
      { rewrite count_app, Hcnt. apply retire_out_count. }
      split.
      { right. unfold retired. destruct (_rx_last_packet c1 <? written_at h1); cbn; lia. }
      intros a2 c2 out2 h2 q2 _ Hf2 Hq2 _ _.
      rewrite Hf in Hf2. inversion Hf2; subst a2 c2 out2.
      rewrite Hq1 in Hq2. inversion Hq2; subst h2 q2.
      split; [reflexivity|]. split.
      { unfold retired. destruct (_rx_last_packet c1 <? written_at h1); reflexivity. }
      split.
      { unfold retired. destruct (_rx_last_packet c1 <? written_at h1); exact Hst. }
      unfold retire_out. apply Z.ltb_lt in Hpos1. rewrite Hpos1, Hcb. reflexivity.
  - rewrite (writeable_failed c gso sockerr wr now a1 c1 out1 h1 q1) by assumption.
    eexists a1, _, _. split; [reflexivity|]. split.
    { rewrite count_app, Hcnt, teardown_out_count by reflexivity. lia. }
    split; [left; reflexivity|].
    intros a2 c2 out2 h2 q2 _ Hf2 Hq2 He2 _.
    rewrite Hf in Hf2. inversion Hf2; subst. rewrite Hq1 in Hq2. inversion Hq2; subst.
    contradiction.
Qed.

End C7.

Lemma C7_writeable_retires_one_witness :
  let c := set_sent_cb true queued10 in
  exists a c' out,
    _conn_state c = 4
    /\ Forall (fun b => 0 < length b) (_writeQueue c)
    /\ _sockIsWriteable (mkret 0 0) 0 (mkret 10 0) 50 c = Done a c' out
    /\ (count is_CbSent out <= 1)%nat
    /\ _writeQueue c' = []
    /\ out = [SysWrite 3 2000 10; SysFree 2000; CbSent 10 50].
Proof.
  intros c.
  assert (H4 : _conn_state c = 4) by reflexivity.
  assert (Hpos : Forall (fun b => 0 < length b) (_writeQueue c))
    by (repeat constructor).
  destruct (C7_writeable_retires_one c (mkret 0 0) 0 (mkret 10 0) 50 H4 Hpos)
    as (a & c' & out & E & Hcnt & _ & Hret).
  assert (Hne : _writeQueue c <> []) by discriminate.
  assert (Hf : exists c1, _flushWriteQueue (mkret 10 0) 50 c
                          = Done true c1 [SysWrite 3 2000 10]
                          /\ _writeQueue c1 = [mkbuf 2000 10 10 0 50 0 true]).
  { eexists. split; [vm_compute; reflexivity|reflexivity]. }
  destruct Hf as (c1 & Hf & Hq1).
  assert (Hl : length (mkbuf 2000 10 10 0 50 0 true) <= written (mkbuf 2000 10 10 0 50 0 true))
    by (cbn; lia).
  destruct (Hret true c1 _ _ _ Hne Hf Hq1 eq_refl Hl) as (_ & Hq' & _ & Hout).
  exists a, c', out. repeat split; assumption.
Defined.

Section C10.

Context {P : Platform}.

(** C10.  When, after the flush of the writable hook, the head buffer [h1]
    is completely written without error, the hook stores its [written_at]
    in [_rx_last_packet] if it is later: [_rx_last_packet] becomes the later
    of the two, and [written_at] when that is later.  The rx timeout of the
    idle poll is measured from that instant from then on.  With [h2] the
    next head buffer and the ack test of the poll not firing, [_sockPoll]
    at [now'] runs the close teardown exactly when [_rx_since_timeout] is
    nonzero and the time since that instant has reached
    [_rx_since_timeout * 1000] ms, and otherwise leaves the connection
    open; when the ack test fires, the poll only sets the latch.  A read
    that returns data moves [_rx_last_packet] to the time of the read, and
    the poll then measures the rx timeout from the read in the same way. *)
Theorem C10_completion_defers_rx_timeout (c : AsyncClient) (gso : sysret)
    (sockerr : Z) (wr : sysret) (now : Z) (a1 : bool) (c1 : AsyncClient)
    (out1 : list event) (h1 : queued_writebuf) (q1 : list queued_writebuf) :
  connecting c = false -> _writeQueue c <> [] ->
  _flushWriteQueue wr now c = Done a1 c1 out1 ->
  _writeQueue c1 = h1 :: q1 ->
  write_errno h1 = 0 -> length h1 <= written h1 ->
  exists c' out,
    _sockIsWriteable gso sockerr wr now c = Done a1 c' out
    /\ _rx_last_packet c' = Z.max (_rx_last_packet c) (written_at h1)
    /\ (_rx_last_packet c < written_at h1 -> _rx_last_packet c' = written_at h1)
    /\ (forall now' h2 q2,
          _socket c <> -1 -> q1 = h2 :: q2 ->
          let t := Z.max (_rx_last_packet c) (written_at h1) in
          (ack_timed_out now' h2 c' = true ->
           _sockPoll now' c'
           = Done tt (set_ack_timeout_signaled true c')
               (if _timeout_cb c then [CbTimeout (u32 (now' - queued_at h2))] else []))
          /\ (ack_timed_out now' h2 c' = false ->
              _rx_since_timeout c <> 0 ->
              u32 (_rx_since_timeout c * 1000) <= u32 (now' - t) ->
              _sockPoll now' c'
              = Done tt (torn_down c')
                  (SysClose (_socket c) :: clear_frees q1
                     ++ (if _discard_cb c then [CbDiscard] else [])))
          /\ (ack_timed_out now' h2 c' = false ->
              _rx_since_timeout c = 0
              \/ u32 (now' - t) < u32 (_rx_since_timeout c * 1000) ->
              _sockPoll now' c' = Done tt c' (if _poll_cb c then [CbPoll] else [])))
    /\ (forall rd now2, 0 < rv rd ->
          let c2 := set_rx_last_packet now2 c in
          exists out2,
            _sockIsReadable rd now2 c = Done tt c2 out2
            /\ forall now' h q,
                 _socket c <> -1 -> _writeQueue c = h :: q ->
                 ack_timed_out now' h c2 = false ->
                 (_rx_since_timeout c <> 0 ->
                  u32 (_rx_since_timeout c * 1000) <= u32 (now' - now2) ->
                  _sockPoll now' c2
                  = Done tt (torn_down c2)
                      (SysClose (_socket c) :: clear_frees (h :: q)
                         ++ (if _discard_cb c then [CbDiscard] else [])))
                 /\ (_rx_since_timeout c = 0
                     \/ u32 (now' - now2) < u32 (_rx_since_timeout c * 1000) ->
                     _sockPoll now' c2
                     = Done tt c2 (if _poll_cb c then [CbPoll] else []))).
Proof.
  intros Hc Hne Hf Hq1 He Hl.
  pose proof (flush_frame c wr now) as Hfr. unfold ensures in Hfr. rewrite Hf in Hfr.
  destruct Hfr as (w & q' & E1 & _ & _).
  assert (Hrx1 : _rx_last_packet c1 = _rx_last_packet c) by (rewrite E1; reflexivity).
  exists (retired h1 q1 c1), (out1 ++ retire_out h1 c1).
  split; [apply writeable_retires; assumption|].
  set (c' := retired h1 q1 c1).
  assert (Hlast : _rx_last_packet c' = Z.max (_rx_last_packet c) (written_at h1)).
  { unfold c', retired. rewrite <- Hrx1.
    destruct (_rx_last_packet c1 <? written_at h1) eqn:Hlt; zbool; cbn; lia. }
  assert (Hfields : _socket c' = _socket c /\ _writeQueue c' = q1
                    /\ _rx_since_timeout c' = _rx_since_timeout c
                    /\ _discard_cb c' = _discard_cb c
                    /\ _timeout_cb c' = _timeout_cb c /\ _poll_cb c' = _poll_cb c).
  { unfold c', retired. destruct (_rx_last_packet c1 <? written_at h1);
      rewrite E1; repeat split; reflexivity. }
  destruct Hfields as (Es & Eq & Eto & Edc & Etc & Epc).
  split; [exact Hlast|]. split; [intros Hrx; rewrite Hlast; lia|]. split.
  - intros now' h2 q2 Hs Hq. cbn zeta.
    assert (Hs' : _socket c' <> -1) by (rewrite Es; exact Hs).
    assert (Hq' : _writeQueue c' = h2 :: q2) by (rewrite Eq; exact Hq).
    rewrite (poll_eq c' now' h2 q2 Hs' Hq').
    unfold rx_timed_out, teardown_out. rewrite Eto, Hlast, Es, Eq, Edc, Etc, Epc.
    split; [|split].
    + intros Ha. rewrite Ha. reflexivity.
    + intros Ha Hnz Hge. rewrite Ha.
      apply Z.eqb_neq in Hnz. apply Z.leb_le in Hge. rewrite Hnz, Hge. reflexivity.
    + intros Ha Hin. rewrite Ha.
      destruct Hin as [Hz|Hin].
      * rewrite Hz. reflexivity.
      * apply Z.leb_gt in Hin. rewrite Hin, andb_false_r. reflexivity.
  - intros rd now2 Hr. cbn zeta. rewrite readable_eq. cbn zeta. apply Z.ltb_lt in Hr.
    rewrite Hr. eexists. split; [reflexivity|].
    intros now' h q Hs Hq Ha.
    set (c2 := set_rx_last_packet now2 c) in *.
    assert (Hs2 : _socket c2 <> -1) by exact Hs.
    assert (Hq2 : _writeQueue c2 = h :: q) by exact Hq.
    rewrite (poll_eq c2 now' h q Hs2 Hq2), Ha.
    unfold rx_timed_out, teardown_out.
    change (_rx_since_timeout c2) with (_rx_since_timeout c).
    change (_rx_last_packet c2) with now2.
    change (_socket c2) with (_socket c).
    change (_writeQueue c2) with (_writeQueue c).
    change (_discard_cb c2) with (_discard_cb c).
    change (_poll_cb c2) with (_poll_cb c).
    rewrite Hq. split.
    + intros Hnz Hge. apply Z.eqb_neq in Hnz. apply Z.leb_le in Hge.
      rewrite Hnz, Hge. reflexivity.
    + intros [Hz|Hin].
      * rewrite Hz. reflexivity.
      * apply Z.leb_gt in Hin. rewrite Hin, andb_false_r. reflexivity.
Qed.

End C10.

Lemma C10_completion_defers_rx_timeout_witness :
  let c := set_rx_since_timeout 2
             (set_writeQueue [mkbuf 2000 10 0 0 0 0 true; mkbuf 3000 4 0 1400 0 0 false]
                accepted3) in
  exists c' out,
    _sockIsWriteable (mkret 0 0) 0 (mkret 10 0) 1500 c = Done true c' out
    /\ _rx_last_packet c = 0 /\ _rx_last_packet c' = 1500
    /\ _sockPoll 3400 c' = Done tt c' []
    /\ _sockPoll 3500 c' = Done tt (torn_down c') [SysClose 3].
Proof.
  intros c.
  set (h1 := mkbuf 2000 10 10 0 1500 0 true).
  set (h2 := mkbuf 3000 4 0 1400 0 0 false).
  set (c1 := set_writeSpaceRemaining 5850 (set_writeQueue [h1; h2] c)).
  assert (Hc : connecting c = false) by reflexivity.
  assert (Hne : _writeQueue c <> []) by discriminate.
  assert (Hf : _flushWriteQueue (mkret 10 0) 1500 c = Done true c1 [SysWrite 3 2000 10])
    by (vm_compute; reflexivity).
  assert (Hq1 : _writeQueue c1 = h1 :: [h2]) by reflexivity.
  assert (Hl : length h1 <= written h1) by (cbn; lia).
  assert (Hrx : _rx_last_packet c < written_at h1) by (cbn; lia).
  assert (Hs : _socket c <> -1) by (cbn; lia).
  destruct (C10_completion_defers_rx_timeout c (mkret 0 0) 0 (mkret 10 0) 1500
              true c1 _ h1 [h2] Hc Hne Hf Hq1 eq_refl Hl)
    as (c' & out & E & _ & Hlater & Hpoll & _).
  pose proof (Hlater Hrx) as Hlast.
  assert (Ec : c' = retired h1 [h2] c1).
  { rewrite (writeable_retires c (mkret 0 0) 0 (mkret 10 0) 1500 true c1 _ h1 [h2]
               Hc Hne Hf Hq1 eq_refl Hl) in E.
    inversion E. reflexivity. }
  assert (Hack : forall now', ack_timed_out now' h2 c'
                              = (5000 <=? u32 (now' - 1400))).
  { intros now'. rewrite Ec. reflexivity. }
  destruct (Hpoll 3400 h2 [] Hs eq_refl) as (_ & _ & Hopen).
  destruct (Hpoll 3500 h2 [] Hs eq_refl) as (_ & Hclose & _).
  exists c', out. split; [exact E|]. split; [reflexivity|]. split; [exact Hlast|].
  split.
  - apply Hopen; [rewrite Hack; reflexivity|]. right. vm_compute. reflexivity.
  - apply Hclose; [rewrite Hack; reflexivity|cbn; lia|vm_compute; discriminate].
Defined.

(** * Further properties of the client *)

(** ** [write]: [add] followed by [send] *)

Section WriteCall.

Context {P : Platform}.

Lemma flush_only_writes (c : AsyncClient) wr now :
  ensures (_flushWriteQueue wr now) c (fun _ _ out =>
    (count is_SysWrite out <= 1)%nat /\ Forall (fun e => is_SysWrite e = true) out).
Proof.
  eapply ensures_weaken; [apply flush_frame|].
  cbn. intros _ c' out (w & q' & _ & _ & [->|(h & q & _ & ->)]).
  - split; [cbn; lia|constructor].
  - unfold the_write. split; [cbn; lia|]. constructor; [reflexivity|constructor].
Qed.

(** X1.  [write(data, size, flags)] is defined on every client - it never
    takes the head of an empty queue, since it flushes only after [add] has
    queued a buffer - and returns what [add] returns for the same
    arguments.  When [add] rejects the data, [write] returns 0, leaves the
    object unchanged and makes no system call.  Otherwise the queue grows
    by one buffer, at most one [lwip_write] is issued and no handler is
    invoked. *)
Theorem write_returns_what_add_accepts (c : AsyncClient)
    (data_ size apiflags mem now sel : Z) (wr : sysret) (now' : Z) :
  exists n c1 c' out,
    write data_ size apiflags mem now sel wr now' c = Done n c' out
    /\ add data_ size apiflags mem now c = Done n c1 []
    /\ (add_rejects c data_ size apiflags mem = true -> n = 0 /\ c' = c /\ out = [])
    /\ (add_rejects c data_ size apiflags mem = false ->
        n = will_send c size /\ n <> 0
        /\ List.length (_writeQueue c') = S (List.length (_writeQueue c)))
    /\ (count is_SysWrite out <= 1)%nat
    /\ Forall (fun e => is_SysWrite e = true) out.
Proof.
  unfold write. unfold bind at 1. rewrite add_eq.
  destruct (add_rejects c data_ size apiflags mem) eqn:Hr.
  { exists 0, c, c, []. cbn. repeat split; auto; try discriminate. }
  set (c1 := enqueued c data_ size apiflags mem now).
  assert (Hn : will_send c size <> 0).
  { unfold add_rejects in Hr. zbool. unfold will_send.
    destruct (space c <? size) eqn:E; zbool; lia. }
  apply Z.eqb_neq in Hn. rewrite Hn. apply Z.eqb_neq in Hn.
  unfold bind. rewrite send_eq.
  assert (Hlen : List.length (_writeQueue c1) = S (List.length (_writeQueue c))).
  { unfold c1, enqueued. cbn. rewrite length_app. cbn. lia. }
  destruct (0 <? sel).
  - assert (Hne : _writeQueue c1 <> []).
    { intros E. rewrite E in Hlen. discriminate Hlen. }
    destruct (flush_defined c1 wr now' Hne) as (a & c2 & out2 & h2 & q2 & Hf & Hq2).
    pose proof (ensures_elim _ _ _ _ _ _ (flush_frame c1 wr now') Hf)
      as (w & q' & E & Hl & _).
    pose proof (ensures_elim _ _ _ _ _ _ (flush_only_writes c1 wr now') Hf) as [Hc Hall].
    rewrite Hf. cbn. rewrite app_nil_r.
    exists (will_send c size), c1, c2, out2.
    split; [reflexivity|]. split; [reflexivity|]. split; [discriminate|].
    split; [|split; assumption].
    intros _. split; [reflexivity|]. split; [assumption|].
    rewrite E. cbn. rewrite Hl. exact Hlen.
  - cbn. exists (will_send c size), c1, c1, [].
    split; [reflexivity|]. split; [reflexivity|]. split; [discriminate|].
    split; [auto|]. split; [cbn; lia|constructor].
Qed.

End WriteCall.

(** ** A closed client *)

Section Closed.

Context {P : Platform}.

Lemma closed_step (o : op) (c : AsyncClient) :
  is_api_op o = true -> _socket c = -1 -> step o c = Done tt c [].
Proof.
  intros Ho Hs.
  assert (Hconn : connected c = false) by (unfold connected; rewrite Hs; reflexivity).
  assert (Hrej : forall d s f m, add_rejects c d s f m = true)
    by (intros; unfold add_rejects; rewrite Hconn; reflexivity).
  destruct o; try discriminate Ho; unfold step.
  - rewrite poll_closed by exact Hs. reflexivity.
  - unfold bind. rewrite add_eq, Hrej. reflexivity.
  - unfold bind. rewrite send_eq.
    destruct (0 <? sel); [rewrite flush_closed by exact Hs|]; reflexivity.
  - unfold write, bind. rewrite add_eq, Hrej. reflexivity.
  - rewrite close_eq, Hs. reflexivity.
  - unfold bind. rewrite abort_eq, Hs. reflexivity.
Qed.

Lemma closed_run (ops : list op) (c : AsyncClient) :
  _socket c = -1 -> forallb is_api_op ops = true -> run ops c = Done tt c [].
Proof.
  intros Hs Hops. induction ops as [|o ops IH]; [reflexivity|].
  cbn in Hops. apply andb_true_iff in Hops. destruct Hops as [Ho Hops].
  rewrite run_cons, (closed_step o c Ho Hs), (IH Hops). reflexivity.
Qed.


Lemma shutdown_is_api (ops : list op) :
  forallb is_shutdown_op ops = true -> forallb is_api_op ops = true.
Proof.
  induction ops as [|o ops IH]; [reflexivity|]. cbn.
  intros H. apply andb_true_iff in H. destruct H as [Ho H].
  rewrite (IH H), andb_true_r. destruct o; try discriminate Ho; reflexivity.
Qed.

Lemma teardown_out_once (c : AsyncClient) :
  count is_SysClose (teardown_out c None) = 1%nat
  /\ count is_CbDiscard (teardown_out c None) = (if _discard_cb c then 1 else 0)%nat.
Proof.
  unfold teardown_out, count. cbn. rewrite !filter_app.
  rewrite !clear_frees_no_callback by reflexivity.
  destruct (_discard_cb c); split; reflexivity.
Qed.

(** X3.  However many times [close()] and [abort()] are called, the
    descriptor is closed once and [on_disconnect] is invoked at most once:
    the first call on an open client runs the close teardown, every later
    call does nothing; on a client that is already closed none does
    anything. *)
Theorem shutdown_is_idempotent (c : AsyncClient) (ops : list op) :
  forallb is_shutdown_op ops = true -> ops <> [] ->
  exists c' out,
    run ops c = Done tt c' out
    /\ _socket c' = -1
    /\ (_socket c = -1 -> c' = c /\ out = [])
    /\ (_socket c <> -1 ->
        c' = torn_down c
        /\ count is_SysClose out = 1%nat
        /\ count is_CbDiscard out = (if _discard_cb c then 1 else 0)%nat).
Proof.
  intros Hops Hne.
  destruct (Z.eq_dec (_socket c) (-1)) as [Hs|Hs].
  { exists c, []. rewrite (closed_run ops c Hs (shutdown_is_api ops Hops)).
    repeat split; auto; contradiction. }
  destruct ops as [|o ops]; [congruence|].
  cbn in Hops. apply andb_true_iff in Hops. destruct Hops as [Ho Hops].
  destruct (teardown_out_once c) as [Hc1 Hc2].
  assert (Hrest : run ops (torn_down c) = Done tt (torn_down c) [])
    by (apply closed_run; [reflexivity|apply shutdown_is_api; exact Hops]).
  apply Z.eqb_neq in Hs.
  destruct o; try discriminate Ho; rewrite run_cons; unfold step.
  - rewrite close_eq, Hs, Hrest, app_nil_r.
    eexists _, _. split; [reflexivity|]. apply Z.eqb_neq in Hs.
    repeat split; auto; contradiction.
  - unfold bind at 1. rewrite abort_eq, Hs. cbn. rewrite Hrest, !app_nil_r.
    eexists _, _. split; [reflexivity|]. apply Z.eqb_neq in Hs.
    split; [reflexivity|]. split; [contradiction|]. intros _.
    split; [reflexivity|]. split; assumption.
Qed.

End Closed.


Lemma shutdown_is_idempotent_witness :
  let c := set_discard_cb true queued10 in
  let ops := [OpClose; OpAbort; OpClose] in
  exists out,
    forallb is_shutdown_op ops = true /\ ops <> [] /\ _socket c <> -1
    /\ run ops c = Done tt (torn_down c) out
    /\ count is_SysClose out = 1%nat
    /\ count is_CbDiscard out = 1%nat
    /\ out = [SysClose 3; SysFree 2000; CbDiscard].
Proof.
  intros c ops.
  assert (Hops : forallb is_shutdown_op ops = true) by reflexivity.
  assert (Hne : ops <> []) by discriminate.
  destruct (shutdown_is_idempotent c ops Hops Hne) as (c' & out & Hrun & _ & _ & Hopen).
  assert (Hs : _socket c <> -1) by (cbn; lia).
  destruct (Hopen Hs) as (-> & Hc1 & Hc2).
  exists out. split; [exact Hops|]. split; [exact Hne|]. split; [exact Hs|].
  split; [exact Hrun|]. split; [exact Hc1|]. split; [exact Hc2|].
  vm_compute in Hrun. inversion Hrun. reflexivity.
Defined.

(** ** After a teardown no handler is left *)

Section Silence.

Context {P : Platform}.

Lemma silent_fields (c : AsyncClient) :
  silent c ->
  _connect_cb c = false /\ _discard_cb c = false /\ _sent_cb c = false
  /\ _error_cb c = false /\ _recv_cb c = false /\ _timeout_cb c = false
  /\ _poll_cb c = false.
Proof.
  unfold silent, slots. cbn. intros H. inversion H. repeat split; reflexivity.
Qed.

Lemma silent_frame (c c' : AsyncClient) : slots c' = slots c -> silent c -> silent c'.
Proof. unfold silent. intros ->. trivial. Qed.

Lemma silent_torn_down (c : AsyncClient) : silent (torn_down c).
Proof. reflexivity. Qed.

Lemma silent_teardown_out (c : AsyncClient) (err : option Z) :
  silent c -> count is_callback (teardown_out c err) = 0%nat.
Proof.
  intros H. destruct (silent_fields c H) as (_ & Hd & _ & He & _).
  unfold teardown_out, count. rewrite Hd, He. cbn.
  rewrite !filter_app, clear_frees_no_callback by reflexivity.
  destruct err; reflexivity.
Qed.

Ltac quiet_frame H := split; [apply (silent_frame _ _ eq_refl H)|reflexivity].

Lemma connect_silent (c : AsyncClient) ip port task_ok sockfd cr :
  silent c ->
  ensures (connect ip port task_ok sockfd cr) c
    (fun _ c' out => silent c' /\ count is_callback out = 0%nat).
Proof.
  intros H. unfold ensures. rewrite connect_eq.
  destruct (connect_refused c task_ok sockfd); [quiet_frame H|].
  destruct ((rv cr <? 0) && negb (errno cr =? EINPROGRESS)); quiet_frame H.
Qed.

Lemma flush_silent (c : AsyncClient) wr now :
  silent c ->
  ensures (_flushWriteQueue wr now) c
    (fun _ c' out => silent c' /\ count is_callback out = 0%nat).
Proof.
  intros H.
  pose proof (flush_frame c wr now) as H1.
  pose proof (flush_out_count is_callback c wr now (fun _ _ _ => eq_refl)) as H2.
  unfold ensures in *. destruct (_flushWriteQueue wr now c) as [a c' out|]; [|exact I].
  destruct H1 as (w & q' & -> & _ & _). split; [|exact H2].
  apply (silent_frame _ _ eq_refl H).
Qed.

Lemma add_silent (c : AsyncClient) data_ size apiflags mem now :
  silent c ->
  ensures (add data_ size apiflags mem now) c
    (fun _ c' out => silent c' /\ count is_callback out = 0%nat).
Proof.
  intros H. unfold ensures. rewrite add_eq.
  destruct (add_rejects c data_ size apiflags mem); quiet_frame H.
Qed.

Lemma step_silent (o : op) (c : AsyncClient) :
  silent c -> is_register_op o = false ->
  ensures (step o) c (fun _ c' out => silent c' /\ count is_callback out = 0%nat).
Proof.
  intros H Ho. destruct (silent_fields c H) as (Hcc & Hdc & Hsc & Hec & Hrc & Htc & Hpc).
  destruct o; try discriminate Ho; unfold step.
  - apply ensures_drop. apply connect_silent. exact H.
  - apply ensures_drop. unfold connect_host.
    destruct task_ok; cbn [negb]; [|unfold ensures, ret; quiet_frame H].
    destruct dns; [apply connect_silent; exact H| |unfold ensures, ret; quiet_frame H].
    unfold ensures, bind, modify, ret. quiet_frame H.
  - unfold ensures, _tcpsock_dns_found, bind, modify. destruct ipaddr; cbn; quiet_frame H.
  - unfold _sockDelayedConnect. unfold ensures. unfold bind at 1, modify at 1.
    unfold bind at 1, get at 1.
    change (_connect_addr (set_isdnsfinished false c)) with (_connect_addr c).
    assert (H1 : silent (set_isdnsfinished false c)) by (apply (silent_frame _ _ eq_refl H)).
    destruct (_connect_addr c =? 0); cbn [negb].
    + unfold bind, when, emit, get, ret. repeat (cbn; rewrite ?Hec, ?Hdc).
      split; [exact H1|reflexivity].
    + pose proof (connect_silent (set_isdnsfinished false c) (_connect_addr c)
                    (_connect_port (set_isdnsfinished false c)) task_ok sockfd cr H1) as Hc.
      unfold ensures in Hc. unfold bind, ret.
      destruct (connect _ _ _ _ _ _) as [a c' out|]; [|exact I].
      rewrite !app_nil_r. exact Hc.
  - apply ensures_drop. eapply ensures_weaken; [apply writeable_cases|].
    cbn. intros a c' out Hw. unfold writeable_post in Hw.
    destruct Hw as [(Hc & [(-> & e & ->)|(-> & _ & ->)])|[(Hc & Hq & -> & ->)|Hw]].
    + split; [apply silent_torn_down|apply silent_teardown_out; exact H].
    + rewrite Hcc. quiet_frame H.
    + split; [exact H|reflexivity].
    + destruct Hw as (Hc & Hq & c1 & out1 & h1 & q1 & Hf & Hq1 & Hw).
      pose proof (ensures_elim _ _ _ _ _ _ (flush_silent c wr now H) Hf) as [H1 Ho1].
      destruct (silent_fields c1 H1) as (_ & _ & Hsc1 & _).
      destruct Hw as [(He & -> & ->)|[(He & Hl & -> & ->)|(He & Hl & -> & ->)]].
      * split; [apply silent_torn_down|].
        rewrite count_app, Ho1, silent_teardown_out by exact H1. reflexivity.
      * split.
        { unfold retired. destruct (_rx_last_packet c1 <? written_at h1);
            apply (silent_frame _ c1 eq_refl H1). }
        rewrite count_app, Ho1. unfold retire_out. rewrite Hsc1, andb_false_r.
        destruct (owned h1); reflexivity.
      * split; assumption.
  - unfold ensures. rewrite readable_eq. cbn.
    assert (H1 : silent (set_rx_last_packet now c)) by (apply (silent_frame _ _ eq_refl H)).
    destruct (0 <? rv rd); [rewrite Hrc; split; [exact H1|reflexivity]|].
    destruct (rv rd =? 0).
    { split; [apply silent_torn_down|].
      change (count is_callback (teardown_out (set_rx_last_packet now c) None) = 0%nat).
      apply silent_teardown_out; exact H1. }
    destruct (is_again rd); [split; [exact H1|reflexivity]|].
    split; [apply silent_torn_down|].
    change (count is_callback
              (teardown_out (set_rx_last_packet now c) (Some (errno rd))) = 0%nat).
    apply silent_teardown_out; exact H1.
  - unfold ensures.
    destruct (Z.eq_dec (_socket c) (-1)) as [Hs|Hs].
    { rewrite poll_closed by exact Hs. split; [exact H|reflexivity]. }
    destruct (_writeQueue c) as [|h q] eqn:Hq.
    { rewrite poll_empty by assumption. exact I. }
    rewrite (poll_eq c now h q) by assumption.
    destruct (ack_timed_out now h c); [rewrite Htc; quiet_frame H|].
    destruct (rx_timed_out now c).
    { split; [apply silent_torn_down|apply silent_teardown_out; exact H]. }
    rewrite Hpc. split; [exact H|reflexivity].
  - apply ensures_drop. apply add_silent. exact H.
  - apply ensures_drop. unfold ensures. rewrite send_eq.
    destruct (0 <? sel); [|split; [exact H|reflexivity]].
    pose proof (flush_silent c wr now H) as Hf. unfold ensures in Hf.
    destruct (_flushWriteQueue wr now c); [exact Hf|exact I].
  - apply ensures_drop. unfold ensures, write. unfold bind at 1.
    pose proof (add_silent c data_ size apiflags mem now H) as H1.
    unfold ensures in H1.
    destruct (add data_ size apiflags mem now c) as [n c1 o1|]; [|exact I].
    destruct H1 as [H1 Ho1].
    destruct (n =? 0); [cbn; rewrite app_nil_r; split; assumption|].
    unfold bind. rewrite send_eq.
    destruct (0 <? sel).
    + pose proof (flush_silent c1 wr now' H1) as Hf. unfold ensures in Hf.
      destruct (_flushWriteQueue wr now' c1) as [a c2 o2|]; [|exact I].
      destruct Hf as [H2 Ho2]. cbn. rewrite app_nil_r, count_app, Ho1, Ho2.
      split; [exact H2|reflexivity].
    + cbn. rewrite app_nil_r. split; assumption.
  - unfold ensures. rewrite close_eq.
    destruct (_socket c =? -1); [split; [exact H|reflexivity]|].
    split; [apply silent_torn_down|apply silent_teardown_out; exact H].
  - apply ensures_drop. unfold ensures. rewrite abort_eq.
    destruct (_socket c =? -1); [split; [exact H|reflexivity]|].
    split; [apply silent_torn_down|].
    change (count is_callback (teardown_out c None) = 0%nat).
    apply silent_teardown_out; exact H.
  - unfold ensures, setRxTimeout, modify. quiet_frame H.
  - unfold ensures, setAckTimeout, modify. quiet_frame H.
Qed.

Lemma run_silent (ops : list op) :
  forall c, silent c -> forallb (fun o => negb (is_register_op o)) ops = true ->
  ensures (run ops) c (fun _ c' out => silent c' /\ count is_callback out = 0%nat).
Proof.
  induction ops as [|o ops IH]; intros c H Hops.
  - split; [exact H|reflexivity].
  - cbn in Hops. apply andb_true_iff in Hops. destruct Hops as [Ho Hops].
    apply negb_true_iff in Ho.
    unfold ensures. rewrite run_cons.
    pose proof (step_silent o c H Ho) as H1. unfold ensures in H1.
    destruct (step o c) as [[] c1 o1|]; [|exact I].
    destruct H1 as [H1 Ho1].
    pose proof (IH c1 H1 Hops) as H2. unfold ensures in H2.
    destruct (run ops c1) as [[] c2 o2|]; [|exact I].
    destruct H2 as [H2 Ho2]. rewrite count_app, Ho1, Ho2. split; [exact H2|reflexivity].
Qed.

(** X4.  Both teardowns leave every handler slot empty, and from a client
    with empty slots no history invokes a handler until the application
    stores one again: after a disconnect or an error the application hears
    nothing more from the object - not even from a later connect it starts
    on it - unless it registers its handlers anew. *)
Theorem no_callback_after_teardown :
  (forall c, exists out, _close c = Done tt (torn_down c) out /\ silent (torn_down c))
  /\ (forall err c, exists out, _error err c = Done tt (torn_down c) out
                                /\ silent (torn_down c))
  /\ (forall ops c c' out,
        silent c -> forallb (fun o => negb (is_register_op o)) ops = true ->
        run ops c = Done tt c' out ->
        silent c' /\ count is_callback out = 0%nat).
Proof.
  split; [|split].
  - intros c. rewrite _close_out. eexists. split; reflexivity.
  - intros err c. rewrite _error_out. eexists. split; reflexivity.
  - intros ops c c' out H Hops E.
    exact (ensures_elim _ _ _ _ _ _ (run_silent ops c H Hops) E).
Qed.

End Silence.

Lemma no_callback_after_teardown_witness :
  let c := torn_down (set_sent_cb true (set_discard_cb true queued10)) in
  let ops := [OpConnect 16777343 80 true 5 (mkret (-1) 119);
              OpWriteable (mkret 0 0) 0 (mkret 0 0) 10;
              OpAdd 1000 4 ASYNC_WRITE_FLAG_COPY 2000 20;
              OpWriteable (mkret 0 0) 0 (mkret 4 0) 30;
              OpReadable (mkret 0 0) 40] in
  exists c' out,
    silent c /\ forallb (fun o => negb (is_register_op o)) ops = true
    /\ run ops c = Done tt c' out
    /\ count is_callback out = 0%nat
    /\ out = [SysConnect 5 16777343 80; SysWrite 5 2000 4; SysFree 2000;
              SysRead 5; SysClose 5].
Proof.
  intros c ops.
  assert (Hrun : exists c' out, run ops c = Done tt c' out
                   /\ out = [SysConnect 5 16777343 80; SysWrite 5 2000 4; SysFree 2000;
                             SysRead 5; SysClose 5])
    by (eexists _, _; split; [vm_compute; reflexivity|reflexivity]).
  destruct Hrun as (c' & out & Hrun & Hout).
  assert (H : silent c) by reflexivity.
  assert (Hops : forallb (fun o => negb (is_register_op o)) ops = true) by reflexivity.
  destruct no_callback_after_teardown as (_ & _ & Hno).
  destruct (Hno ops c c' out H Hops Hrun) as [_ Hc].
  exists c', out. repeat split; assumption.
Defined.

(** ** Owned buffers are freed once *)

Arguments owned_count q : simpl never.

Section OwnershipProofs.

Context {P : Platform}.

Lemma owned_count_nil : owned_count [] = 0%nat.
Proof. reflexivity. Qed.

Lemma owned_count_cons (b : queued_writebuf) (q : list queued_writebuf) :
  owned_count (b :: q) = ((if owned b then 1 else 0) + owned_count q)%nat.
Proof. unfold owned_count. cbn. destruct (owned b); reflexivity. Qed.

Lemma owned_count_app (q1 q2 : list queued_writebuf) :
  owned_count (q1 ++ q2) = (owned_count q1 + owned_count q2)%nat.
Proof. unfold owned_count. rewrite filter_app, length_app. reflexivity. Qed.

Lemma owned_count_map (q q' : list queued_writebuf) :
  map owned q' = map owned q -> owned_count q' = owned_count q.
Proof.
  revert q'. induction q as [|b q IH]; intros [|b' q'] E; try discriminate E.
  - reflexivity.
  - cbn in E. inversion E as [[E1 E2]]. unfold owned_count in *. cbn.
    rewrite E1. destruct (owned b); cbn; rewrite (IH q' E2); reflexivity.
Qed.

Lemma clear_frees_count (q : list queued_writebuf) :
  count is_SysFree (clear_frees q) = owned_count q.
Proof.
  unfold count, owned_count. induction q as [|b q IH]; [reflexivity|].
  cbn. rewrite filter_app, length_app, IH. destruct (owned b); reflexivity.
Qed.

Lemma teardown_out_frees (c : AsyncClient) (err : option Z) :
  count is_SysFree (teardown_out c err) = owned_count (_writeQueue c).
Proof.
  unfold teardown_out.
  change (SysClose (_socket c) :: ?l) with ([SysClose (_socket c)] ++ l).
  rewrite !count_app, clear_frees_count.
  destruct err; destruct (_error_cb c), (_discard_cb c); cbn; lia.
Qed.

Lemma flush_owned (c : AsyncClient) wr now :
  ensures (_flushWriteQueue wr now) c (fun _ c' out =>
    map owned (_writeQueue c') = map owned (_writeQueue c)
    /\ count is_SysFree out = 0%nat).
Proof.
  pose proof (flush_out_count is_SysFree c wr now (fun _ _ _ => eq_refl)) as H2.
  unfold ensures in *.
  destruct (Z.eq_dec (_socket c) (-1)) as [Hs|Hs].
  { rewrite flush_closed in * by exact Hs. auto. }
  destruct (_writeQueue c) as [|h q] eqn:Hq.
  { rewrite flush_empty by assumption. exact I. }
  destruct (wants_write h) eqn:Hw.
  2:{ rewrite (flush_skip c wr now h q) in * by assumption. rewrite Hq. auto. }
  destruct (Z_lt_le_dec (rv wr) 0) as [Hr|Hr].
  - destruct (is_again wr) eqn:Ha.
    + rewrite (flush_again c wr now h q) in * by assumption. rewrite Hq. auto.
    + rewrite (flush_fail c wr now h q) in * by assumption. cbn. auto.
  - rewrite (flush_ok c wr now h q) in * by assumption. cbn. split; [|exact H2].
    unfold advanced. destruct (length _ <=? written _); reflexivity.
Qed.

Lemma flush_conserves (c : AsyncClient) wr now :
  ensures (_flushWriteQueue wr now) c (fun _ c' out =>
    (count is_SysFree out + owned_count (_writeQueue c'))%nat
    = owned_count (_writeQueue c)).
Proof.
  eapply ensures_weaken; [apply flush_owned|].
  cbn. intros _ c' out [Hm H0]. rewrite H0, (owned_count_map _ _ Hm). reflexivity.
Qed.

Lemma add_conserves (o : op) (c : AsyncClient) data_ size apiflags mem now :
  copies_taken o c
  = (if add_rejects c data_ size apiflags mem then 0%nat
     else if negb (Z.land apiflags ASYNC_WRITE_FLAG_COPY =? 0) then 1%nat else 0%nat) ->
  ensures (add data_ size apiflags mem now) c (fun _ c' out =>
    out = []
    /\ owned_count (_writeQueue c') = (owned_count (_writeQueue c) + copies_taken o c)%nat).
Proof.
  intros ->. unfold ensures. rewrite add_eq.
  destruct (add_rejects c data_ size apiflags mem); [split; [reflexivity|lia]|].
  split; [reflexivity|]. unfold enqueued. cbn. rewrite owned_count_app.
  unfold n_entry, owned_count. cbn.
  destruct (negb (Z.land apiflags ASYNC_WRITE_FLAG_COPY =? 0)); reflexivity.
Qed.

Ltac same_queue := cbn; rewrite ?Nat.add_0_r; reflexivity.


Lemma step_conserves (o : op) (c : AsyncClient) :
  ensures (step o) c (fun _ c' out =>
    (count is_SysFree out + owned_count (_writeQueue c'))%nat
    = (owned_count (_writeQueue c) + copies_taken o c)%nat).
Proof.
  destruct o; unfold step.
  - apply ensures_drop. unfold ensures. rewrite connect_eq.
    destruct (connect_refused c task_ok sockfd); [same_queue|].
    destruct ((rv cr <? 0) && negb (errno cr =? EINPROGRESS)); same_queue.
  - apply ensures_drop. unfold connect_host.
    destruct task_ok; cbn [negb]; [|unfold ensures, ret; same_queue].
    destruct dns; [| |unfold ensures, ret; same_queue].
    + unfold ensures. rewrite connect_eq.
      destruct (connect_refused c true sockfd); [same_queue|].
      destruct ((rv cr <? 0) && negb (errno cr =? EINPROGRESS)); same_queue.
    + unfold ensures, bind, modify, ret. same_queue.
  - unfold ensures, _tcpsock_dns_found, bind, modify. destruct ipaddr; same_queue.
  - unfold _sockDelayedConnect. unfold ensures. unfold bind at 1, modify at 1.
    unfold bind at 1, get at 1.
    change (_connect_addr (set_isdnsfinished false c)) with (_connect_addr c).
    destruct (_connect_addr c =? 0); cbn [negb].
    + unfold bind, when, emit, get, ret.
      destruct (_error_cb (set_isdnsfinished false c)),
               (_discard_cb (set_isdnsfinished false c)); same_queue.
    + unfold bind, ret. rewrite connect_eq.
      destruct (connect_refused _ task_ok sockfd); [same_queue|].
      destruct ((rv cr <? 0) && negb (errno cr =? EINPROGRESS)); same_queue.
  - apply ensures_drop. eapply ensures_weaken; [apply writeable_cases|].
    cbn. intros a c' out Hw. unfold writeable_post in Hw.
    destruct Hw as [(Hc & [(-> & e & ->)|(-> & _ & ->)])|[(Hc & Hq & -> & ->)|Hw]].
    + rewrite teardown_out_frees. cbn; rewrite ?owned_count_nil, ?owned_count_cons; lia.
    + destruct (_connect_cb c); same_queue.
    + same_queue.
    + destruct Hw as (Hc & Hq & c1 & out1 & h1 & q1 & Hf & Hq1 & Hw).
      pose proof (ensures_elim _ _ _ _ _ _ (flush_owned c wr now) Hf) as [Hm H0].
      pose proof (owned_count_map _ _ Hm) as Hoc.
      destruct Hw as [(He & -> & ->)|[(He & Hl & -> & ->)|(He & Hl & -> & ->)]].
      * rewrite count_app, H0, teardown_out_frees, Hoc. cbn; rewrite ?owned_count_nil, ?owned_count_cons; lia.
      * rewrite count_app, H0, <- Hoc, Hq1.
        rewrite owned_count_cons. unfold retired, retire_out.
        destruct (_rx_last_packet c1 <? written_at h1); cbn;
          destruct (owned h1), ((0 <? length h1) && _sent_cb c1); cbn; lia.
      * rewrite H0, Hoc. lia.
  - unfold ensures. rewrite readable_eq. cbn.
    destruct (0 <? rv rd); [destruct (_recv_cb c); same_queue|].
    destruct (rv rd =? 0).
    { change (count is_SysFree (SysRead (_socket c) :: ?l))
        with (count is_SysFree l).
      rewrite teardown_out_frees. cbn; rewrite ?owned_count_nil, ?owned_count_cons; lia. }
    destruct (is_again rd); [same_queue|].
    change (count is_SysFree (SysRead (_socket c) :: ?l)) with (count is_SysFree l).
    rewrite teardown_out_frees. cbn; rewrite ?owned_count_nil, ?owned_count_cons; lia.
  - unfold ensures.
    destruct (Z.eq_dec (_socket c) (-1)) as [Hs|Hs].
    { rewrite poll_closed by exact Hs. same_queue. }
    destruct (_writeQueue c) as [|h q] eqn:Hq.
    { rewrite poll_empty by assumption. exact I. }
    rewrite (poll_eq c now h q) by assumption.
    destruct (ack_timed_out now h c); [destruct (_timeout_cb c); cbn; rewrite Hq; lia|].
    destruct (rx_timed_out now c).
    { rewrite teardown_out_frees, Hq. cbn; rewrite ?owned_count_nil, ?owned_count_cons; lia. }
    destruct (_poll_cb c); cbn; rewrite Hq; lia.
  - apply ensures_drop.
    eapply ensures_weaken;
      [apply (add_conserves (OpAdd data_ size apiflags mem now)); reflexivity|].
    cbn. intros _ c' out [-> H]. rewrite H. reflexivity.
  - apply ensures_drop. unfold ensures. rewrite send_eq.
    destruct (0 <? sel); [|same_queue].
    pose proof (flush_conserves c wr now) as H. unfold ensures in H.
    destruct (_flushWriteQueue wr now c); [(cbn; rewrite ?owned_count_nil, ?owned_count_cons; lia)|exact I].
  - apply ensures_drop. unfold ensures, write. unfold bind at 1.
    pose proof (add_conserves (OpWrite data_ size apiflags mem now sel wr now')
                  c data_ size apiflags mem now eq_refl) as H1.
    unfold ensures in H1.
    destruct (add data_ size apiflags mem now c) as [n c1 o1|]; [|exact I].
    destruct H1 as [-> H1].
    destruct (n =? 0); [cbn; rewrite H1; reflexivity|].
    unfold bind. rewrite send_eq.
    destruct (0 <? sel); [|cbn; rewrite H1; reflexivity].
    pose proof (flush_conserves c1 wr now') as H. unfold ensures in H.
    destruct (_flushWriteQueue wr now' c1) as [a c2 o2|]; [|exact I].
    cbn. rewrite app_nil_r. unfold count in *. cbn in H1. lia.
  - unfold ensures. rewrite close_eq.
    destruct (_socket c =? -1); [same_queue|].
    rewrite teardown_out_frees. cbn; rewrite ?owned_count_nil, ?owned_count_cons; lia.
  - apply ensures_drop. unfold ensures. rewrite abort_eq.
    destruct (_socket c =? -1); [same_queue|].
    change (count is_SysFree (SysLinger (_socket c) :: ?l)) with (count is_SysFree l).
    rewrite teardown_out_frees. cbn; rewrite ?owned_count_nil, ?owned_count_cons; lia.
  - unfold ensures, setRxTimeout, modify. same_queue.
  - unfold ensures, setAckTimeout, modify. same_queue.
  - unfold ensures, onConnect, modify. same_queue.
  - unfold ensures, onDisconnect, modify. same_queue.
  - unfold ensures, onAck, modify. same_queue.
  - unfold ensures, onError, modify. same_queue.
  - unfold ensures, onData, modify. same_queue.
  - unfold ensures, onTimeout, modify. same_queue.
  - unfold ensures, onPoll, modify. same_queue.
Qed.

Lemma run_conserves (ops : list op) :
  forall c,
  ensures (run ops) c (fun _ c' out =>
    (count is_SysFree out + owned_count (_writeQueue c'))%nat
    = (owned_count (_writeQueue c) + copies ops c)%nat).
Proof.
  induction ops as [|o ops IH]; intros c.
  - cbn. lia.
  - unfold ensures. rewrite run_cons. cbn [copies].
    pose proof (step_conserves o c) as H1. unfold ensures in H1.
    destruct (step o c) as [[] c1 o1|]; [|exact I].
    pose proof (IH c1) as H2. unfold ensures in H2.
    destruct (run ops c1) as [[] c2 o2|]; [|exact I].
    rewrite count_app. lia.
Qed.


End OwnershipProofs.


(** ** [connect] and the resolver *)

Section Connecting.

Context {P : Platform}.

(** X6.  [connect(ip, port)] either adopts the new descriptor and enters
    state 2 (CONNECTING), or leaves the object as it was.  On a client
    whose descriptor is open it is refused before any system call.  When
    the socket was created and [lwip_connect] fails with an error other
    than EINPROGRESS, the new descriptor is neither kept nor closed: the
    [close(sockfd)] of that path is the member [close(bool)], which does
    nothing on a client whose [_socket] is -1, so the only call made is the
    connect and the descriptor stays open with nothing referring to it.
    No call of [connect] closes a descriptor, and none touches the write
    queue or the free space. *)
Theorem connect_adopts_or_leaks (c : AsyncClient) (ip port : Z) (task_ok : bool)
    (sockfd : Z) (cr : sysret) :
  exists b c' out,
    connect ip port task_ok sockfd cr c = Done b c' out
    /\ (b = true ->
        _socket c = -1 /\ 0 <= sockfd /\ c' = set_socket sockfd (set_conn_state 2 c)
        /\ out = [SysConnect sockfd ip port]
        /\ (0 <= rv cr \/ errno cr = EINPROGRESS))
    /\ (b = false -> c' = c)
    /\ (_socket c <> -1 -> b = false /\ out = [])
    /\ (_socket c = -1 -> task_ok = true -> 0 <= sockfd -> b = false ->
        rv cr < 0 /\ errno cr <> EINPROGRESS
        /\ out = [SysConnect sockfd ip port]
        /\ _socket c' = -1 /\ _socket c' <> sockfd)
    /\ count is_SysClose out = 0%nat
    /\ _writeQueue c' = _writeQueue c
    /\ _writeSpaceRemaining c' = _writeSpaceRemaining c.
Proof.
  rewrite connect_eq. unfold connect_refused.
  destruct (_socket c =? -1) eqn:Hs; zbool; cbn [negb orb].
  2:{ exists false, c, []. repeat split; auto; try discriminate; contradiction. }
  destruct task_ok; cbn [negb orb].
  2:{ exists false, c, []. repeat split; auto; try discriminate; contradiction. }
  destruct (sockfd <? 0) eqn:Hfd; zbool.
  { exists false, c, []. repeat split; auto; try discriminate; try contradiction; lia. }
  destruct ((rv cr <? 0) && negb (errno cr =? EINPROGRESS)) eqn:Hcr.
  - apply andb_true_iff in Hcr. destruct Hcr as [Hr He].
    apply negb_true_iff in He. zbool.
    exists false, c, [SysConnect sockfd ip port].
    repeat split; auto; try discriminate; try contradiction; lia.
  - eexists true, _, _. split; [reflexivity|].
    repeat split; auto; try discriminate; try contradiction.
    apply andb_false_iff in Hcr. destruct Hcr as [Hcr|Hcr]; zbool; [left; lia|right; assumption].
Qed.

Lemma step_connect_host_now (c : AsyncClient) port a sockfd cr :
  step (OpConnectHost port (DnsOk a) true sockfd cr) c
  = if connect_refused c true sockfd then Done tt c []
    else if (rv cr <? 0) && negb (errno cr =? EINPROGRESS) then
      Done tt c [SysConnect sockfd a port]
    else Done tt (set_socket sockfd (set_conn_state 2 c)) [SysConnect sockfd a port].
Proof.
  unfold step, connect_host. cbn [negb]. unfold bind, ret. rewrite connect_eq.
  destruct (connect_refused c true sockfd); [reflexivity|].
  destruct ((rv cr <? 0) && negb (errno cr =? EINPROGRESS)); reflexivity.
Qed.

Lemma step_connect_host_later (c : AsyncClient) port sockfd cr :
  step (OpConnectHost port DnsInProgress true sockfd cr) c
  = Done tt (set_connect_port port c) [].
Proof. reflexivity. Qed.

Lemma step_dns_found (c : AsyncClient) ipaddr :
  step (OpDnsFound ipaddr) c
  = Done tt (set_isdnsfinished true
               (set_connect_addr (match ipaddr with Some a => a | None => 0 end) c)) [].
Proof. destruct ipaddr; reflexivity. Qed.

Lemma step_delayed_connect (c : AsyncClient) task_ok sockfd cr :
  step (OpDelayedConnect task_ok sockfd cr) c
  = let c0 := set_isdnsfinished false c in
    if _connect_addr c =? 0 then
      Done tt c0 ((if _error_cb c then [CbError (-55)] else [])
                    ++ (if _discard_cb c then [CbDiscard] else []))
    else if connect_refused c0 task_ok sockfd then Done tt c0 []
    else if (rv cr <? 0) && negb (errno cr =? EINPROGRESS) then
      Done tt c0 [SysConnect sockfd (_connect_addr c) (_connect_port c)]
    else Done tt (set_socket sockfd (set_conn_state 2 c0))
           [SysConnect sockfd (_connect_addr c) (_connect_port c)].
Proof.
  unfold step, _sockDelayedConnect. unfold bind at 1, modify at 1.
  unfold bind at 1, get at 1.
  change (_connect_addr (set_isdnsfinished false c)) with (_connect_addr c).
  destruct (_connect_addr c =? 0); cbn [negb].
  - unfold bind, when, emit, get, ret.
    change (_error_cb (set_isdnsfinished false c)) with (_error_cb c).
    destruct (_error_cb c); cbn;
      change (_discard_cb (set_isdnsfinished false c)) with (_discard_cb c);
      destruct (_discard_cb c); reflexivity.
  - unfold bind, ret. rewrite connect_eq. cbn zeta.
    destruct (connect_refused (set_isdnsfinished false c) task_ok sockfd); [reflexivity|].
    destruct ((rv cr <? 0) && negb (errno cr =? EINPROGRESS)); reflexivity.
Qed.

(** X7.  A name resolved later gives the connect a name resolved at once
    gives.  On a client with the service task running,
    [connect(host, port)] answered "in progress", then the resolver
    callback with a nonzero address [a], then the delayed-connect hook of
    the service task, produce the output, the descriptor and the state of
    [connect(host, port)] answered with [a] immediately; the two objects
    differ only in the remembered address and port.  When the resolver
    calls back with no address, the stored address is zeroed and the hook
    issues no connect: it invokes [on_error(-55)] and [on_disconnect]. *)
Theorem deferred_resolution_connects_alike (c : AsyncClient) (a port : Z)
    (sockfd : Z) (cr : sysret) (sockfd0 : Z) (cr0 : sysret) :
  a <> 0 ->
  (exists c2 out,
      run [OpConnectHost port (DnsOk a) true sockfd cr] c = Done tt c2 out
      /\ run [OpConnectHost port DnsInProgress true sockfd0 cr0;
              OpDnsFound (Some a);
              OpDelayedConnect true sockfd cr] c
         = Done tt (set_isdnsfinished false
                      (set_connect_addr a (set_connect_port port c2))) out)
  /\ run [OpConnectHost port DnsInProgress true sockfd0 cr0;
          OpDnsFound None;
          OpDelayedConnect true sockfd cr] c
     = Done tt (set_isdnsfinished false (set_connect_addr 0 (set_connect_port port c)))
         ((if _error_cb c then [CbError (-55)] else [])
            ++ (if _discard_cb c then [CbDiscard] else [])).
Proof.
  intros Ha. apply Z.eqb_neq in Ha. split.
  - rewrite (run_cons (OpConnectHost port DnsInProgress true sockfd0 cr0)),
      step_connect_host_later.
    cbv beta iota.
    rewrite (run_cons (OpDnsFound (Some a))), step_dns_found. cbv beta iota.
    rewrite (run_cons (OpDelayedConnect true sockfd cr)), step_delayed_connect.
    rewrite (run_cons (OpConnectHost port (DnsOk a) true sockfd cr)), step_connect_host_now.
    cbn zeta.
    change (_connect_addr (set_isdnsfinished true
              (set_connect_addr a (set_connect_port port c)))) with a.
    rewrite Ha.
    change (connect_refused
              (set_isdnsfinished false
                 (set_isdnsfinished true (set_connect_addr a (set_connect_port port c))))
              true sockfd)
      with (connect_refused c true sockfd).
    destruct (connect_refused c true sockfd).
    { eexists _, _. split; [reflexivity|]. destruct c; reflexivity. }
    destruct ((rv cr <? 0) && negb (errno cr =? EINPROGRESS)).
    { eexists _, _. split; [reflexivity|]. destruct c; reflexivity. }
    eexists _, _. split; [reflexivity|]. destruct c; reflexivity.
  - rewrite run_cons, step_connect_host_later. cbv beta iota.
    rewrite run_cons, step_dns_found. cbv beta iota.
    rewrite run_cons, step_delayed_connect.
    cbn. destruct (_error_cb c), (_discard_cb c); reflexivity.
Qed.

End Connecting.

Lemma deferred_resolution_connects_alike_witness :
  let c := AsyncClient_new (-1) 0 in
  exists c2,
    16777343 <> 0
    /\ run [OpConnectHost 80 (DnsOk 16777343) true 5 (mkret (-1) 119)] c
       = Done tt c2 [SysConnect 5 16777343 80]
    /\ run [OpConnectHost 80 DnsInProgress true 0 (mkret 0 0);
            OpDnsFound (Some 16777343);
            OpDelayedConnect true 5 (mkret (-1) 119)] c
       = Done tt (set_isdnsfinished false
                    (set_connect_addr 16777343 (set_connect_port 80 c2)))
           [SysConnect 5 16777343 80].
Proof.
  intros c.
  assert (Ha : 16777343 <> 0) by lia.
  destruct (deferred_resolution_connects_alike c 16777343 80 5 (mkret (-1) 119)
              0 (mkret 0 0) Ha) as [(c2 & out & H1 & H2) _].
  assert (Hout : out = [SysConnect 5 16777343 80]).
  { vm_compute in H1. inversion H1. reflexivity. }
  subst out. exists c2. repeat split; assumption.
Defined.

(** ** Error paths of the hooks *)

Section ErrorPaths.

Context {P : Platform}.

Lemma to_int8_range (z : Z) : -128 <= to_int8 z <= 127.
Proof.
  unfold to_int8. pose proof (Z.mod_pos_bound (z + 128) 256). lia.
Qed.

Lemma to_int8_small (z : Z) : -128 <= z <= 127 -> to_int8 z = z.
Proof. intros H. unfold to_int8. rewrite Z.mod_small by lia. lia. Qed.

Lemma to_int8_high (z : Z) : 128 <= z <= 255 -> to_int8 z = z - 256.
Proof.
  intros H. unfold to_int8.
  replace (z + 128) with ((z - 128) + 1 * 256) by lia.
  rewrite Z.mod_add by lia. rewrite Z.mod_small by lia. lia.
Qed.

(** X8.  A failed read.  With EAGAIN or EWOULDBLOCK the readable hook only
    records the time of the attempt.  With any other errno it runs the error
    teardown: the descriptor is closed, the queue dropped, and [on_error]
    is invoked before [on_disconnect], with the errno narrowed to [int8_t]:
    the code it receives lies in -128..127, is the errno itself up to 127
    and the errno minus 256 from 128 to 255. *)
Theorem failed_read_reports_narrowed_errno (c : AsyncClient) (rd : sysret) (now : Z) :
  rv rd < 0 ->
  (is_again rd = true ->
     _sockIsReadable rd now c = Done tt (set_rx_last_packet now c) [SysRead (_socket c)])
  /\ (is_again rd = false ->
      _sockIsReadable rd now c
      = Done tt (torn_down (set_rx_last_packet now c))
          (SysRead (_socket c) :: SysClose (_socket c) :: clear_frees (_writeQueue c)
             ++ (if _error_cb c then [CbError (to_int8 (errno rd))] else [])
             ++ (if _discard_cb c then [CbDiscard] else [])))
  /\ -128 <= to_int8 (errno rd) <= 127
  /\ (0 <= errno rd <= 127 -> to_int8 (errno rd) = errno rd)
  /\ (128 <= errno rd <= 255 -> to_int8 (errno rd) = errno rd - 256).
Proof.
  intros Hr.
  assert (H1 : (0 <? rv rd) = false) by (apply Z.ltb_ge; lia).
  assert (H2 : (rv rd =? 0) = false) by (apply Z.eqb_neq; lia).
  split; [|split; [|split; [|split]]].
  - intros Ha. rewrite readable_eq. cbn zeta. rewrite H1, H2, Ha. reflexivity.
  - intros Ha. rewrite readable_eq. cbn zeta. rewrite H1, H2, Ha. reflexivity.
  - apply to_int8_range.
  - intros H. apply to_int8_small. lia.
  - apply to_int8_high.
Qed.

(** X9.  A failed write.  On an established, open client whose head buffer
    is pending, a [lwip_write] that fails with EAGAIN or EWOULDBLOCK leaves
    the object as it was and reports no activity.  A failure with any other
    (nonzero) errno tears the connection down in the same invocation: the
    descriptor is closed, the data of every owned buffer of the queue - the
    failed one included - is freed, [on_error] receives the narrowed errno,
    then [on_disconnect] is invoked; [on_ack] is not. *)
Theorem failed_write_tears_down (c : AsyncClient) (gso : sysret) (sockerr : Z)
    (wr : sysret) (now : Z) (h : queued_writebuf) (q : list queued_writebuf) :
  connecting c = false -> _socket c <> -1 -> _writeQueue c = h :: q ->
  wants_write h = true -> rv wr < 0 ->
  (is_again wr = true ->
     _sockIsWriteable gso sockerr wr now c
     = Done false c [SysWrite (_socket c) (data h + written h) (u32 (length h - written h))])
  /\ (is_again wr = false -> errno wr <> 0 ->
      exists out,
        _sockIsWriteable gso sockerr wr now c = Done false (torn_down c) out
        /\ out = SysWrite (_socket c) (data h + written h) (u32 (length h - written h))
                 :: SysClose (_socket c) :: clear_frees (h :: q)
                 ++ (if _error_cb c then [CbError (to_int8 (errno wr))] else [])
                 ++ (if _discard_cb c then [CbDiscard] else [])
        /\ count is_CbSent out = 0%nat).
Proof.
  intros Hc Hs Hq Hw Hr.
  assert (Hne : _writeQueue c <> []) by (rewrite Hq; discriminate).
  split.
  - intros Ha.
    pose proof (flush_again c wr now h q Hs Hq Hw Hr Ha) as Hf.
    unfold wants_write in Hw. zbool.
    rewrite (writeable_pending c gso sockerr wr now false c _ h q Hc Hne Hf Hq);
      [reflexivity|assumption|assumption].
  - intros Ha He.
    pose proof (flush_fail c wr now h q Hs Hq Hw Hr Ha) as Hf.
    rewrite (writeable_failed c gso sockerr wr now false _ _
               (set_write_errno (errno wr) h) q Hc Hne Hf eq_refl He).
    eexists. split; [reflexivity|]. split; [reflexivity|].
    rewrite count_app, teardown_out_count by reflexivity. reflexivity.
Qed.

End ErrorPaths.

Lemma failed_read_reports_narrowed_errno_witness :
  let c := set_error_cb true (set_discard_cb true queued10) in
  -1 < 0
  /\ _sockIsReadable (mkret (-1) 128) 70 c
     = Done tt (torn_down (set_rx_last_packet 70 c))
         [SysRead 3; SysClose 3; SysFree 2000; CbError (-128); CbDiscard]
  /\ _sockIsReadable (mkret (-1) 11) 70 c = Done tt (set_rx_last_packet 70 c) [SysRead 3].
Proof.
  intros c.
  assert (Hr : rv (mkret (-1) 128) < 0) by (cbn; lia).
  assert (Hr' : rv (mkret (-1) 11) < 0) by (cbn; lia).
  destruct (failed_read_reports_narrowed_errno c (mkret (-1) 128) 70 Hr)
    as (_ & Herr & _).
  destruct (failed_read_reports_narrowed_errno c (mkret (-1) 11) 70 Hr')
    as (Hag & _).
  split; [lia|]. split.
  - rewrite (Herr eq_refl). reflexivity.
  - rewrite (Hag eq_refl). reflexivity.
Defined.

Lemma failed_write_tears_down_witness :
  let c := set_error_cb true (set_sent_cb true queued10) in
  _sockIsWriteable (mkret 0 0) 0 (mkret (-1) 11) 60 c = Done false c [SysWrite 3 2000 10]
  /\ exists out,
       _sockIsWriteable (mkret 0 0) 0 (mkret (-1) 104) 60 c = Done false (torn_down c) out
       /\ out = [SysWrite 3 2000 10; SysClose 3; SysFree 2000; CbError 104].
Proof.
  intros c.
  assert (Hc : connecting c = false) by reflexivity.
  assert (Hs : _socket c <> -1) by (cbn; lia).
  assert (Hq : _writeQueue c = [mkbuf 2000 10 0 0 0 0 true]) by reflexivity.
  assert (Hw : wants_write (mkbuf 2000 10 0 0 0 0 true) = true) by reflexivity.
  assert (Hr : rv (mkret (-1) 11) < 0) by (cbn; lia).
  assert (Hr' : rv (mkret (-1) 104) < 0) by (cbn; lia).
  destruct (failed_write_tears_down c (mkret 0 0) 0 (mkret (-1) 11) 60 _ _ Hc Hs Hq Hw Hr)
    as [Hag _].
  destruct (failed_write_tears_down c (mkret 0 0) 0 (mkret (-1) 104) 60 _ _ Hc Hs Hq Hw Hr')
    as [_ Herr].
  split; [exact (Hag eq_refl)|].
  assert (He : errno (mkret (-1) 104) <> 0) by (cbn; lia).
  destruct (Herr eq_refl He) as (out & E & Hout & _).
  exists out. split; [exact E|]. rewrite Hout. reflexivity.
Defined.

(** ** The timeouts of the idle poll, one after the other *)

Section PollOrder.

Context {P : Platform}.

(** X10.  The ack timeout pre-empts the rx timeout.  When both have expired
    at an idle poll, the poll sets the latch and invokes [on_timeout] only;
    the connection stays open.  The next poll, with the rx timeout still
    expired, runs the close teardown: [on_disconnect] and no [on_error]. *)
Theorem ack_timeout_preempts_rx_timeout (c : AsyncClient) (now1 now2 : Z)
    (h : queued_writebuf) (q : list queued_writebuf) :
  _socket c <> -1 -> _writeQueue c = h :: q ->
  ack_timed_out now1 h c = true -> rx_timed_out now2 c = true ->
  _sockPoll now1 c
  = Done tt (set_ack_timeout_signaled true c)
      (if _timeout_cb c then [CbTimeout (u32 (now1 - queued_at h))] else [])
  /\ _sockPoll now2 (set_ack_timeout_signaled true c)
     = Done tt (torn_down (set_ack_timeout_signaled true c))
         (SysClose (_socket c) :: clear_frees (h :: q)
            ++ (if _discard_cb c then [CbDiscard] else []))
  /\ exists out,
       run [OpPoll now1; OpPoll now2] c
       = Done tt (torn_down (set_ack_timeout_signaled true c)) out
       /\ count is_SysClose out = 1%nat /\ count is_CbError out = 0%nat
       /\ (count is_CbTimeout out <= 1)%nat.
Proof.
  intros Hs Hq Ha Hrx.
  assert (E1 : _sockPoll now1 c
               = Done tt (set_ack_timeout_signaled true c)
                   (if _timeout_cb c then [CbTimeout (u32 (now1 - queued_at h))] else [])).
  { rewrite (poll_eq c now1 h q Hs Hq), Ha. reflexivity. }
  assert (E2 : _sockPoll now2 (set_ack_timeout_signaled true c)
               = Done tt (torn_down (set_ack_timeout_signaled true c))
                   (SysClose (_socket c) :: clear_frees (h :: q)
                      ++ (if _discard_cb c then [CbDiscard] else []))).
  { rewrite (poll_eq (set_ack_timeout_signaled true c) now2 h q Hs Hq).
    unfold ack_timed_out. cbn [_ack_timeout_signaled set_ack_timeout_signaled negb andb].
    change (rx_timed_out now2 (set_ack_timeout_signaled true c))
      with (rx_timed_out now2 c).
    rewrite Hrx. unfold teardown_out.
    cbn [_socket _writeQueue _discard_cb set_ack_timeout_signaled].
    rewrite Hq. reflexivity. }
  split; [exact E1|]. split; [exact E2|].
  rewrite run_cons. unfold step at 1. rewrite E1.
  rewrite run_cons. unfold step at 1. rewrite E2. cbn [run ret].
  eexists. split; [reflexivity|].
  rewrite !count_app. unfold count. cbn. rewrite !filter_app.
  rewrite !clear_frees_no_callback by reflexivity.
  destruct (_timeout_cb c), (_discard_cb c), (owned h); cbn; repeat split; lia.
Qed.

End PollOrder.

Lemma ack_timeout_preempts_rx_timeout_witness :
  let c := set_timeout_cb true (set_discard_cb true (set_rx_since_timeout 2 queued10)) in
  _socket c <> -1 /\ ack_timed_out 6000 (mkbuf 2000 10 0 0 0 0 true) c = true
  /\ rx_timed_out 6000 c = true
  /\ _sockPoll 6000 c = Done tt (set_ack_timeout_signaled true c) [CbTimeout 6000]
  /\ _sockPoll 6125 (set_ack_timeout_signaled true c)
     = Done tt (torn_down (set_ack_timeout_signaled true c))
         [SysClose 3; SysFree 2000; CbDiscard].
Proof.
  intros c.
  assert (Hs : _socket c <> -1) by (cbn; lia).
  assert (Hq : _writeQueue c = [mkbuf 2000 10 0 0 0 0 true]) by reflexivity.
  assert (Ha : ack_timed_out 6000 (mkbuf 2000 10 0 0 0 0 true) c = true) by reflexivity.
  assert (Hrx : rx_timed_out 6125 c = true) by reflexivity.
  destruct (ack_timeout_preempts_rx_timeout c 6000 6125 _ _ Hs Hq Ha Hrx)
    as (E1 & E2 & _).
  split; [exact Hs|]. split; [exact Ha|]. split; [reflexivity|].
  split; [exact E1|exact E2].
Defined.

(** ** Reconnecting, and the bounds of the window *)

Section Lifecycle.

Context {P : Platform}.

Lemma step_connect (c : AsyncClient) ip port task_ok sockfd cr :
  step (OpConnect ip port task_ok sockfd cr) c
  = if connect_refused c task_ok sockfd then Done tt c []
    else if (rv cr <? 0) && negb (errno cr =? EINPROGRESS) then
      Done tt c [SysConnect sockfd ip port]
    else Done tt (set_socket sockfd (set_conn_state 2 c)) [SysConnect sockfd ip port].
Proof.
  unfold step, bind, ret. rewrite connect_eq.
  destruct (connect_refused c task_ok sockfd); [reflexivity|].
  destruct ((rv cr <? 0) && negb (errno cr =? EINPROGRESS)); reflexivity.
Qed.

Lemma step_writeable_connecting (c : AsyncClient) gso sockerr wr now :
  connecting c = true ->
  step (OpWriteable gso sockerr wr now) c
  = if rv gso <? 0 then Done tt (torn_down c) (teardown_out c (Some (errno gso)))
    else if negb (sockerr =? 0) then Done tt (torn_down c) (teardown_out c (Some sockerr))
    else Done tt (established now c) (if _connect_cb c then [CbConnect] else []).
Proof.
  intros Hc. unfold step, bind, ret. rewrite writeable_connecting by exact Hc.
  destruct (rv gso <? 0); [rewrite app_nil_r; reflexivity|].
  destruct (negb (sockerr =? 0)); rewrite app_nil_r; reflexivity.
Qed.

Lemma connect_accepted (c : AsyncClient) sockfd cr :
  _socket c = -1 -> 0 <= sockfd -> 0 <= rv cr \/ errno cr = EINPROGRESS ->
  connect_refused c true sockfd = false
  /\ (rv cr <? 0) && negb (errno cr =? EINPROGRESS) = false.
Proof.
  intros Hs Hfd Hcr. unfold connect_refused. rewrite Hs. cbn. split.
  - apply Z.ltb_ge. exact Hfd.
  - destruct Hcr as [H|H].
    + apply Z.ltb_ge in H. rewrite H. reflexivity.
    + apply Z.eqb_eq in H. rewrite H. apply andb_false_r.
Qed.

(** X11.  The life of an outbound connection.  On a closed client,
    [connect(ip, port)] that gets a socket and whose [lwip_connect] succeeds
    or is in progress, followed by the writable hook: with SO_ERROR clear
    the client is ESTABLISHED on the new descriptor, [connected()] holds,
    [_rx_last_packet] is the time of the hook and [on_connect] is invoked;
    with SO_ERROR [e] set the client is torn down again - the descriptor is
    closed, [on_error] receives [e] narrowed to [int8_t], then
    [on_disconnect] is invoked - and [on_connect] is not. *)
Theorem outbound_connection_lifecycle (c : AsyncClient) (ip port sockfd : Z)
    (cr gso : sysret) (sockerr : Z) (wr : sysret) (now : Z) :
  _socket c = -1 -> 0 <= sockfd -> 0 <= rv cr \/ errno cr = EINPROGRESS ->
  0 <= rv gso ->
  let ops := [OpConnect ip port true sockfd cr; OpWriteable gso sockerr wr now] in
  let c1 := set_socket sockfd (set_conn_state 2 c) in
  (sockerr = 0 ->
     run ops c
     = Done tt (established now c1)
         (SysConnect sockfd ip port :: if _connect_cb c then [CbConnect] else [])
     /\ connected (established now c1) = true
     /\ _rx_last_packet (established now c1) = now)
  /\ (sockerr <> 0 ->
      run ops c
      = Done tt (torn_down c)
          (SysConnect sockfd ip port :: SysClose sockfd :: clear_frees (_writeQueue c)
             ++ (if _error_cb c then [CbError (to_int8 sockerr)] else [])
             ++ (if _discard_cb c then [CbDiscard] else []))).
Proof.
  intros Hs Hfd Hcr Hg ops c1. subst ops.
  destruct (connect_accepted c sockfd cr Hs Hfd Hcr) as [H1 H2].
  assert (Hc1 : connecting c1 = true) by reflexivity.
  apply Z.ltb_ge in Hg.
  split.
  - intros He. rewrite run_cons, step_connect, H1, H2. cbv beta iota.
    fold c1. rewrite run_cons, (step_writeable_connecting c1 gso sockerr wr now Hc1).
    rewrite Hg, He. cbn. split; [|split; [|reflexivity]].
    + rewrite app_nil_r. reflexivity.
    + unfold connected. cbn. destruct (sockfd =? -1) eqn:E; [zbool; lia|reflexivity].
  - intros He. apply Z.eqb_neq in He.
    rewrite run_cons, step_connect, H1, H2. cbv beta iota.
    fold c1. rewrite run_cons, (step_writeable_connecting c1 gso sockerr wr now Hc1).
    rewrite Hg, He. cbn. rewrite app_nil_r. destruct c; reflexivity.
Qed.

(** X12.  A teardown does not give the space of the dropped buffers back,
    and a new connect does not reset it.  Closing an open client and
    connecting it again yields an established client with an empty queue
    whose [space()] is the free space it had before the close: with [p]
    bytes pending at the close, [p] bytes of the window are lost to every
    later connection of the object. *)
Theorem reconnect_inherits_the_window (c : AsyncClient) (ip port sockfd : Z)
    (cr gso : sysret) (wr : sysret) (now : Z) :
  _socket c <> -1 -> 0 <= sockfd -> 0 <= rv cr \/ errno cr = EINPROGRESS ->
  0 <= rv gso ->
  exists c' out,
    run [OpClose; OpConnect ip port true sockfd cr; OpWriteable gso 0 wr now] c
    = Done tt c' out
    /\ connected c' = true
    /\ _writeQueue c' = []
    /\ space c' = _writeSpaceRemaining c
    /\ (accounted c ->
        space c' = u32 TCP_SND_BUF
                   - (sum_length (_writeQueue c) - sum_written (_writeQueue c))).
Proof.
  intros Hs Hfd Hcr Hg.
  assert (Hs0 : _socket (torn_down c) = -1) by reflexivity.
  destruct (connect_accepted (torn_down c) sockfd cr Hs0 Hfd Hcr) as [H1 H2].
  set (c1 := set_socket sockfd (set_conn_state 2 (torn_down c))).
  assert (Hc1 : connecting c1 = true) by reflexivity.
  apply Z.ltb_ge in Hg. apply Z.eqb_neq in Hs.
  rewrite run_cons. unfold step at 1. rewrite close_eq, Hs. cbv beta iota.
  rewrite run_cons, step_connect, H1, H2. cbv beta iota. fold c1.
  rewrite run_cons, (step_writeable_connecting c1 gso 0 wr now Hc1), Hg.
  cbn [negb Z.eqb run ret].
  eexists _, _. split; [reflexivity|].
  assert (Hconn : connected (established now c1) = true).
  { unfold connected. cbn. destruct (sockfd =? -1) eqn:E; [zbool; lia|reflexivity]. }
  split; [exact Hconn|]. split; [reflexivity|].
  assert (Hsp : space (established now c1) = _writeSpaceRemaining c)
    by (unfold space; rewrite Hconn; reflexivity).
  split; [exact Hsp|].
  intros (_ & _ & Ha). rewrite Hsp, Ha. lia.
Qed.

(** X13.  Bounds of the write queue.  Along every history without a new
    connect, run from a client with an empty queue and the initial window,
    in which [lwip_write] never returns more than it was asked to write:
    while the client is open every queued buffer has
    [0 <= written <= length], the pending bytes never exceed the initial
    window, and [space()] stays between 0 and the initial window. *)
Theorem queue_stays_within_the_window (c0 : AsyncClient) (ops : list op)
    (c' : AsyncClient) (out : list event) :
  _writeQueue c0 = [] -> _writeSpaceRemaining c0 = u32 TCP_SND_BUF ->
  forallb (fun o => negb (is_connect_op o)) ops = true ->
  obeys ops c0 ->
  run ops c0 = Done tt c' out ->
  _socket c' <> -1 ->
  Forall (fun b => 0 <= written b <= length b) (_writeQueue c')
  /\ 0 <= sum_length (_writeQueue c') - sum_written (_writeQueue c') <= u32 TCP_SND_BUF
  /\ 0 <= space c' <= u32 TCP_SND_BUF.
Proof.
  intros Hq Hw Hn Hob E Hs.
  assert (Ha : accounted_or_closed c0).
  { right. unfold accounted. rewrite Hq, Hw. cbn.
    pose proof (u32_range TCP_SND_BUF). split; [constructor|]. split; lia. }
  pose proof (ensures_elim _ _ _ _ _ _ (run_accounted ops c0 Hn Ha Hob) E) as H.
  destruct H as [H|(Hf & Hpos & Heq)]; [contradiction|].
  pose proof (pending_nonneg _ Hf) as Hp.
  pose proof (u32_range TCP_SND_BUF) as HW.
  split; [|split].
  - eapply Forall_impl; [|exact Hf]. intros b [Hb _]. exact Hb.
  - lia.
  - unfold space. destruct (negb (connected c')); lia.
Qed.

End Lifecycle.

Lemma outbound_connection_lifecycle_witness :
  let c := set_connect_cb true (set_error_cb true (AsyncClient_new (-1) 0)) in
  let c1 := set_socket 5 (set_conn_state 2 c) in
  run [OpConnect 16777343 80 true 5 (mkret (-1) 119);
       OpWriteable (mkret 0 0) 0 (mkret 0 0) 10] c
  = Done tt (established 10 c1) [SysConnect 5 16777343 80; CbConnect]
  /\ run [OpConnect 16777343 80 true 5 (mkret (-1) 119);
          OpWriteable (mkret 0 0) 111 (mkret 0 0) 10] c
     = Done tt (torn_down c) [SysConnect 5 16777343 80; SysClose 5; CbError 111].
Proof.
  intros c c1.
  assert (Hs : _socket c = -1) by reflexivity.
  assert (Hfd : 0 <= 5) by lia.
  assert (Hcr : 0 <= rv (mkret (-1) 119) \/ errno (mkret (-1) 119) = EINPROGRESS)
    by (right; reflexivity).
  assert (Hg : 0 <= rv (mkret 0 0)) by (cbn; lia).
  destruct (outbound_connection_lifecycle c 16777343 80 5 (mkret (-1) 119) (mkret 0 0)
              0 (mkret 0 0) 10 Hs Hfd Hcr Hg) as [Hok _].
  destruct (outbound_connection_lifecycle c 16777343 80 5 (mkret (-1) 119) (mkret 0 0)
              111 (mkret 0 0) 10 Hs Hfd Hcr Hg) as [_ Hbad].
  destruct (Hok eq_refl) as (E1 & _ & _).
  assert (H111 : 111 <> 0) by lia.
  split; [exact E1|exact (Hbad H111)].
Defined.

Lemma reconnect_inherits_the_window_witness :
  exists c' out,
    _socket queued10 <> -1
    /\ run [OpClose; OpConnect 16777343 80 true 5 (mkret (-1) 119);
            OpWriteable (mkret 0 0) 0 (mkret 0 0) 10] queued10 = Done tt c' out
    /\ connected c' = true /\ _writeQueue c' = [] /\ space c' = 5830.
Proof.
  assert (Hs : _socket queued10 <> -1) by (cbn; lia).
  assert (Hfd : 0 <= 5) by lia.
  assert (Hcr : 0 <= rv (mkret (-1) 119) \/ errno (mkret (-1) 119) = EINPROGRESS)
    by (right; reflexivity).
  assert (Hg : 0 <= rv (mkret 0 0)) by (cbn; lia).
  destruct (reconnect_inherits_the_window queued10 16777343 80 5 (mkret (-1) 119)
              (mkret 0 0) (mkret 0 0) 10 Hs Hfd Hcr Hg)
    as (c' & out & E & Hc & Hq & Hsp & _).
  exists c', out. repeat split; assumption.
Defined.

Lemma queue_stays_within_the_window_witness :
  let ops := [ OpAdd 1000 10 ASYNC_WRITE_FLAG_COPY 2000 20;
               OpSend 1 (mkret 4 0) 30;
               OpAdd 1100 8000 0 0 35 ] in
  exists c' out,
    run ops accepted3 = Done tt c' out
    /\ _writeQueue c' = [mkbuf 2000 10 4 20 0 0 true; mkbuf 1100 5834 0 35 0 0 false]
    /\ 0 <= space c' <= u32 TCP_SND_BUF
    /\ space c' = 0.
Proof.
  intros ops.
  assert (Hrun : exists c' out, run ops accepted3 = Done tt c' out
                   /\ _writeQueue c'
                      = [mkbuf 2000 10 4 20 0 0 true; mkbuf 1100 5834 0 35 0 0 false]
                   /\ _socket c' <> -1 /\ space c' = 0).
  { eexists _, _. split; [vm_compute; reflexivity|].
    split; [reflexivity|]. split; [cbn; lia|reflexivity]. }
  destruct Hrun as (c' & out & Hrun & Hq' & Hs' & Hsp).
  assert (Hq : _writeQueue accepted3 = []) by reflexivity.
  assert (Hw : _writeSpaceRemaining accepted3 = u32 TCP_SND_BUF) by reflexivity.
  assert (Hn : forallb (fun o => negb (is_connect_op o)) ops = true) by reflexivity.
  assert (Hob : obeys ops accepted3).
  { vm_compute. repeat split; try exact I; intro; discriminate. }
  destruct (queue_stays_within_the_window accepted3 ops c' out Hq Hw Hn Hob Hrun Hs')
    as (_ & _ & Hb).
  exists c', out. repeat split; try assumption; apply Hb.
Defined.

(** ** Acknowledgements follow the order of submission *)

Section OrderingProofs.

Context {P : Platform}.

Lemma acked_app (a b : list event) : acked (a ++ b) = acked a ++ acked b.
Proof.
  induction a as [|e a IH]; [reflexivity|]. destruct e; cbn; rewrite ?IH; reflexivity.
Qed.

Lemma flush_acked (c : AsyncClient) wr now :
  ensures (_flushWriteQueue wr now) c (fun _ c' out =>
    acked out = [] /\ _sent_cb c' = _sent_cb c /\ _socket c' = _socket c
    /\ map length (_writeQueue c') = map length (_writeQueue c)).
Proof.
  pose proof (flush_frame c wr now) as H1.
  pose proof (flush_lengths c wr now) as H2.
  unfold ensures in *. destruct (_flushWriteQueue wr now c) as [a c' out|]; [|exact I].
  destruct H1 as (w & q' & E & _ & Hout). destruct H2 as [Hm _].
  split; [|split; [|split]].
  - destruct Hout as [->|(h & q & _ & ->)]; reflexivity.
  - rewrite E. reflexivity.
  - rewrite E. reflexivity.
  - exact Hm.
Qed.

Lemma run_stays_closed (ops : list op) :
  forall c, forallb (fun o => negb (is_connect_op o)) ops = true -> _socket c = -1 ->
  ensures (run ops) c (fun _ c' _ => _socket c' = -1).
Proof.
  induction ops as [|o ops IH]; intros c Hn Hs.
  - exact Hs.
  - cbn in Hn. apply andb_true_iff in Hn. destruct Hn as [Ho Hn].
    apply negb_true_iff in Ho.
    unfold ensures. rewrite run_cons.
    pose proof (step_summary o c) as H1. unfold ensures in H1.
    destruct (step o c) as [[] c1 o1|]; [|exact I].
    destruct H1 as [Hm _].
    pose proof (IH c1 Hn (moves_stays_closed o c c1 Ho Hs Hm)) as H2.
    unfold ensures in H2.
    destruct (run ops c1) as [[] c2 o2|]; [exact H2|exact I].
Qed.

Ltac unchanged Hcb :=
  right; split; [exact Hcb|cbn; rewrite ?app_nil_r; reflexivity].

Lemma add_in_order (o : op) (c : AsyncClient) data_ size apiflags mem now :
  accepted_by o c
  = (if add_rejects c data_ size apiflags mem then [] else [will_send c size]) ->
  _sent_cb c = true ->
  ensures (add data_ size apiflags mem now) c (fun _ c' out =>
    out = [] /\ _sent_cb c' = true
    /\ map length (_writeQueue c') = map length (_writeQueue c) ++ accepted_by o c).
Proof.
  intros -> Hcb. unfold ensures. rewrite add_eq.
  destruct (add_rejects c data_ size apiflags mem).
  - rewrite app_nil_r. auto.
  - split; [reflexivity|]. split; [exact Hcb|].
    unfold enqueued. cbn. rewrite map_app. reflexivity.
Qed.

Lemma step_in_order (o : op) (c : AsyncClient) :
  keeps_ack_handler o = true -> _sent_cb c = true -> positive c ->
  ensures (step o) c (fun _ c' out => in_order o c c' out).
Proof.
  intros Ho Hcb Hp. unfold in_order.
  unfold keeps_ack_handler in Ho. apply andb_true_iff in Ho. destruct Ho as [Ho1 Ho2].
  apply negb_true_iff in Ho1.
  destruct o; try discriminate Ho1; try discriminate Ho2; unfold step.
  - unfold ensures, _tcpsock_dns_found, bind, modify. destruct ipaddr; unchanged Hcb.
  - apply ensures_drop. eapply ensures_weaken; [apply writeable_cases|].
    cbn. intros a c' out Hw. unfold writeable_post in Hw.
    destruct Hw as [(Hc & [(-> & e & ->)|(-> & _ & ->)])|[(Hc & Hq & -> & ->)|Hw]].
    + left. reflexivity.
    + right. split; [exact Hcb|]. destruct (_connect_cb c); cbn; rewrite app_nil_r; reflexivity.
    + unchanged Hcb.
    + destruct Hw as (Hc & Hq & c1 & out1 & h1 & q1 & Hf & Hq1 & Hw).
      pose proof (ensures_elim _ _ _ _ _ _ (flush_acked c wr now) Hf)
        as (Ha1 & Hcb1 & _ & Hm).
      pose proof (ensures_elim _ _ _ _ _ _ (flush_positive c wr now Hp) Hf) as [_ Hp1].
      rewrite Hcb in Hcb1.
      destruct Hw as [(He & -> & ->)|[(He & Hl & -> & ->)|(He & Hl & -> & ->)]].
      * left. reflexivity.
      * right. rewrite Hq1 in Hp1, Hm. inversion Hp1 as [|? ? Hpos _]; subst.
        apply Z.ltb_lt in Hpos.
        split.
        { unfold retired. destruct (_rx_last_packet c1 <? written_at h1); exact Hcb1. }
        rewrite acked_app, Ha1. unfold retire_out. rewrite Hpos, Hcb1.
        rewrite app_nil_r, <- Hm.
        unfold retired. destruct (_rx_last_packet c1 <? written_at h1), (owned h1);
          reflexivity.
      * right. split; [exact Hcb1|]. rewrite Ha1, Hm, app_nil_r. reflexivity.
  - unfold ensures. rewrite readable_eq. cbn.
    destruct (0 <? rv rd).
    { right. split; [exact Hcb|]. destruct (_recv_cb c); cbn; rewrite app_nil_r; reflexivity. }
    destruct (rv rd =? 0); [left; reflexivity|].
    destruct (is_again rd); [unchanged Hcb|left; reflexivity].
  - unfold ensures.
    destruct (Z.eq_dec (_socket c) (-1)) as [Hs|Hs].
    { rewrite poll_closed by exact Hs. left. exact Hs. }
    destruct (_writeQueue c) as [|h q] eqn:Hq.
    { rewrite poll_empty by assumption. exact I. }
    rewrite (poll_eq c now h q) by assumption.
    destruct (ack_timed_out now h c).
    { right. split; [exact Hcb|].
      destruct (_timeout_cb c); cbn; rewrite Hq, app_nil_r; reflexivity. }
    destruct (rx_timed_out now c); [left; reflexivity|].
    right. split; [exact Hcb|].
    destruct (_poll_cb c); cbn; rewrite Hq, app_nil_r; reflexivity.
  - apply ensures_drop.
    eapply ensures_weaken;
      [apply (add_in_order (OpAdd data_ size apiflags mem now)); [reflexivity|exact Hcb]|].
    cbn. intros _ c' out (-> & Hcb' & Hm). right. split; [exact Hcb'|exact Hm].
  - apply ensures_drop. unfold ensures. rewrite send_eq.
    destruct (0 <? sel); [|unchanged Hcb].
    pose proof (flush_acked c wr now) as H. unfold ensures in H.
    destruct (_flushWriteQueue wr now c) as [a c' out|]; [|exact I].
    destruct H as (Ha & Hcb' & _ & Hm).
    right. split; [rewrite Hcb'; exact Hcb|]. rewrite Ha, Hm. cbn. rewrite app_nil_r.
    reflexivity.
  - apply ensures_drop. unfold ensures, write. unfold bind at 1.
    pose proof (add_in_order (OpWrite data_ size apiflags mem now sel wr now')
                  c data_ size apiflags mem now eq_refl Hcb) as H1.
    unfold ensures in H1.
    destruct (add data_ size apiflags mem now c) as [n c1 o1|]; [|exact I].
    destruct H1 as (-> & Hcb1 & Hm1).
    destruct (n =? 0); [cbn; right; split; [exact Hcb1|exact Hm1]|].
    unfold bind. rewrite send_eq.
    destruct (0 <? sel); [|cbn; right; split; [exact Hcb1|exact Hm1]].
    pose proof (flush_acked c1 wr now') as H. unfold ensures in H.
    destruct (_flushWriteQueue wr now' c1) as [a c2 o2|]; [|exact I].
    destruct H as (Ha & Hcb2 & _ & Hm2).
    cbn. rewrite app_nil_r. right. split; [rewrite Hcb2; exact Hcb1|].
    rewrite Ha, Hm2. exact Hm1.
  - unfold ensures. rewrite close_eq.
    destruct (_socket c =? -1) eqn:Hs; [left; zbool; exact Hs|left; reflexivity].
  - apply ensures_drop. unfold ensures. rewrite abort_eq.
    destruct (_socket c =? -1) eqn:Hs; [left; zbool; exact Hs|left; reflexivity].
  - unfold ensures, setRxTimeout, modify. unchanged Hcb.
  - unfold ensures, setAckTimeout, modify. unchanged Hcb.
  - unfold ensures, onConnect, modify. unchanged Hcb.
  - unfold ensures, onDisconnect, modify. unchanged Hcb.
  - unfold ensures, onError, modify. unchanged Hcb.
  - unfold ensures, onData, modify. unchanged Hcb.
  - unfold ensures, onTimeout, modify. unchanged Hcb.
  - unfold ensures, onPoll, modify. unchanged Hcb.
Qed.

Lemma keeps_ack_not_connect (ops : list op) :
  forallb keeps_ack_handler ops = true ->
  forallb (fun o => negb (is_connect_op o)) ops = true.
Proof.
  induction ops as [|o ops IH]; [reflexivity|]. cbn.
  intros H. apply andb_true_iff in H. destruct H as [Ho H].
  rewrite (IH H), andb_true_r. unfold keeps_ack_handler in Ho.
  apply andb_true_iff in Ho. tauto.
Qed.

Lemma run_in_order (ops : list op) :
  forall c, forallb keeps_ack_handler ops = true -> _sent_cb c = true -> positive c ->
  ensures (run ops) c (fun _ c' out =>
    _socket c' = -1
    \/ acked out ++ map length (_writeQueue c')
       = map length (_writeQueue c) ++ accepted ops c).
Proof.
  induction ops as [|o ops IH]; intros c Hk Hcb Hp.
  - right. cbn. rewrite app_nil_r. reflexivity.
  - cbn in Hk. apply andb_true_iff in Hk. destruct Hk as [Ho Hk].
    unfold ensures. rewrite run_cons. cbn [accepted].
    pose proof (step_in_order o c Ho Hcb Hp) as H1.
    pose proof (step_positive o c Hp) as Hp1.
    unfold ensures in H1, Hp1.
    destruct (step o c) as [[] c1 o1|]; [|exact I].
    destruct H1 as [Hs1|[Hcb1 E1]].
    + pose proof (run_stays_closed ops c1 (keeps_ack_not_connect ops Hk) Hs1) as H2.
      unfold ensures in H2.
      destruct (run ops c1) as [[] c2 o2|]; [left; exact H2|exact I].
    + pose proof (IH c1 Hk Hcb1 Hp1) as H2. unfold ensures in H2.
      destruct (run ops c1) as [[] c2 o2|]; [|exact I].
      destruct H2 as [H2|E2]; [left; exact H2|right].
      rewrite acked_app, <- app_assoc, E2, app_assoc, E1, <- app_assoc. reflexivity.
Qed.

(** X14.  Acknowledgements follow the order of submission.  Take a client
    with an [on_ack] handler and buffers of positive length, and a history
    that starts no connection and leaves the handler in place.  If the
    client is open at the end, the lengths reported by [on_ack] so far,
    followed by the lengths of the buffers still queued, are the lengths of
    the buffers queued at the start followed by the lengths [add] accepted
    since, in that order: buffers are acknowledged first in, first out,
    each once, with the length that was accepted. *)
Theorem acks_follow_submission_order (ops : list op) (c c' : AsyncClient)
    (out : list event) :
  _sent_cb c = true -> positive c ->
  forallb keeps_ack_handler ops = true ->
  run ops c = Done tt c' out ->
  _socket c' <> -1 ->
  acked out ++ map length (_writeQueue c')
  = map length (_writeQueue c) ++ accepted ops c.
Proof.
  intros Hcb Hp Hk E Hs.
  pose proof (ensures_elim _ _ _ _ _ _ (run_in_order ops c Hk Hcb Hp) E) as H.
  destruct H as [H|H]; [contradiction|exact H].
Qed.

End OrderingProofs.

Lemma acks_follow_submission_order_witness :
  let c := set_sent_cb true accepted3 in
  let ops := [OpAdd 1000 10 ASYNC_WRITE_FLAG_COPY 2000 20;
              OpAdd 1100 7 0 0 21;
              OpWriteable (mkret 0 0) 0 (mkret 10 0) 30;
              OpAdd 1200 5 0 0 31;
              OpWriteable (mkret 0 0) 0 (mkret 7 0) 40] in
  exists c' out,
    run ops c = Done tt c' out
    /\ accepted ops c = [10; 7; 5]
    /\ acked out = [10; 7]
    /\ map length (_writeQueue c') = [5]
    /\ acked out ++ map length (_writeQueue c')
       = map length (_writeQueue c) ++ accepted ops c.
Proof.
  intros c ops.
  assert (Hrun : exists c' out, run ops c = Done tt c' out
                   /\ acked out = [10; 7] /\ map length (_writeQueue c') = [5]
                   /\ _socket c' <> -1).
  { eexists _, _. split; [vm_compute; reflexivity|].
    split; [vm_compute; reflexivity|]. split; [vm_compute; reflexivity|].
    vm_compute. discriminate. }
  destruct Hrun as (c' & out & Hrun & Ha & Hm & Hs).
  assert (Hcb : _sent_cb c = true) by reflexivity.
  assert (Hp : positive c).
  { split; [vm_compute; discriminate|constructor]. }
  assert (Hk : forallb keeps_ack_handler ops = true) by (vm_compute; reflexivity).
  pose proof (acks_follow_submission_order ops c c' out Hcb Hp Hk Hrun Hs) as H.
  assert (Hacc : accepted ops c = [10; 7; 5]) by (vm_compute; reflexivity).
  exists c', out.
  split; [exact Hrun|]. split; [exact Hacc|]. split; [exact Ha|]. split; [exact Hm|].
  exact H.
Defined.

(** ** The destructor *)

Section ReleaseProofs.

Context {P : Platform}.

Ltac still_drained Hd :=
  unfold drained in *; cbn [_socket _writeQueue]; cbn; exact Hd.

Lemma connect_drained (c : AsyncClient) ip port task_ok sockfd cr :
  drained c ->
  ensures (connect ip port task_ok sockfd cr) c (fun _ c' _ => drained c').
Proof.
  intros Hd. unfold ensures. rewrite connect_eq.
  destruct (connect_refused c task_ok sockfd) eqn:Hr; [exact Hd|].
  destruct ((rv cr <? 0) && negb (errno cr =? EINPROGRESS)); [exact Hd|].
  unfold connect_refused in Hr.
  apply orb_false_iff in Hr. destruct Hr as [_ Hr]. apply Z.ltb_ge in Hr.
  intros Hs. cbn in Hs. lia.
Qed.

Lemma flush_drained (c : AsyncClient) wr now :
  drained c ->
  ensures (_flushWriteQueue wr now) c (fun _ c' _ => drained c').
Proof.
  intros Hd. eapply ensures_weaken; [apply flush_acked|].
  cbn. intros _ c' _ (_ & _ & Hs & Hm) Hs'.
  rewrite Hs in Hs'. rewrite (Hd Hs') in Hm.
  destruct (_writeQueue c'); [reflexivity|discriminate Hm].
Qed.

Lemma add_drained (c : AsyncClient) data_ size apiflags mem now :
  drained c ->
  ensures (add data_ size apiflags mem now) c (fun _ c' _ => drained c').
Proof.
  intros Hd. unfold ensures. rewrite add_eq.
  destruct (add_rejects c data_ size apiflags mem) eqn:Hr; [exact Hd|].
  unfold add_rejects in Hr. repeat (apply orb_false_iff in Hr; destruct Hr as [Hr ?]).
  apply negb_false_iff in Hr. unfold connected in Hr.
  intros Hs. unfold enqueued in Hs. cbn in Hs. rewrite Hs in Hr. discriminate Hr.
Qed.

Lemma torn_down_drained (c : AsyncClient) : drained (torn_down c).
Proof. intros _. reflexivity. Qed.

Lemma step_drained (o : op) (c : AsyncClient) :
  drained c -> ensures (step o) c (fun _ c' _ => drained c').
Proof.
  intros Hd. destruct o; unfold step.
  - apply ensures_drop. apply connect_drained. exact Hd.
  - apply ensures_drop. unfold connect_host.
    destruct task_ok; cbn [negb]; [|exact Hd].
    destruct dns; [apply connect_drained; exact Hd| |exact Hd].
    unfold ensures, bind, modify, ret. still_drained Hd.
  - unfold ensures, _tcpsock_dns_found, bind, modify. destruct ipaddr; still_drained Hd.
  - unfold _sockDelayedConnect. unfold ensures. unfold bind at 1, modify at 1.
    unfold bind at 1, get at 1.
    change (_connect_addr (set_isdnsfinished false c)) with (_connect_addr c).
    assert (Hd' : drained (set_isdnsfinished false c)) by still_drained Hd.
    destruct (_connect_addr c =? 0); cbn [negb].
    + unfold bind, when, emit, get, ret.
      destruct (_error_cb (set_isdnsfinished false c)),
               (_discard_cb (set_isdnsfinished false c)); exact Hd'.
    + pose proof (connect_drained (set_isdnsfinished false c) (_connect_addr c)
                    (_connect_port (set_isdnsfinished false c)) task_ok sockfd cr Hd') as H.
      unfold ensures in H. unfold bind, ret.
      destruct (connect _ _ task_ok sockfd cr (set_isdnsfinished false c)); exact H.
  - apply ensures_drop. eapply ensures_weaken; [apply writeable_cases|].
    cbn. intros a c' out Hw. unfold writeable_post in Hw.
    destruct Hw as [(Hc & [(-> & e & ->)|(-> & _ & ->)])|[(Hc & Hq & -> & ->)|Hw]].
    + apply torn_down_drained.
    + still_drained Hd.
    + exact Hd.
    + destruct Hw as (Hc & Hq & c1 & out1 & h1 & q1 & Hf & Hq1 & Hw).
      pose proof (ensures_elim _ _ _ _ _ _ (flush_acked c wr now) Hf)
        as (_ & _ & Hs1 & Hm).
      pose proof (ensures_elim _ _ _ _ _ _ (flush_drained c wr now Hd) Hf) as Hd1.
      destruct Hw as [(He & -> & ->)|[(He & Hl & -> & ->)|(He & Hl & -> & ->)]].
      * apply torn_down_drained.
      * intros Hs. exfalso.
        assert (Hs' : _socket c1 = -1).
        { unfold retired in Hs. destruct (_rx_last_packet c1 <? written_at h1); exact Hs. }
        rewrite (Hd1 Hs') in Hq1. discriminate Hq1.
      * exact Hd1.
  - unfold ensures. rewrite readable_eq. cbn.
    destruct (0 <? rv rd); [still_drained Hd|].
    destruct (rv rd =? 0); [apply torn_down_drained|].
    destruct (is_again rd); [still_drained Hd|apply torn_down_drained].
  - unfold ensures.
    destruct (Z.eq_dec (_socket c) (-1)) as [Hs|Hs].
    { rewrite poll_closed by exact Hs. exact Hd. }
    destruct (_writeQueue c) as [|h q] eqn:Hq.
    { rewrite poll_empty by assumption. exact I. }
    rewrite (poll_eq c now h q) by assumption.
    destruct (ack_timed_out now h c); [intros Hs'; cbn in Hs'; contradiction|].
    destruct (rx_timed_out now c); [apply torn_down_drained|exact Hd].
  - apply ensures_drop. apply add_drained. exact Hd.
  - apply ensures_drop. unfold ensures. rewrite send_eq.
    destruct (0 <? sel); [|exact Hd].
    pose proof (flush_drained c wr now Hd) as H. unfold ensures in H.
    destruct (_flushWriteQueue wr now c); [exact H|exact I].
  - apply ensures_drop. unfold ensures, write. unfold bind at 1.
    pose proof (add_drained c data_ size apiflags mem now Hd) as H1.
    unfold ensures in H1.
    destruct (add data_ size apiflags mem now c) as [n c1 o1|]; [|exact I].
    destruct (n =? 0); [exact H1|].
    unfold bind. rewrite send_eq.
    destruct (0 <? sel); [|exact H1].
    pose proof (flush_drained c1 wr now' H1) as H. unfold ensures in H.
    destruct (_flushWriteQueue wr now' c1); [exact H|exact I].
  - unfold ensures. rewrite close_eq.
    destruct (_socket c =? -1); [exact Hd|apply torn_down_drained].
  - apply ensures_drop. unfold ensures. rewrite abort_eq.
    destruct (_socket c =? -1); [exact Hd|apply torn_down_drained].
  - unfold ensures, setRxTimeout, modify. still_drained Hd.
  - unfold ensures, setAckTimeout, modify. still_drained Hd.
  - unfold ensures, onConnect, modify. still_drained Hd.
  - unfold ensures, onDisconnect, modify. still_drained Hd.
  - unfold ensures, onAck, modify. still_drained Hd.
  - unfold ensures, onError, modify. still_drained Hd.
  - unfold ensures, onData, modify. still_drained Hd.
  - unfold ensures, onTimeout, modify. still_drained Hd.
  - unfold ensures, onPoll, modify. still_drained Hd.
Qed.

Lemma run_drained (ops : list op) :
  forall c, drained c -> ensures (run ops) c (fun _ c' _ => drained c').
Proof.
  induction ops as [|o ops IH]; intros c Hd.
  - exact Hd.
  - unfold ensures. rewrite run_cons.
    pose proof (step_drained o c Hd) as H1. unfold ensures in H1.
    destruct (step o c) as [[] c1 o1|]; [|exact I].
    pose proof (IH c1 H1) as H2. unfold ensures in H2.
    destruct (run ops c1) as [[] c2 o2|]; [exact H2|exact I].
Qed.

Lemma new_drained (sockfd uninit : Z) : drained (AsyncClient_new sockfd uninit).
Proof.
  unfold drained, AsyncClient_new. destruct (sockfd =? -1); reflexivity.
Qed.

Lemma delete_eq (c : AsyncClient) :
  AsyncClient_delete c =
  if _socket c =? -1 then Done tt c []
  else Done tt (torn_down c) (teardown_out c None).
Proof. exact (close_eq c). Qed.


End ReleaseProofs.


(** ** The listening socket *)

Section ServerProofs.

Context {P : Platform}.

Lemma server_run_cons (o : Server.op) (ops : list Server.op) (s : Server.AsyncServer) :
  Server.run (o :: ops) s
  = (fst (Server.run ops (fst (Server.step o s))),
     snd (Server.step o s) ++ snd (Server.run ops (fst (Server.step o s)))).
Proof.
  cbn [Server.run]. destruct (Server.step o s) as [s1 o1]. cbn [fst snd].
  destruct (Server.run ops s1); reflexivity.
Qed.

Lemma server_run_app (ops1 ops2 : list Server.op) :
  forall s,
  Server.run (ops1 ++ ops2) s
  = (fst (Server.run ops2 (fst (Server.run ops1 s))),
     snd (Server.run ops1 s) ++ snd (Server.run ops2 (fst (Server.run ops1 s)))).
Proof.
  induction ops1 as [|o ops1 IH]; intros s.
  - cbn. destruct (Server.run ops2 s); reflexivity.
  - rewrite <- app_comm_cons, !server_run_cons, IH. cbn [fst snd].
    rewrite app_assoc. reflexivity.
Qed.

Lemma open_fds_app (a b : list Server.event) :
  forall live,
  Server.open_fds (a ++ b) live
  = match Server.open_fds a live with
    | Some l => Server.open_fds b l
    | None => None
    end.
Proof.
  induction a as [|e a IH]; intros live; [reflexivity|].
  destruct e; cbn; rewrite ?IH; try reflexivity.
  destruct (Server.remove_fd fd live); [apply IH|reflexivity].
Qed.

Lemma readable_is_traffic (acc : Z) (alloc_ok : bool) (uninit : Z) (s : Server.AsyncServer) :
  forallb Server.is_traffic (Server._sockIsReadable acc alloc_ok uninit s) = true.
Proof.
  unfold Server._sockIsReadable.
  destruct (Server._connect_cb s); [|reflexivity]. cbn.
  destruct (acc <? 0); [reflexivity|]. destruct alloc_ok; [|reflexivity].
  destruct (setNoDelay (Server._noDelay s) (AsyncClient_new acc uninit)) as [[fd flag]|];
    reflexivity.
Qed.

Lemma traffic_opens_nothing (out : list Server.event) :
  forallb Server.is_traffic out = true ->
  forall live, Server.open_fds out live = Some live.
Proof.
  induction out as [|e out IH]; intros H live; [reflexivity|].
  cbn in H. apply andb_true_iff in H. destruct H as [He H].
  destruct e; try discriminate He; cbn; apply IH; exact H.
Qed.

Lemma server_step_safe (o : Server.op) (s : Server.AsyncServer) :
  Server.open_fds (snd (Server.step o s)) (Server.listening s)
  = Some (Server.listening (fst (Server.step o s))).
Proof.
  destruct o; cbn [Server.step fst snd].
  - unfold Server.begin, Server.listening.
    destruct (Server._socket s =? -1) eqn:Hs; cbn [negb]; [|cbn; rewrite Hs; reflexivity].
    destruct task_ok; cbn [negb]; [|cbn; rewrite Hs; reflexivity].
    destruct (sockfd <? 0) eqn:Hfd; [cbn; rewrite Hfd, Hs; reflexivity|].
    assert (Hne : (sockfd =? -1) = false) by (apply Z.eqb_neq; apply Z.ltb_ge in Hfd; lia).
    destruct (bind_r <? 0); [cbn; rewrite Hfd, Hs; cbn; rewrite Z.eqb_refl; reflexivity|].
    destruct (listen_r <? 0); [cbn; rewrite Hfd, Hs; cbn; rewrite Z.eqb_refl; reflexivity|].
    cbn. rewrite Hfd, Hne. reflexivity.
  - unfold Server.end_, Server.listening.
    destruct (Server._socket s =? -1) eqn:Hs; cbn; [rewrite Hs; reflexivity|].
    rewrite Z.eqb_refl. reflexivity.
  - reflexivity.
  - reflexivity.
  - apply traffic_opens_nothing, readable_is_traffic.
Qed.

Lemma server_run_safe (ops : list Server.op) :
  forall s,
  Server.open_fds (snd (Server.run ops s)) (Server.listening s)
  = Some (Server.listening (fst (Server.run ops s))).
Proof.
  induction ops as [|o ops IH]; intros s; [reflexivity|].
  rewrite server_run_cons. cbn [fst snd].
  rewrite open_fds_app, server_step_safe. apply IH.
Qed.

(** X16.  The server neither leaks nor closes twice.  Over every history of
    [begin], [end], [onClient], [setNoDelay] and readable events, from any
    server, each [close] is of a descriptor the server holds at that
    moment, and the descriptors opened by [socket()] and not closed since
    are exactly the one in [_socket] (none when it is -1): a [begin] that
    fails after [socket()] closes what it opened, a [begin] on a listening
    server opens nothing.  After a final [end] - the destructor - nothing
    is left open. *)
Theorem server_descriptors_are_safe (ops : list Server.op) (s : Server.AsyncServer) :
  Server.open_fds (snd (Server.run ops s)) (Server.listening s)
  = Some (Server.listening (fst (Server.run ops s)))
  /\ Server.open_fds (snd (Server.run (ops ++ [Server.OpEnd]) s)) (Server.listening s)
     = Some [].
Proof.
  split; [apply server_run_safe|].
  rewrite server_run_safe. f_equal.
  rewrite server_run_app. cbn [fst snd Server.run Server.step].
  unfold Server.end_, Server.listening.
  destruct (Server._socket (fst (Server.run ops s)) =? -1) eqn:Hs; cbn; [rewrite Hs|];
    reflexivity.
Qed.

Lemma server_step_bound (addr port : Z) (o : Server.op) (s : Server.AsyncServer)
    (out : list Server.event) :
  bound_as_configured addr port s out ->
  bound_as_configured addr port (fst (Server.step o s)) (out ++ snd (Server.step o s)).
Proof.
  intros (Ha & Hp & Hl). unfold bound_as_configured.
  destruct o; cbn [Server.step fst snd].
  - unfold Server.begin.
    destruct (Server._socket s =? -1) eqn:Hs; cbn [negb fst snd];
      [|rewrite app_nil_r; auto].
    apply Z.eqb_eq in Hs.
    assert (Hkeep : forall o1,
      Server._addr s = addr /\ Server._port s = port
      /\ (Server._socket s <> -1 ->
          0 <= Server._socket s
          /\ exists pre post,
               out ++ o1 = pre ++ Server.setup (Server._socket s) addr port ++ post
               /\ forallb Server.is_traffic post = true)).
    { intros o1. split; [exact Ha|]. split; [exact Hp|]. intros Hn. contradiction. }
    destruct task_ok; cbn [negb fst snd]; [|apply Hkeep].
    destruct (sockfd <? 0) eqn:Hfd; cbn [fst snd]; [apply Hkeep|].
    destruct (bind_r <? 0); cbn [fst snd]; [apply Hkeep|].
    destruct (listen_r <? 0); cbn [fst snd]; [apply Hkeep|].
    cbn [Server.set_socket Server._socket Server._addr Server._port].
    split; [exact Ha|]. split; [exact Hp|]. intros _.
    split; [apply Z.ltb_ge in Hfd; exact Hfd|].
    exists out, []. rewrite Ha, Hp, app_nil_r. split; reflexivity.
  - unfold Server.end_.
    destruct (Server._socket s =? -1) eqn:Hs; cbn [fst snd].
    + rewrite app_nil_r. auto.
    + cbn. split; [exact Ha|]. split; [exact Hp|]. intros Hn. contradiction.
  - rewrite app_nil_r. cbn. auto.
  - rewrite app_nil_r. cbn. auto.
  - split; [exact Ha|]. split; [exact Hp|]. intros Hn.
    destruct (Hl Hn) as (H0 & pre & post & -> & Ht). split; [exact H0|].
    exists pre, (post ++ Server._sockIsReadable acc alloc_ok uninit s).
    split; [rewrite <- !app_assoc; reflexivity|].
    rewrite forallb_app, Ht, readable_is_traffic. reflexivity.
Qed.

Lemma server_run_bound (addr port : Z) (ops : list Server.op) :
  forall s out,
  bound_as_configured addr port s out ->
  bound_as_configured addr port (fst (Server.run ops s)) (out ++ snd (Server.run ops s)).
Proof.
  induction ops as [|o ops IH]; intros s out H.
  - cbn. rewrite app_nil_r. exact H.
  - rewrite server_run_cons. cbn [fst snd]. rewrite app_assoc.
    apply IH, server_step_bound, H.
Qed.

(** X17.  A listening server listens where it was configured.  Over every
    history of a server from its constructor, the address and the port
    stay those given to the constructor; and whenever the server holds a
    descriptor, that descriptor is non-negative, it was obtained, bound to
    that address and port, put to listen with a backlog of 5 and made
    non-blocking by one [begin], and nothing but accept traffic has
    happened since: no [close] and no second [socket()]. *)
Theorem server_listens_where_configured (ops : list Server.op) (addr port : Z) :
  let s' := fst (Server.run ops (Server.AsyncServer_new addr port)) in
  let out := snd (Server.run ops (Server.AsyncServer_new addr port)) in
  Server._addr s' = addr /\ Server._port s' = port
  /\ (Server._socket s' <> -1 ->
      0 <= Server._socket s'
      /\ exists pre post,
           out = pre ++ Server.setup (Server._socket s') addr port ++ post
           /\ forallb Server.is_traffic post = true).
Proof.
  assert (H0 : bound_as_configured addr port (Server.AsyncServer_new addr port) []).
  { split; [reflexivity|]. split; [reflexivity|]. intros Hn. cbn in Hn. contradiction. }
  exact (server_run_bound addr port ops _ [] H0).
Qed.

(** The accepted clients. *)

Lemma clients_app (a b : list Server.event) :
  Server.clients (a ++ b) = Server.clients a ++ Server.clients b.
Proof.
  induction a as [|e a IH]; [reflexivity|]. destruct e; cbn; rewrite ?IH; reflexivity.
Qed.

Lemma accepts_app (a b : list Server.event) :
  Server.accepts (a ++ b) = Server.accepts a ++ Server.accepts b.
Proof.
  induction a as [|e a IH]; [reflexivity|]. destruct e; cbn; rewrite ?IH; try reflexivity.
  destruct (r <? 0); cbn; rewrite ?IH; reflexivity.
Qed.

Lemma nodelays_app (a b : list Server.event) :
  Server.nodelays (a ++ b) = Server.nodelays a ++ Server.nodelays b.
Proof.
  induction a as [|e a IH]; [reflexivity|]. destruct e; cbn; rewrite ?IH; reflexivity.
Qed.

Lemma new_fresh (acc uninit : Z) :
  0 <= acc -> fresh (AsyncClient_new acc uninit).
Proof.
  intros H. unfold fresh, AsyncClient_new.
  assert (Hne : (acc =? -1) = false) by (apply Z.eqb_neq; lia).
  rewrite Hne. unfold connected, space, connected. cbn. rewrite Hne. cbn.
  repeat split; try reflexivity; exact H.
Qed.

Lemma new_socket (acc uninit : Z) :
  0 <= acc -> _socket (AsyncClient_new acc uninit) = acc.
Proof.
  intros H. unfold AsyncClient_new.
  destruct (acc =? -1) eqn:E; [apply Z.eqb_eq in E; lia|reflexivity].
Qed.

Lemma handed_over_app (a b : list Server.event) :
  handed_over a -> handed_over b -> handed_over (a ++ b).
Proof.
  intros (Ha1 & Ha2 & Ha3) (Hb1 & Hb2 & Hb3). unfold handed_over.
  rewrite clients_app, accepts_app, nodelays_app, !map_app, Ha1, Ha2, Hb1, Hb2.
  split; [reflexivity|]. split; [reflexivity|]. apply Forall_app. auto.
Qed.

Lemma handed_over_nil : handed_over [].
Proof. split; [reflexivity|]. split; [reflexivity|constructor]. Qed.

Lemma server_step_hands_over (o : Server.op) (s : Server.AsyncServer) :
  Server.allocates o = true -> handed_over (snd (Server.step o s)).
Proof.
  intros Hal. destruct o; cbn [Server.step fst snd]; try apply handed_over_nil.
  - unfold Server.begin.
    destruct (negb (Server._socket s =? -1)), (negb task_ok), (sockfd <? 0),
      (bind_r <? 0), (listen_r <? 0); cbn [snd];
      (split; [reflexivity|]); (split; [reflexivity|constructor]).
  - unfold Server.end_. destruct (Server._socket s =? -1); cbn [snd];
      (split; [reflexivity|]); (split; [reflexivity|constructor]).
  - cbn in Hal. subst alloc_ok. unfold Server._sockIsReadable.
    destruct (Server._connect_cb s); [|apply handed_over_nil].
    destruct (acc <? 0) eqn:Hacc.
    { unfold handed_over. cbn. rewrite Hacc.
      split; [reflexivity|]. split; [reflexivity|constructor]. }
    apply Z.ltb_ge in Hacc.
    pose proof (new_fresh acc uninit Hacc) as Hf.
    pose proof (new_socket acc uninit Hacc) as Hs.
    unfold setNoDelay. rewrite Hs.
    assert (Hne : (acc =? -1) = false) by (apply Z.eqb_neq; lia).
    assert (Hlt : (acc <? 0) = false) by (apply Z.ltb_ge; exact Hacc).
    rewrite Hne. unfold handed_over. cbn. rewrite Hlt, Hs.
    split; [reflexivity|]. split; [reflexivity|].
    constructor; [exact Hf|constructor].
Qed.

(** X18.  Every accepted connection is handed over.  Over every history of
    a server in which [new AsyncClient] gives an object, the descriptors
    of the clients passed to the [onClient] handler are, in order, the
    descriptors [lwip_accept] returned: none is dropped and none is passed
    twice.  One TCP_NODELAY call is made for each of them, in the same
    order, and each client is passed as its constructor leaves it:
    connected (ESTABLISHED on a non-negative descriptor), with an empty
    queue, the whole send window free and no handler of its own. *)
Theorem accepted_clients_are_handed_over (ops : list Server.op) (s : Server.AsyncServer) :
  forallb Server.allocates ops = true ->
  let out := snd (Server.run ops s) in
  map _socket (Server.clients out) = Server.accepts out
  /\ map fst (Server.nodelays out) = Server.accepts out
  /\ Forall fresh (Server.clients out).
Proof.
  intros Hal. cbn zeta. change (handed_over (snd (Server.run ops s))).
  revert s. induction ops as [|o ops IH]; intros s; [apply handed_over_nil|].
  cbn in Hal. apply andb_true_iff in Hal. destruct Hal as [Ho Hal].
  rewrite server_run_cons. cbn [snd].
  apply handed_over_app; [apply server_step_hands_over; exact Ho|apply IH; exact Hal].
Qed.

Lemma server_step_unhandled (o : Server.op) (s : Server.AsyncServer) :
  Server._connect_cb s = false -> Server.keeps_unhandled o = true ->
  Server._connect_cb (fst (Server.step o s)) = false
  /\ filter Server.is_traffic (snd (Server.step o s)) = [].
Proof.
  intros Hcb Hk. destruct o; cbn [Server.step fst snd].
  - unfold Server.begin.
    destruct (negb (Server._socket s =? -1)), (negb task_ok), (sockfd <? 0),
      (bind_r <? 0), (listen_r <? 0); cbn; auto.
  - unfold Server.end_. destruct (Server._socket s =? -1); cbn; auto.
  - cbn in Hk. apply negb_true_iff in Hk. subst cb. cbn. auto.
  - cbn. auto.
  - unfold Server._sockIsReadable. rewrite Hcb. auto.
Qed.

(** X19.  Without a handler nothing is accepted.  Over every history of a
    server that has no [onClient] handler and is given none, [lwip_accept]
    is never called and no client is made, whatever the readable events:
    the pending connections stay in the backlog of the listening
    descriptor. *)
Theorem no_handler_no_accept (ops : list Server.op) (s : Server.AsyncServer) :
  Server._connect_cb s = false ->
  forallb Server.keeps_unhandled ops = true ->
  Server._connect_cb (fst (Server.run ops s)) = false
  /\ filter Server.is_traffic (snd (Server.run ops s)) = [].
Proof.
  revert s. induction ops as [|o ops IH]; intros s Hcb Hk; [cbn; auto|].
  cbn in Hk. apply andb_true_iff in Hk. destruct Hk as [Ho Hk].
  destruct (server_step_unhandled o s Hcb Ho) as [Hcb1 Hout1].
  destruct (IH _ Hcb1 Hk) as [Hcb2 Hout2].
  rewrite server_run_cons. cbn [fst snd].
  split; [exact Hcb2|]. rewrite filter_app, Hout1, Hout2. reflexivity.
Qed.

End ServerProofs.

Lemma accepted_clients_are_handed_over_witness :
  let ops := [Server.OpOnClient true;
              Server.OpBegin true 4 0 0;
              Server.OpReadable 5 true 0;
              Server.OpSetNoDelay true;
              Server.OpReadable (-1) true 0;
              Server.OpReadable 6 true 0;
              Server.OpEnd] in
  let out := snd (Server.run ops (Server.AsyncServer_new 0 80)) in
  Server.accepts out = [5; 6]
  /\ map _socket (Server.clients out) = [5; 6]
  /\ Server.nodelays out = [(5, false); (6, true)]
  /\ Forall fresh (Server.clients out).
Proof.
  intros ops out.
  assert (Hal : forallb Server.allocates ops = true) by reflexivity.
  destruct (accepted_clients_are_handed_over ops (Server.AsyncServer_new 0 80) Hal)
    as (H1 & _ & H3).
  fold out in H1, H3.
  assert (Ha : Server.accepts out = [5; 6]) by (vm_compute; reflexivity).
  assert (Hn : Server.nodelays out = [(5, false); (6, true)]) by (vm_compute; reflexivity).
  rewrite Ha in H1.
  split; [exact Ha|]. split; [exact H1|]. split; [exact Hn|exact H3].
Defined.

Lemma no_handler_no_accept_witness :
  let ops := [Server.OpBegin true 4 0 0;
              Server.OpReadable 5 true 0;
              Server.OpOnClient false;
              Server.OpReadable 6 true 0] in
  let s := Server.AsyncServer_new 0 80 in
  Server._socket (fst (Server.run ops s)) = 4
  /\ filter Server.is_traffic (snd (Server.run ops s)) = [].
Proof.
  intros ops s.
  assert (Hcb : Server._connect_cb s = false) by reflexivity.
  assert (Hk : forallb Server.keeps_unhandled ops = true) by reflexivity.
  destruct (no_handler_no_accept ops s Hcb Hk) as [_ H].
  split; [vm_compute; reflexivity|exact H].
Defined.

(** ** The service task *)

Lemma collect_one_covered (acc : Task.collected) (b : Task.AsyncSocketBase) :
  Task._socket b < Task.INT_MAX -> covered acc -> covered (Task.collect_one acc b).
Proof.
  intros Hb (Hlt & Htight & Hrange). unfold Task.collect_one, covered.
  destruct (Task._socket b =? -1); cbn [negb]; [auto|].
  cbn [Task.fd_set_calls Task.max_sock].
  destruct (Task.max_sock acc <=? Task._socket b) eqn:Hm.
  - apply Z.leb_le in Hm. split; [|split].
    + intros fd Hin. apply in_app_or in Hin. destruct Hin as [Hin|[<-|[]]].
      * specialize (Hlt fd Hin). lia.
      * lia.
    + right. apply in_or_app. right. left. lia.
    + lia.
  - apply Z.leb_gt in Hm. split; [|split].
    + intros fd Hin. apply in_app_or in Hin. destruct Hin as [Hin|[<-|[]]].
      * exact (Hlt fd Hin).
      * exact Hm.
    + destruct Htight as [H0|Hin]; [left; exact H0|right; apply in_or_app; left; exact Hin].
    + exact Hrange.
Qed.

Lemma collect_one_calls (acc : Task.collected) (b : Task.AsyncSocketBase) :
  Task.fd_set_calls (Task.collect_one acc b)
  = Task.fd_set_calls acc
    ++ (if Task._socket b =? -1 then [] else [Task._socket b])
  /\ Task.visited (Task.collect_one acc b)
     = Task.visited acc
       ++ [if Task._socket b =? -1 then b else Task.set_selected true b].
Proof.
  unfold Task.collect_one. destruct (Task._socket b =? -1); cbn.
  - rewrite app_nil_r. auto.
  - auto.
Qed.

Lemma fold_collect (l : list Task.AsyncSocketBase) :
  forall acc,
  Forall (fun b => Task._socket b < Task.INT_MAX) l -> covered acc ->
  let r := fold_left Task.collect_one l acc in
  covered r
  /\ Task.fd_set_calls r
     = Task.fd_set_calls acc
       ++ filter (fun fd => negb (fd =? -1)) (map Task._socket l)
  /\ Task.visited r
     = Task.visited acc
       ++ map (fun b => if Task._socket b =? -1 then b else Task.set_selected true b) l.
Proof.
  induction l as [|b l IH]; intros acc Hl Hc.
  - cbn. rewrite !app_nil_r. auto.
  - inversion Hl as [|? ? Hb Hl']; subst.
    pose proof (collect_one_covered acc b Hb Hc) as Hc1.
    destruct (collect_one_calls acc b) as [E1 E2].
    destruct (IH _ Hl' Hc1) as (H1 & H2 & H3).
    cbn [fold_left]. cbn zeta. split; [exact H1|].
    rewrite H2, H3, E1, E2, <- !app_assoc. cbn [map filter].
    destruct (Task._socket b =? -1); split; reflexivity.
Qed.

(** X20.  The first argument of [select] covers the sets.  For a list of
    monitored objects whose descriptors are below INT_MAX, the loop that
    fills the two descriptor sets gives [FD_SET] the descriptors different
    from -1, in list order, and marks exactly their objects as selected;
    the [max_sock] it leaves is above every descriptor put in the sets and
    is either 0 or one more than one of them, so it is the least
    non-negative value that covers the sets; it stays within [int]. *)
Theorem max_sock_covers_the_sets (l : list Task.AsyncSocketBase) :
  Forall (fun b => Task._socket b < Task.INT_MAX) l ->
  let r := Task.collect l in
  (forall fd, In fd (Task.fd_set_calls r) -> fd < Task.max_sock r)
  /\ (Task.max_sock r = 0 \/ In (Task.max_sock r - 1) (Task.fd_set_calls r))
  /\ 0 <= Task.max_sock r <= Task.INT_MAX
  /\ Task.fd_set_calls r = filter (fun fd => negb (fd =? -1)) (map Task._socket l)
  /\ Task.visited r
     = map (fun b => if Task._socket b =? -1 then b else Task.set_selected true b) l.
Proof.
  intros Hl.
  assert (H0 : covered (Task.mkcollected [] [] 0)).
  { split; [intros fd []|]. split; [left; reflexivity|]. unfold Task.INT_MAX. cbn. lia. }
  destruct (fold_collect l _ Hl H0) as ((H1 & H2 & H3) & H4 & H5).
  cbn zeta. unfold Task.collect. auto.
Qed.

Lemma max_sock_covers_the_sets_witness :
  let l := [Task.mkbase 4 false false 0; Task.mkbase (-1) false false 0;
            Task.mkbase 7 false false 0; Task.mkbase 5 false false 0] in
  Task.max_sock (Task.collect l) = 8
  /\ Task.fd_set_calls (Task.collect l) = [4; 7; 5]
  /\ (forall fd, In fd (Task.fd_set_calls (Task.collect l)) ->
      fd < Task.max_sock (Task.collect l)).
Proof.
  intros l.
  assert (Hl : Forall (fun b => Task._socket b < Task.INT_MAX) l).
  { repeat constructor. }
  destruct (max_sock_covers_the_sets l Hl) as (H1 & _).
  split; [reflexivity|]. split; [reflexivity|exact H1].
Defined.

(** X21.  The pause of a tick.  Whatever the two clock values, the pause at
    the end of the first half of a tick is between 1 and 125 ms; it is 1 ms
    as soon as a hook reported activity or 125 ms have already passed; and
    on an idle tick it tops the time spent up to 125 ms exactly, also when
    the 32-bit clock wrapped around between the two readings. *)
Theorem tick_delay_tops_up_to_125 (nActive t1 t2 : Z) :
  let d := Task.tick_delay nActive t1 t2 in
  1 <= d <= 125
  /\ (nActive <> 0 -> d = 1)
  /\ (125 <= u32 (t2 - t1) -> d = 1)
  /\ (nActive = 0 -> u32 (t2 - t1) < 125 -> u32 (t2 - t1) + d = 125).
Proof.
  cbn zeta. unfold Task.tick_delay.
  assert (Hr : 0 <= u32 (t2 - t1) < 2 ^ 32) by (unfold u32; apply Z.mod_pos_bound; lia).
  destruct (nActive =? 0) eqn:Hn; cbn [andb].
  - apply Z.eqb_eq in Hn.
    destruct (u32 (t2 - t1) <? 125) eqn:Hlt.
    + apply Z.ltb_lt in Hlt.
      rewrite (u32_small (125 - u32 (t2 - t1))) by lia.
      repeat split; intros; lia.
    + apply Z.ltb_ge in Hlt. repeat split; intros; lia.
  - apply Z.eqb_neq in Hn. repeat split; intros; try lia.
Qed.
